(** * PayPal Commerce checkout button: the shipping-change reconciliation

    A shallow embedding of [PaypalCommerceButtonStrategy]
    (src/checkout-buttons/strategies/paypal-commerce/paypal-commerce-button-strategy.ts)
    and the properties its specification states about it.

    Layout:
    - [JS]: the JavaScript built-ins the strategy calls: strings, Numbers
      as binary64 floats with [parseFloat], [String] and [toFixed],
      [JSON.stringify], [Array.prototype.sort];
    - the data the strategy exchanges with the gateway and the widget;
    - [Fields], [Run], [Strategy]: the private fields of an instance and
      its methods, as computations over the fields that log the calls
      made to the gateway and to the widget's [actions];
    - the vocabulary of the properties and the concrete inputs;
    - the properties, C1 to C10. *)

From Stdlib Require Import ZArith List String Ascii Bool Lia.
From Stdlib Require Import Floats DecimalString.
Import ListNotations.

Set Implicit Arguments.
Set Warnings "-inexact-float".

Local Open Scope list_scope.
Local Open Scope string_scope.

(* ================================================================== *)
(** * JavaScript built-ins                                             *)
(* ================================================================== *)

Module JS.

(** ** Strings *)

(** A string is held as the bytes of its UTF-8 encoding: two strings
    are [===] exactly when their bytes are equal. *)

Definition byte_of (c : ascii) : Z := Z.of_nat (nat_of_ascii c).

Definition ascii_of (n : Z) : ascii := ascii_of_nat (Z.to_nat n).

(** The UTF-8 encoding of a code point. *)
Definition utf8 (cp : Z) : string :=
  (if cp <? 128 then String (ascii_of cp) ""
   else if cp <? 2048 then
     String (ascii_of (192 + cp / 64))
       (String (ascii_of (128 + cp mod 64)) "")
   else if cp <? 65536 then
     String (ascii_of (224 + cp / 4096))
       (String (ascii_of (128 + (cp / 64) mod 64))
          (String (ascii_of (128 + cp mod 64)) ""))
   else
     String (ascii_of (240 + cp / 262144))
       (String (ascii_of (128 + (cp / 4096) mod 64))
          (String (ascii_of (128 + (cp / 64) mod 64))
             (String (ascii_of (128 + cp mod 64)) ""))))%Z.

Fixpoint utf8_all (cps : list Z) : string :=
  match cps with
  | [] => ""
  | cp :: rest => utf8 cp ++ utf8_all rest
  end.

(** A byte that continues a sequence. *)
Definition continues (b : Z) : bool := ((128 <=? b) && (b <=? 191))%Z.

(** The code points of the well-formed sequences of two, three and four
    bytes; [None] for bytes that are no such sequence. *)
Definition two_bytes (a b : Z) : option Z :=
  (if (194 <=? a) && (a <=? 223) && continues b
   then Some ((a - 192) * 64 + (b - 128))
   else None)%Z.

Definition three_bytes (a b c : Z) : option Z :=
  (let cp := (a - 224) * 4096 + (b - 128) * 64 + (c - 128) in
   if (224 <=? a) && (a <=? 239) && continues b && continues c
      && (2048 <=? cp) && negb ((55296 <=? cp) && (cp <=? 57343))
   then Some cp
   else None)%Z.

Definition four_bytes (a b c d : Z) : option Z :=
  (let cp :=
     (a - 240) * 262144 + (b - 128) * 4096 + (c - 128) * 64 + (d - 128) in
   if (240 <=? a) && (a <=? 244) && continues b && continues c
      && continues d && (65536 <=? cp) && (cp <=? 1114111)
   then Some cp
   else None)%Z.

(** The upper case of the code points, after the Unicode Character
    Database 14.0.0, as [String.prototype.toUpperCase] takes it (it
    knows no locale and no context): [uppercase_special] has the code
    points whose upper case is more than one code point (SpecialCasing),
    [uppercase_runs] the simple mappings, each entry
    [(first, last, stride, offset)] standing for the code points
    [first], [first + stride], ... up to [last], which map to themselves
    plus [offset]. *)
Definition uppercase_special : list (Z * list Z) :=
  [
   (223, [83; 83]); (329, [700; 78]); (496, [74; 780]);
   (912, [921; 776; 769]); (944, [933; 776; 769]); (1415, [1333; 1362]);
   (7830, [72; 817]); (7831, [84; 776]); (7832, [87; 778]);
   (7833, [89; 778]); (7834, [65; 702]); (8016, [933; 787]);
   (8018, [933; 787; 768]); (8020, [933; 787; 769]);
   (8022, [933; 787; 834]); (8064, [7944; 921]); (8065, [7945; 921]);
   (8066, [7946; 921]); (8067, [7947; 921]); (8068, [7948; 921]);
   (8069, [7949; 921]); (8070, [7950; 921]); (8071, [7951; 921]);
   (8072, [7944; 921]); (8073, [7945; 921]); (8074, [7946; 921]);
   (8075, [7947; 921]); (8076, [7948; 921]); (8077, [7949; 921]);
   (8078, [7950; 921]); (8079, [7951; 921]); (8080, [7976; 921]);
   (8081, [7977; 921]); (8082, [7978; 921]); (8083, [7979; 921]);
   (8084, [7980; 921]); (8085, [7981; 921]); (8086, [7982; 921]);
   (8087, [7983; 921]); (8088, [7976; 921]); (8089, [7977; 921]);
   (8090, [7978; 921]); (8091, [7979; 921]); (8092, [7980; 921]);
   (8093, [7981; 921]); (8094, [7982; 921]); (8095, [7983; 921]);
   (8096, [8040; 921]); (8097, [8041; 921]); (8098, [8042; 921]);
   (8099, [8043; 921]); (8100, [8044; 921]); (8101, [8045; 921]);
   (8102, [8046; 921]); (8103, [8047; 921]); (8104, [8040; 921]);
   (8105, [8041; 921]); (8106, [8042; 921]); (8107, [8043; 921]);
   (8108, [8044; 921]); (8109, [8045; 921]); (8110, [8046; 921]);
   (8111, [8047; 921]); (8114, [8122; 921]); (8115, [913; 921]);
   (8116, [902; 921]); (8118, [913; 834]); (8119, [913; 834; 921]);
   (8124, [913; 921]); (8130, [8138; 921]); (8131, [919; 921]);
   (8132, [905; 921]); (8134, [919; 834]); (8135, [919; 834; 921]);
   (8140, [919; 921]); (8146, [921; 776; 768]); (8147, [921; 776; 769]);
   (8150, [921; 834]); (8151, [921; 776; 834]); (8162, [933; 776; 768]);
   (8163, [933; 776; 769]); (8164, [929; 787]); (8166, [933; 834]);
   (8167, [933; 776; 834]); (8178, [8186; 921]); (8179, [937; 921]);
   (8180, [911; 921]); (8182, [937; 834]); (8183, [937; 834; 921]);
   (8188, [937; 921]); (64256, [70; 70]); (64257, [70; 73]);
   (64258, [70; 76]); (64259, [70; 70; 73]); (64260, [70; 70; 76]);
   (64261, [83; 84]); (64262, [83; 84]); (64275, [1348; 1350]);
   (64276, [1348; 1333]); (64277, [1348; 1339]); (64278, [1358; 1350]);
   (64279, [1348; 1341])
  ]%Z.

Definition uppercase_runs : list (Z * Z * Z * Z) :=
  [
   (97, 122, 1, -32); (181, 181, 1, 743); (224, 246, 1, -32);
   (248, 254, 1, -32); (255, 255, 1, 121); (257, 303, 2, -1);
   (305, 305, 1, -232); (307, 311, 2, -1); (314, 328, 2, -1);
   (331, 375, 2, -1); (378, 382, 2, -1); (383, 383, 1, -300);
   (384, 384, 1, 195); (387, 389, 2, -1); (392, 392, 1, -1);
   (396, 396, 1, -1); (402, 402, 1, -1); (405, 405, 1, 97);
   (409, 409, 1, -1); (410, 410, 1, 163); (414, 414, 1, 130);
   (417, 421, 2, -1); (424, 424, 1, -1); (429, 429, 1, -1);
   (432, 432, 1, -1); (436, 438, 2, -1); (441, 441, 1, -1);
   (445, 445, 1, -1); (447, 447, 1, 56); (453, 453, 1, -1);
   (454, 454, 1, -2); (456, 456, 1, -1); (457, 457, 1, -2);
   (459, 459, 1, -1); (460, 460, 1, -2); (462, 476, 2, -1);
   (477, 477, 1, -79); (479, 495, 2, -1); (498, 498, 1, -1);
   (499, 499, 1, -2); (501, 501, 1, -1); (505, 543, 2, -1);
   (547, 563, 2, -1); (572, 572, 1, -1); (575, 576, 1, 10815);
   (578, 578, 1, -1); (583, 591, 2, -1); (592, 592, 1, 10783);
   (593, 593, 1, 10780); (594, 594, 1, 10782); (595, 595, 1, -210);
   (596, 596, 1, -206); (598, 599, 1, -205); (601, 601, 1, -202);
   (603, 603, 1, -203); (604, 604, 1, 42319); (608, 608, 1, -205);
   (609, 609, 1, 42315); (611, 611, 1, -207); (613, 613, 1, 42280);
   (614, 614, 1, 42308); (616, 616, 1, -209); (617, 617, 1, -211);
   (618, 618, 1, 42308); (619, 619, 1, 10743); (620, 620, 1, 42305);
   (623, 623, 1, -211); (625, 625, 1, 10749); (626, 626, 1, -213);
   (629, 629, 1, -214); (637, 637, 1, 10727); (640, 640, 1, -218);
   (642, 642, 1, 42307); (643, 643, 1, -218); (647, 647, 1, 42282);
   (648, 648, 1, -218); (649, 649, 1, -69); (650, 651, 1, -217);
   (652, 652, 1, -71); (658, 658, 1, -219); (669, 669, 1, 42261);
   (670, 670, 1, 42258); (837, 837, 1, 84); (881, 883, 2, -1);
   (887, 887, 1, -1); (891, 893, 1, 130); (940, 940, 1, -38);
   (941, 943, 1, -37); (945, 961, 1, -32); (962, 962, 1, -31);
   (963, 971, 1, -32); (972, 972, 1, -64); (973, 974, 1, -63);
   (976, 976, 1, -62); (977, 977, 1, -57); (981, 981, 1, -47);
   (982, 982, 1, -54); (983, 983, 1, -8); (985, 1007, 2, -1);
   (1008, 1008, 1, -86); (1009, 1009, 1, -80); (1010, 1010, 1, 7);
   (1011, 1011, 1, -116); (1013, 1013, 1, -96); (1016, 1016, 1, -1);
   (1019, 1019, 1, -1); (1072, 1103, 1, -32); (1104, 1119, 1, -80);
   (1121, 1153, 2, -1); (1163, 1215, 2, -1); (1218, 1230, 2, -1);
   (1231, 1231, 1, -15); (1233, 1327, 2, -1); (1377, 1414, 1, -48);
   (4304, 4346, 1, 3008); (4349, 4351, 1, 3008); (5112, 5117, 1, -8);
   (7296, 7296, 1, -6254); (7297, 7297, 1, -6253); (7298, 7298, 1, -6244);
   (7299, 7300, 1, -6242); (7301, 7301, 1, -6243); (7302, 7302, 1, -6236);
   (7303, 7303, 1, -6181); (7304, 7304, 1, 35266); (7545, 7545, 1, 35332);
   (7549, 7549, 1, 3814); (7566, 7566, 1, 35384); (7681, 7829, 2, -1);
   (7835, 7835, 1, -59); (7841, 7935, 2, -1); (7936, 7943, 1, 8);
   (7952, 7957, 1, 8); (7968, 7975, 1, 8); (7984, 7991, 1, 8);
   (8000, 8005, 1, 8); (8017, 8023, 2, 8); (8032, 8039, 1, 8);
   (8048, 8049, 1, 74); (8050, 8053, 1, 86); (8054, 8055, 1, 100);
   (8056, 8057, 1, 128); (8058, 8059, 1, 112); (8060, 8061, 1, 126);
   (8112, 8113, 1, 8); (8126, 8126, 1, -7205); (8144, 8145, 1, 8);
   (8160, 8161, 1, 8); (8165, 8165, 1, 7); (8526, 8526, 1, -28);
   (8560, 8575, 1, -16); (8580, 8580, 1, -1); (9424, 9449, 1, -26);
   (11312, 11359, 1, -48); (11361, 11361, 1, -1);
   (11365, 11365, 1, -10795); (11366, 11366, 1, -10792);
   (11368, 11372, 2, -1); (11379, 11379, 1, -1); (11382, 11382, 1, -1);
   (11393, 11491, 2, -1); (11500, 11502, 2, -1); (11507, 11507, 1, -1);
   (11520, 11557, 1, -7264); (11559, 11559, 1, -7264);
   (11565, 11565, 1, -7264); (42561, 42605, 2, -1); (42625, 42651, 2, -1);
   (42787, 42799, 2, -1); (42803, 42863, 2, -1); (42874, 42876, 2, -1);
   (42879, 42887, 2, -1); (42892, 42892, 1, -1); (42897, 42899, 2, -1);
   (42900, 42900, 1, 48); (42903, 42921, 2, -1); (42933, 42947, 2, -1);
   (42952, 42954, 2, -1); (42961, 42961, 1, -1); (42967, 42969, 2, -1);
   (42998, 42998, 1, -1); (43859, 43859, 1, -928);
   (43888, 43967, 1, -38864); (65345, 65370, 1, -32);
   (66600, 66639, 1, -40); (66776, 66811, 1, -40); (66967, 66977, 1, -39);
   (66979, 66993, 1, -39); (66995, 67001, 1, -39); (67003, 67004, 1, -39);
   (68800, 68850, 1, -64); (71872, 71903, 1, -32); (93792, 93823, 1, -32);
   (125218, 125251, 1, -34)
  ]%Z.

Definition in_run (cp : Z) (run : Z * Z * Z * Z) : bool :=
  (let '(first, last, stride, _) := run in
   (first <=? cp) && (cp <=? last) && ((cp - first) mod stride =? 0))%Z.

Definition toUppercase (cp : Z) : list Z :=
  match find (fun entry => (fst entry =? cp)%Z) uppercase_special with
  | Some (_, upper) => upper
  | None =>
      match find (in_run cp) uppercase_runs with
      | Some (_, _, _, offset) => [(cp + offset)%Z]
      | None => [cp]
      end
  end.

(** [String.prototype.toUpperCase]: every code point is replaced by its
    upper case.  Bytes that encode no code point (as an unpaired
    surrogate would) are left as they are. *)
Fixpoint toUpperCase (s : string) : string :=
  match s with
  | EmptyString => EmptyString
  | String a s1 =>
      if (byte_of a <? 128)%Z
      then utf8_all (toUppercase (byte_of a)) ++ toUpperCase s1
      else
        match s1 with
        | String b s2 =>
            match two_bytes (byte_of a) (byte_of b) with
            | Some cp => utf8_all (toUppercase cp) ++ toUpperCase s2
            | None =>
                match s2 with
                | String c s3 =>
                    match three_bytes (byte_of a) (byte_of b) (byte_of c) with
                    | Some cp => utf8_all (toUppercase cp) ++ toUpperCase s3
                    | None =>
                        match s3 with
                        | String d s4 =>
                            match four_bytes (byte_of a) (byte_of b)
                                    (byte_of c) (byte_of d) with
                            | Some cp =>
                                utf8_all (toUppercase cp) ++ toUpperCase s4
                            | None => String a (toUpperCase s1)
                            end
                        | EmptyString => String a (toUpperCase s1)
                        end
                    end
                | EmptyString => String a (toUpperCase s1)
                end
            end
        | EmptyString => String a EmptyString
        end
  end.

(** A string is truthy unless it is empty. *)
Definition truthy_string (s : string) : bool :=
  match s with EmptyString => false | _ => true end.

(** Every object reference is truthy, whatever its properties hold. *)
Definition truthy_object {A : Type} (_ : A) : bool := true.

(** ** Numbers: IEEE 754 binary64 *)

Definition number := float.

Definition is_digit (c : ascii) : bool :=
  let n := nat_of_ascii c in andb (48 <=? n)%nat (n <=? 57)%nat.

Definition digit_value (c : ascii) : Z := Z.of_nat (nat_of_ascii c - 48).

(** The Number nearest to [m * 10^e10] (ties to even), signed by [neg]. *)
Definition SF_of_decimal (neg : bool) (m : Z) (e10 : Z) : spec_float :=
  match m with
  | Zpos p =>
      match e10 with
      | Zneg q =>
          SFdiv prec emax (S754_finite neg p 0)
                (S754_finite false (Pos.pow 10 q) 0)
      | _ =>
          binary_normalize prec emax
            (cond_Zopp neg (Zpos p * 10 ^ e10)%Z) 0 neg
      end
  | _ => S754_zero neg
  end.

Definition of_decimal (neg : bool) (m e10 : Z) : number :=
  SF2Prim (SF_of_decimal neg m e10).

(** *** [parseFloat] *)

Definition is_whitespace (c : ascii) : bool :=
  let n := nat_of_ascii c in
  orb (n =? 32)%nat (andb (9 <=? n)%nat (n <=? 13)%nat).

Fixpoint skip_whitespace (s : list ascii) : list ascii :=
  match s with
  | c :: rest => if is_whitespace c then skip_whitespace rest else s
  | [] => []
  end.

(** Reads a run of decimal digits: its value continued from [acc], how
    many digits were read, and what follows. *)
Fixpoint read_digits (s : list ascii) (acc : Z) (count : Z)
  : Z * Z * list ascii :=
  match s with
  | c :: rest =>
      if is_digit c
      then read_digits rest (acc * 10 + digit_value c)%Z (count + 1)%Z
      else (acc, count, s)
  | [] => (acc, count, [])
  end.

Fixpoint starts_with (prefix s : list ascii) : bool :=
  match prefix, s with
  | [], _ => true
  | p :: ps, c :: cs => andb (Ascii.eqb p c) (starts_with ps cs)
  | _ :: _, [] => false
  end.

(** The ExponentPart of a StrDecimalLiteral, 0 when there is none. *)
Definition read_exponent (s : list ascii) : Z :=
  match s with
  | c :: rest =>
      if orb (Ascii.eqb c "e") (Ascii.eqb c "E") then
        let '(neg, rest') :=
          match rest with
          | "-"%char :: r => (true, r)
          | "+"%char :: r => (false, r)
          | _ => (false, rest)
          end in
        let '(e, n, _) := read_digits rest' 0%Z 0%Z in
        if (n =? 0)%Z then 0%Z else if neg then (- e)%Z else e
      else 0%Z
  | [] => 0%Z
  end.

(** [parseFloat(string)]: the longest prefix of the trimmed string that
    is a StrDecimalLiteral, NaN when there is none. *)
Definition parseFloat (input : string) : number :=
  let s := skip_whitespace (list_ascii_of_string input) in
  let '(neg, s) :=
    match s with
    | "-"%char :: r => (true, r)
    | "+"%char :: r => (false, r)
    | _ => (false, s)
    end in
  if starts_with (list_ascii_of_string "Infinity") s
  then (if neg then neg_infinity else infinity)
  else
    let '(int_part, n_int, s1) := read_digits s 0%Z 0%Z in
    let '(mantissa, n_frac, s2) :=
      match s1 with
      | "."%char :: r => read_digits r int_part 0%Z
      | _ => (int_part, 0%Z, s1)
      end in
    if (n_int + n_frac =? 0)%Z then nan
    else of_decimal neg mantissa (read_exponent s2 - n_frac).

(** *** [Number::toString] *)

Definition digits_of_Z (n : Z) : string :=
  NilZero.string_of_uint (N.to_uint (Z.to_N n)).

Fixpoint zeros (n : nat) : string :=
  match n with O => "" | S n' => String "0" (zeros n') end.

Definition SF_eqb (a b : spec_float) : bool :=
  match a, b with
  | S754_zero s, S754_zero s' => Bool.eqb s s'
  | S754_infinity s, S754_infinity s' => Bool.eqb s s'
  | S754_nan, S754_nan => true
  | S754_finite s m e, S754_finite s' m' e' =>
      andb (Bool.eqb s s') (andb (Pos.eqb m m') (Z.eqb e e'))
  | _, _ => false
  end.

(** [num / den] compared with [10^n]. *)
Definition below_pow10 (num den : Z) (n : Z) : bool :=
  match n with
  | Zneg q => (num * Zpos (Pos.pow 10 q) <? den)%Z
  | _ => (num <? den * 10 ^ n)%Z
  end.

(** The [n] with [10^(n-1) <= num/den < 10^n]. *)
Definition decimal_exponent (num den : Z) : Z :=
  let est := (((Z.log2 num - Z.log2 den) * 30103) / 100000)%Z in
  let candidates := map (fun d => (est + d)%Z) [-2; -1; 0; 1; 2; 3]%Z in
  match find (below_pow10 num den) candidates with
  | Some n => n
  | None => (est + 4)%Z
  end.

(** The [k]-digit decimal [s * 10^(n-k)] that reads back as the Number
    [m * 2^e], when there is one; the closest to it when there are two. *)
Definition digits_at (m : positive) (e : Z) (n : Z) (k : Z)
  : option (Z * Z) :=
  let '(num, den) :=
    match e with
    | Zneg q => (Zpos m, Zpos (Pos.pow 2 q))
    | _ => (Zpos m * 2 ^ e, 1)%Z
    end in
  let scale := (n - k)%Z in
  (* num / (den * 10^scale) as a fraction a / b *)
  let '(a, b) :=
    match scale with
    | Zneg q => (num * Zpos (Pos.pow 10 q), den)%Z
    | _ => (num, den * 10 ^ scale)%Z
    end in
  let lo := (a / b)%Z in
  let hi := (lo + 1)%Z in
  let reads_back s :=
    SF_eqb (SF_of_decimal false s scale) (S754_finite false m e) in
  let normal s :=
    if (s =? 10 ^ k)%Z then (10 ^ (k - 1), n + 1)%Z else (s, n) in
  match reads_back lo, reads_back hi with
  | true, true =>
      (* twice the distance to [lo] against the gap *)
      let r2 := (2 * (a - lo * b))%Z in
      if (r2 <? b)%Z then Some (normal lo)
      else if (b <? r2)%Z then Some (normal hi)
      else Some (normal (if Z.even lo then lo else hi))
  | true, false => Some (normal lo)
  | false, true => Some (normal hi)
  | false, false => None
  end.

(** The shortest such decimal, trying 1 to [fuel] digits; 17 digits
    always read back, so the search ends before the fuel does. *)
Fixpoint shortest_digits (m : positive) (e : Z) (n : Z)
  (k : Z) (fuel : nat) : Z * Z * Z :=
  match fuel with
  | O => (Zpos m, n, k)
  | S fuel' =>
      match digits_at m e n k with
      | Some (s, n') => (s, n', k)
      | None => shortest_digits m e n (k + 1)%Z fuel'
      end
  end.

Definition sign_prefix (e : Z) : string :=
  if (e <? 0)%Z then "-" else "+".

(** Steps 6 to 10 of Number::toString: digits [s] (there are [k] of
    them) with the decimal point after the [n]-th. *)
Definition layout_digits (s n k : Z) : string :=
  let d := digits_of_Z s in
  if andb (k <=? n)%Z (n <=? 21)%Z then
    d ++ zeros (Z.to_nat (n - k))
  else if andb (0 <? n)%Z (n <=? 21)%Z then
    substring 0 (Z.to_nat n) d ++ "." ++
    substring (Z.to_nat n) (Z.to_nat (k - n)) d
  else if andb (-6 <? n)%Z (n <=? 0)%Z then
    "0." ++ zeros (Z.to_nat (- n)) ++ d
  else
    let e := (n - 1)%Z in
    let exponent := "e" ++ sign_prefix e ++ digits_of_Z (Z.abs e) in
    if (k =? 1)%Z then d ++ exponent
    else substring 0 1 d ++ "." ++
         substring 1 (Z.to_nat (k - 1)) d ++ exponent.

Definition Number_toString (x : number) : string :=
  match Prim2SF x with
  | S754_nan => "NaN"
  | S754_zero _ => "0"
  | S754_infinity s => if s then "-Infinity" else "Infinity"
  | S754_finite s m e =>
      let '(num, den) :=
        match e with
        | Zneg q => (Zpos m, Zpos (Pos.pow 2 q))
        | _ => (Zpos m * 2 ^ e, 1)%Z
        end in
      let n := decimal_exponent num den in
      let '(d, n', k) := shortest_digits m e n 1 17 in
      (if s then "-" else "") ++ layout_digits d n' k
  end.

(** *** [Number.prototype.toFixed] *)

(** The integer [n] for which [n / 10^f - m * 2^e] is closest to zero,
    the larger one when there are two. *)
Definition nearest_scaled (m : positive) (e : Z) (f : nat) : Z :=
  let p := (Zpos m * 10 ^ Z.of_nat f)%Z in
  match e with
  | Zneg q => ((2 * p + Zpos (Pos.pow 2 q)) / (2 * Zpos (Pos.pow 2 q)))%Z
  | _ => (p * 2 ^ e)%Z
  end.

Definition fixed_digits (n : Z) (f : nat) : string :=
  let m := digits_of_Z n in
  match f with
  | O => m
  | _ =>
      let k := String.length m in
      let m := if (k <=? f)%nat then zeros (f + 1 - k) ++ m else m in
      let k := String.length m in
      substring 0 (k - f) m ++ "." ++ substring (k - f) f m
  end.

(** [x.toFixed(f)]. *)
Definition toFixed (x : number) (f : nat) : string :=
  match Prim2SF x with
  | S754_finite s m e =>
      if (1e21 <=? abs x)%float then Number_toString x
      else (if s then "-" else "") ++ fixed_digits (nearest_scaled m e f) f
  | S754_zero _ => fixed_digits 0 f
  | _ => Number_toString x
  end.

(** ** Arrays *)

(** [Array.prototype.find] is [List.find]: the first element the
    predicate accepts, [None] for [undefined]. *)

(** [JSON.stringify] of a string, QuoteJSONString: the quote, the
    backslash and the control characters are escaped, every other code
    point is left as it is, and so are its bytes. *)
Definition hex_digit (n : nat) : ascii :=
  ascii_of_nat (if (n <? 10)%nat then 48 + n else 87 + n).

Fixpoint quote_chars (s : string) : string :=
  match s with
  | EmptyString => EmptyString
  | String c rest =>
      let n := nat_of_ascii c in
      let escaped :=
        if (n =? 34)%nat then "\" ++ String c ""
        else if (n =? 92)%nat then "\\"
        else if (n =? 8)%nat then "\b"
        else if (n =? 9)%nat then "\t"
        else if (n =? 10)%nat then "\n"
        else if (n =? 12)%nat then "\f"
        else if (n =? 13)%nat then "\r"
        else if (n <? 32)%nat then
          "\u00" ++ String (hex_digit (n / 16)) (String (hex_digit (n mod 16)) "")
        else String c "" in
      escaped ++ quote_chars rest
  end.

Definition quote (s : string) : string :=
  String (ascii_of_nat 34) (quote_chars s ++ String (ascii_of_nat 34) "").

(** [Array.prototype.sort(comparefn)].  ECMAScript fixes the result only
    for a consistent comparator; otherwise the order is
    implementation-defined.  What every engine shares is that it reads
    the elements through [comparefn] alone: an engine is modelled by the
    order of indices it produces from the outcomes of the comparisons. *)
Definition Comparisons := list (list Z).

Definition SortEngine := Comparisons -> list nat.

Definition comparison_table {A : Type} (comparefn : A -> A -> Z)
  (items : list A) : Comparisons :=
  map (fun a => map (comparefn a) items) items.

Definition pick {A : Type} (items : list A) (order : list nat) : list A :=
  flat_map (fun i => match nth_error items i with
                     | Some a => [a]
                     | None => []
                     end) order.

Fixpoint distinct (order : list nat) : bool :=
  match order with
  | [] => true
  | i :: rest => andb (negb (existsb (Nat.eqb i) rest)) (distinct rest)
  end.

(** Whether [order] lists each index below [n] once. *)
Definition rearranges (order : list nat) (n : nat) : bool :=
  andb (List.length order =? n)%nat
       (andb (forallb (fun i => (i <? n)%nat) order) (distinct order)).

(** A sort rearranges the elements, whatever the comparator: an order
    that is no rearrangement of the indices is not an engine's answer,
    and the array is then taken as it is. *)
Definition Array_sort {A : Type} (engine : SortEngine)
  (comparefn : A -> A -> Z) (items : list A) : list A :=
  let order := engine (comparison_table comparefn items) in
  if rearranges order (List.length items) then pick items order else items.

(** An engine from a sorting algorithm, run on the indices. *)
Definition engine_of
  (algorithm : (nat -> nat -> Z) -> list nat -> list nat) : SortEngine :=
  fun table =>
    algorithm (fun i j => nth j (nth i table []) 0%Z)
              (seq 0 (List.length table)).

(** Straight insertion: each element moves left past the elements that
    compare greater than it. *)
Fixpoint insert_leftwards {A : Type} (comparefn : A -> A -> Z)
  (element : A) (reversed_prefix : list A) : list A :=
  match reversed_prefix with
  | tmp :: rest =>
      if (0 <? comparefn tmp element)%Z
      then tmp :: insert_leftwards comparefn element rest
      else element :: reversed_prefix
  | [] => [element]
  end.

Definition insertion_sort {A : Type} (comparefn : A -> A -> Z)
  (items : list A) : list A :=
  rev (fold_left (fun acc x => insert_leftwards comparefn x acc) items []).

(** Run detection followed by binary insertion, the way TimSort treats
    a short array (V8 sorts arrays of fewer than 64 elements so): the
    leading run is found comparing each element with its predecessor and
    reversed when it descends, then each remaining element is placed by
    binary search. *)
Fixpoint run_tail {A : Type} (comparefn : A -> A -> Z) (descending : bool)
  (previous : A) (rest : list A) : nat :=
  match rest with
  | current :: rest' =>
      let order := comparefn current previous in
      if Bool.eqb descending (order <? 0)%Z
      then S (run_tail comparefn descending current rest')
      else O
  | [] => O
  end.

Definition count_and_make_run {A : Type} (comparefn : A -> A -> Z)
  (items : list A) : list A * list A :=
  match items with
  | first :: second :: rest =>
      let descending := (comparefn second first <? 0)%Z in
      let n := (2 + run_tail comparefn descending second rest)%nat in
      let run := firstn n items in
      (if descending then rev run else run, skipn n items)
  | _ => (items, [])
  end.

Fixpoint binary_search {A : Type} (comparefn : A -> A -> Z) (pivot : A)
  (sorted : list A) (left right : nat) (fuel : nat) : nat :=
  match fuel with
  | O => left
  | S fuel' =>
      if (left <? right)%nat then
        let mid := (left + (right - left) / 2)%nat in
        match nth_error sorted mid with
        | Some x =>
            if (comparefn pivot x <? 0)%Z
            then binary_search comparefn pivot sorted left mid fuel'
            else binary_search comparefn pivot sorted (S mid) right fuel'
        | None => left
        end
      else left
  end.

Definition binary_insert {A : Type} (comparefn : A -> A -> Z)
  (sorted : list A) (pivot : A) : list A :=
  let at_ := binary_search comparefn pivot sorted 0
               (List.length sorted) (S (List.length sorted)) in
  (firstn at_ sorted ++ pivot :: skipn at_ sorted)%list.

Definition binary_insertion_sort {A : Type} (comparefn : A -> A -> Z)
  (items : list A) : list A :=
  let '(run, rest) := count_and_make_run comparefn items in
  fold_left (binary_insert comparefn) rest run.

Definition insertion_engine : SortEngine :=
  engine_of (insertion_sort (A:=nat)).

Definition binary_insertion_engine : SortEngine :=
  engine_of (binary_insertion_sort (A:=nat)).

End JS.

(* ================================================================== *)
(** * Data exchanged with the gateway and the widget                   *)
(* ================================================================== *)

(** Each interface is a record in a module of its name, so that fields
    keep the names they have in the source.  A property that may be
    [undefined] is an [option]. *)

(** The shipping contact PayPal hands to [onShippingChange]. *)
Module ShippingAddress.
Record t := mk {
  city : string;
  postal_code : string;
  country_code : option string;
  state : option string }.
End ShippingAddress.

Module Region.
Record t := mk { code : string }.
End Region.

Module Country.
Record t := mk { code : string; subdivisions : list Region.t }.
End Country.

(** What [getStoreCountries] answers. *)
Module StoreCountries.
Record t := mk { data : list Country.t }.
End StoreCountries.

Module UnitedStatesCodes.
Record t := mk { name : string; abbreviation : string }.
End UnitedStatesCodes.

(** The object literal [address] that [_transformToAddress] builds. *)
Module Address.
Record t := mk {
  city : string;
  postalCode : string;
  countryCode : option string }.

(** [JSON.stringify(address)]: own properties in insertion order, an
    [undefined] one left out. *)
Definition stringify (a : t) : string :=
  "{" ++ JS.quote "city" ++ ":" ++ JS.quote (city a) ++ "," ++
  JS.quote "postalCode" ++ ":" ++ JS.quote (postalCode a) ++
  match countryCode a with
  | Some c => "," ++ JS.quote "countryCode" ++ ":" ++ JS.quote c
  | None => ""
  end ++ "}".
End Address.

Module Cache.
Record t := mk { countries : option StoreCountries.t }.
End Cache.

Module LineItem.
Record t := mk { id : string; quantity : JS.number }.
End LineItem.

Module LineItemMap.
Record t := mk {
  digitalItems : list LineItem.t;
  physicalItems : list LineItem.t }.
End LineItemMap.

Module CollectedLineItem.
Record t := mk { itemId : string; quantity : JS.number }.
End CollectedLineItem.

Module Cart.
Record t := mk {
  id : string;
  baseAmount : JS.number;
  lineItems : LineItemMap.t }.
End Cart.

Module AvaliableShippingOption.
Record t := mk {
  id : string;
  description : string;
  cost : JS.number;
  isRecommended : bool }.
End AvaliableShippingOption.

Module Consignment.
Record t := mk {
  id : string;
  availableShippingOptions : option (list AvaliableShippingOption.t) }.
End Consignment.

Module CheckoutWithBillingAddress.
Record t := mk {
  consignments : list Consignment.t;
  cart : Cart.t }.
End CheckoutWithBillingAddress.

(** [{ value, currency_code }] with the value a string. *)
Module Money.
Record t := mk { value : string; currency_code : string }.
End Money.

Module SelectedShippingOption.
Record t := mk { id : string; amount : Money.t }.
End SelectedShippingOption.

Module ShippingChangeData.
Record t := mk {
  shipping_address : ShippingAddress.t;
  selected_shipping_option : option SelectedShippingOption.t }.
End ShippingChangeData.

Module ConsignmentPayload.
Record t := mk {
  shippingAddress : option Address.t;
  lineItems : list CollectedLineItem.t }.
End ConsignmentPayload.

(** An entry of the list patched into the order's shipping options. *)
Module ShippingOption.
Record t := mk {
  id : string;
  type : string;
  label : string;
  selected : bool;
  amount : Money.t }.
End ShippingOption.

(** [item_total] carries [baseOrderAmount] as it is, a Number. *)
Module ItemTotal.
Record t := mk { currency_code : string; value : JS.number }.
End ItemTotal.

Module Breakdown.
Record t := mk { item_total : ItemTotal.t; shipping : option Money.t }.
End Breakdown.

Module Amount.
Record t := mk {
  currency_code : string;
  value : string;
  breakdown : Breakdown.t }.
End Amount.

Module PatchOperation.
Inductive payload :=
| AmountValue (amount : Amount.t)
| OptionsValue (options : list ShippingOption.t).

Record t := mk { op : string; path : string; value : payload }.
End PatchOperation.

(** Errors of the strategy, by class, with the message when one is
    given; [TypeError] is the engine's, for a property read off
    [undefined]. *)
Inductive Error :=
| InvalidArgumentError (message : option string)
| MissingDataError
| RequestError (cause : Error)
| TypeError.

Definition error_name (e : Error) : string :=
  match e with
  | InvalidArgumentError _ => "InvalidArgumentError"
  | MissingDataError => "MissingDataError"
  | RequestError _ => "RequestError"
  | TypeError => "TypeError"
  end.

(** What the strategy asks of its collaborators: the payment processor
    (the gateway) and the [actions] of the widget. *)
Inductive Call :=
| GetStoreCountries
| GetShippingOptions (cartId : string) (payload : list ConsignmentPayload.t)
| OrderPatch (operations : list PatchOperation.t)
| ActionsReject
| ActionsResolve.

(** What the gateway answers; its answers do not depend on when it is
    asked. *)
Module Processor.
Record t := mk {
  getStoreCountries : StoreCountries.t;
  getShippingOptions :
    string -> list ConsignmentPayload.t -> CheckoutWithBillingAddress.t }.
End Processor.

(** What a callback hands back to the widget: the value of
    [actions.order.patch], of [actions.reject] or of [actions.resolve]. *)
Inductive Returned := PatchResult | RejectResult | ResolveResult.

(* ================================================================== *)
(** * The strategy                                                     *)
(* ================================================================== *)

(** The private fields of a [PaypalCommerceButtonStrategy] instance. *)
Module Fields.
Record t := mk {
  _isCredit : option bool;
  _cache : option Cache.t;
  _submittedShippingAddress : option Address.t;
  _currentShippingAddress : option Address.t;
  _shippingOptionId : option string;
  _intent : option string }.

(** A newly constructed instance: every field [undefined]. *)
Definition fresh : t := mk None None None None None None.

Definition set_isCredit (v : option bool) (this : t) : t :=
  mk v (_cache this) (_submittedShippingAddress this)
     (_currentShippingAddress this) (_shippingOptionId this) (_intent this).

Definition set_cache (v : option Cache.t) (this : t) : t :=
  mk (_isCredit this) v (_submittedShippingAddress this)
     (_currentShippingAddress this) (_shippingOptionId this) (_intent this).

Definition set_submittedShippingAddress (v : option Address.t) (this : t) : t :=
  mk (_isCredit this) (_cache this) v
     (_currentShippingAddress this) (_shippingOptionId this) (_intent this).

Definition set_currentShippingAddress (v : option Address.t) (this : t) : t :=
  mk (_isCredit this) (_cache this) (_submittedShippingAddress this)
     v (_shippingOptionId this) (_intent this).

Definition set_shippingOptionId (v : option string) (this : t) : t :=
  mk (_isCredit this) (_cache this) (_submittedShippingAddress this)
     (_currentShippingAddress this) v (_intent this).

Definition set_intent (v : option string) (this : t) : t :=
  mk (_isCredit this) (_cache this) (_submittedShippingAddress this)
     (_currentShippingAddress this) (_shippingOptionId this) v.
End Fields.

(** ** Methods as computations

    A method runs from the fields of [this] to a value or a thrown
    error, the fields it leaves, and the calls it issued, in order.
    Fields assigned before a [throw] stay assigned. *)
Module Run.

Definition M (A : Type) : Type :=
  Fields.t -> (Error + A) * Fields.t * list Call.

Definition ret {A : Type} (a : A) : M A :=
  fun this => (inr a, this, []).

Definition throw {A : Type} (e : Error) : M A :=
  fun this => (inl e, this, []).

Definition bind {A B : Type} (m : M A) (k : A -> M B) : M B :=
  fun this =>
    match m this with
    | (inl e, this', calls) => (inl e, this', calls)
    | (inr a, this', calls) =>
        let '(r, this'', calls') := k a this' in
        (r, this'', (calls ++ calls')%list)
    end.

Definition get : M Fields.t :=
  fun this => (inr this, this, []).

Definition assign (f : Fields.t -> Fields.t) : M unit :=
  fun this => (inr tt, f this, []).

Definition call (c : Call) : M unit :=
  fun this => (inr tt, this, [c]).

Definition result {A : Type} (r : (Error + A) * Fields.t * list Call)
  : Error + A := fst (fst r).

Definition fields {A : Type} (r : (Error + A) * Fields.t * list Call)
  : Fields.t := snd (fst r).

Definition calls {A : Type} (r : (Error + A) * Fields.t * list Call)
  : list Call := snd r.

End Run.

Declare Scope run_scope.
Delimit Scope run_scope with run.
Notation "x <- m ;; k" := (Run.bind m (fun x => k))
  (at level 61, m at next level, right associativity) : run_scope.
Notation "m ;; k" := (Run.bind m (fun _ => k))
  (at level 61, right associativity) : run_scope.

Module Strategy.
Import Run.
Local Open Scope run_scope.

Section Methods.

(** The table of [../../../geography], a module outside the files at
    hand: the methods take it as it is given. *)
Variable UNITED_STATES_CODES : list UnitedStatesCodes.t.

(** [this._paypalCommercePaymentProcessor]. *)
Variable processor : Processor.t.

(** The engine's [Array.prototype.sort]. *)
Variable engine : JS.SortEngine.

Definition getStoreCountries : M StoreCountries.t :=
  call GetStoreCountries ;;
  ret (Processor.getStoreCountries processor).

Definition getShippingOptions (cartId : string)
  (payload : list ConsignmentPayload.t) : M CheckoutWithBillingAddress.t :=
  call (GetShippingOptions cartId payload) ;;
  ret (Processor.getShippingOptions processor cartId payload).

Definition order_patch (operations : list PatchOperation.t) : M Returned :=
  call (OrderPatch operations) ;; ret PatchResult.

Definition actions_reject : M Returned :=
  call ActionsReject ;; ret RejectResult.

Definition actions_resolve : M Returned :=
  call ActionsResolve ;; ret ResolveResult.

(** The field effects of [initialize]: the intent and an empty cache are
    stored before the client id is checked.  Loading the checkout and
    rendering the buttons touch no field. *)
Definition initialize (intent clientId : option string) : M unit :=
  assign (Fields.set_intent intent) ;;
  assign (Fields.set_cache (Some (Cache.mk None))) ;;
  match clientId with
  | Some c => if JS.truthy_string c then ret tt
              else throw (InvalidArgumentError None)
  | None => throw (InvalidArgumentError None)
  end.

Definition deinitialize : M unit :=
  assign (Fields.set_isCredit None) ;;
  ret tt.

Definition _handleClickButtonProvider (fundingSource : string) : M unit :=
  assign (Fields.set_isCredit
            (Some (orb (String.eqb fundingSource "credit")
                       (String.eqb fundingSource "paylater")))).

(** [JSON.stringify(address1) === JSON.stringify(address2)]; the
    stringification of [undefined] is [undefined]. *)
Definition _isAddressSame (address1 address2 : option Address.t) : bool :=
  match option_map Address.stringify address1,
        option_map Address.stringify address2 with
  | Some s1, Some s2 => String.eqb s1 s2
  | None, None => true
  | _, _ => false
  end.

Definition _transformUSCodes (code : option string)
  : option UnitedStatesCodes.t :=
  find (fun state =>
          match code with
          | Some c =>
              andb (String.eqb (UnitedStatesCodes.name state) c)
                   (JS.truthy_string (UnitedStatesCodes.abbreviation state))
          | None => false
          end)
       UNITED_STATES_CODES.

(** [countries.data.find(...)] on the upper-cased country code. *)
Definition find_country (countries : StoreCountries.t)
  (contact : ShippingAddress.t) : option Country.t :=
  find (fun country =>
          String.eqb (Country.code country)
            (JS.toUpperCase
               (match ShippingAddress.country_code contact with
                | Some c => c
                | None => ""
                end)))
       (StoreCountries.data countries).

(** The callback of [subdivisions.find]: the second disjunct does not
    look at [region]. *)
Definition region_matches (contact : ShippingAddress.t)
  (region : Region.t) : bool :=
  orb (match ShippingAddress.state contact with
       | Some s => String.eqb (Region.code region) (JS.toUpperCase s)
       | None => false
       end)
      (match _transformUSCodes (ShippingAddress.state contact) with
       | Some found => JS.truthy_object found
       | None => false
       end).

Definition find_state (countries : StoreCountries.t)
  (contact : ShippingAddress.t) : option Region.t :=
  match find_country countries contact with
  | Some addressCountry =>
      find (region_matches contact) (Country.subdivisions addressCountry)
  | None => None
  end.

Definition _transformToAddress (contact : ShippingAddress.t) : M Address.t :=
  getCountries <- getStoreCountries ;;
  this <- get ;;
  let countries :=
    match Fields._cache this with
    | Some (Cache.mk (Some cached)) => cached
    | _ => getCountries
    end in
  match Fields._cache this with
  | Some _ => assign (Fields.set_cache (Some (Cache.mk (Some countries))))
  | None => ret tt
  end ;;
  let address :=
    Address.mk (ShippingAddress.city contact)
               (ShippingAddress.postal_code contact)
               (ShippingAddress.country_code contact) in
  match find_state countries contact with
  | Some stateAddress =>
      ret (Address.mk (Address.city address)
                      (Region.code stateAddress)
                      (Address.countryCode address))
  | None => throw (InvalidArgumentError (Some "Invalid Address"))
  end.

Definition _collectLineItems (lineItems : LineItemMap.t)
  : list CollectedLineItem.t :=
  map (fun item =>
         CollectedLineItem.mk (LineItem.id item) (LineItem.quantity item))
      (LineItemMap.digitalItems lineItems ++
       LineItemMap.physicalItems lineItems)%list.


(** The condition of the callback's first branch: the buyer has chosen
    an option on the PayPal list and the address is the submitted one. *)
Definition selection_locked (this : Fields.t)
  (data : ShippingChangeData.t) : bool :=
  match ShippingChangeData.selected_shipping_option data with
  | Some _ =>
      _isAddressSame (Fields._currentShippingAddress this)
                     (Fields._submittedShippingAddress this)
  | None => false
  end.

Definition formatted_cost (option : AvaliableShippingOption.t) : string :=
  JS.toFixed
    (JS.parseFloat (JS.Number_toString (AvaliableShippingOption.cost option)))
    2.

(** The callback of [availableShippingOptions.map]; it assigns the
    enclosing [shippingAmount], threaded here as argument and result. *)
Definition decorate (this : Fields.t) (data : ShippingChangeData.t)
  (shippingAmount : string) (option : AvaliableShippingOption.t)
  : ShippingOption.t * string :=
  let '(isSelected, shippingAmount) :=
    if selection_locked this data then
      match ShippingChangeData.selected_shipping_option data with
      | Some chosen =>
          if String.eqb (AvaliableShippingOption.id option)
                        (SelectedShippingOption.id chosen)
          then (true, Money.value (SelectedShippingOption.amount chosen))
          else (false, shippingAmount)
      | None => (false, shippingAmount)
      end
    else
      if AvaliableShippingOption.isRecommended option
      then (true, formatted_cost option)
      else (false, shippingAmount) in
  (ShippingOption.mk (AvaliableShippingOption.id option)
                     "SHIPPING"
                     (AvaliableShippingOption.description option)
                     isSelected
                     (Money.mk (formatted_cost option) "USD"),
   shippingAmount).

(** [Array.prototype.map] with a callback that updates a variable of
    the enclosing function. *)
Fixpoint map_assigning {A B S : Type} (callback : S -> A -> B * S)
  (variable : S) (items : list A) : list B * S :=
  match items with
  | [] => ([], variable)
  | item :: rest =>
      let '(b, variable') := callback variable item in
      let '(bs, variable'') := map_assigning callback variable' rest in
      (b :: bs, variable'')
  end.

(** The comparator handed to [sort]: its last test is on the object
    [a], not on [a.selected]. *)
Definition by_selected (a b : ShippingOption.t) : Z :=
  if Bool.eqb (ShippingOption.selected a) (ShippingOption.selected b)
  then 0%Z
  else if JS.truthy_object a then (-1)%Z else 1%Z.

Definition amount_path : string :=
  "/purchase_units/@reference_id=='default'/amount".

Definition options_path : string :=
  "/purchase_units/@reference_id=='default'/shipping/options".

Definition _onShippingChangeHandler (data : ShippingChangeData.t)
  (cart : Cart.t) : M Returned :=
  let baseOrderAmount := Cart.baseAmount cart in
  let shippingAmount := "0.00" in
  address <- _transformToAddress (ShippingChangeData.shipping_address data) ;;
  assign (Fields.set_currentShippingAddress (Some address)) ;;
  this <- get ;;
  let lineItems := _collectLineItems (Cart.lineItems cart) in
  let payload :=
    [ConsignmentPayload.mk (Fields._currentShippingAddress this) lineItems] in
  checkout <- getShippingOptions (Cart.id cart) payload ;;
  match CheckoutWithBillingAddress.consignments checkout with
  | [] => throw TypeError
  | consignment :: _ =>
      let availableShippingOptions :=
        Consignment.availableShippingOptions consignment in
      let shippingRequired :=
        (0 <? List.length
                (LineItemMap.physicalItems
                   (Cart.lineItems (CheckoutWithBillingAddress.cart checkout))))%nat in
      if negb shippingRequired then
        patch <- order_patch
          [PatchOperation.mk "replace" amount_path
             (PatchOperation.AmountValue
                (Amount.mk "USD"
                   (JS.toFixed
                      (JS.parseFloat (JS.Number_toString baseOrderAmount)) 2)
                   (Breakdown.mk (ItemTotal.mk "USD" baseOrderAmount) None)))] ;;
        ret patch
      else if andb shippingRequired
                   (match availableShippingOptions with
                    | Some options => (List.length options =? 0)%nat
                    | None => false
                    end) then
        actions_reject
      else
        match availableShippingOptions with
        | None =>
            assign (Fields.set_submittedShippingAddress
                      (Fields._currentShippingAddress this)) ;;
            actions_resolve
        | Some options =>
            let '(decorated, shippingAmount) :=
              map_assigning (decorate this data) shippingAmount options in
            let shippingOptions :=
              JS.Array_sort engine by_selected decorated in
            match shippingOptions with
            | [] => throw TypeError
            | first :: _ =>
                (if JS.truthy_string (ShippingOption.id first)
                 then assign (Fields.set_shippingOptionId
                                (Some (ShippingOption.id first)))
                 else ret tt) ;;
                assign (Fields.set_submittedShippingAddress
                          (Fields._currentShippingAddress this)) ;;
                order_patch
                  [PatchOperation.mk "replace" amount_path
                     (PatchOperation.AmountValue
                        (Amount.mk "USD"
                           (JS.toFixed
                              (JS.parseFloat (JS.Number_toString baseOrderAmount)
                               + JS.parseFloat shippingAmount)%float 2)
                           (Breakdown.mk
                              (ItemTotal.mk "USD" baseOrderAmount)
                              (Some (Money.mk shippingAmount "USD")))));
                   PatchOperation.mk "add" options_path
                     (PatchOperation.OptionsValue shippingOptions)] ;;
                actions_resolve
            end
        end
  end.

End Methods.
End Strategy.

(* ================================================================== *)
(** * Vocabulary of the properties                                     *)
(* ================================================================== *)

Import Run.

Section Vocabulary.

Variable UNITED_STATES_CODES : list UnitedStatesCodes.t.
Variable processor : Processor.t.
Variable data : ShippingChangeData.t.
Variable cart : Cart.t.

(** The table a translation works with: the cached one when the cache
    holds one, otherwise the one the gateway has just answered. *)
Definition countries_in_use (this : Fields.t) : StoreCountries.t :=
  match Fields._cache this with
  | Some (Cache.mk (Some cached)) => cached
  | _ => Processor.getStoreCountries processor
  end.

(** The fields once a translation has stored that table in the cache,
    when there is a cache. *)
Definition cache_filled (this : Fields.t) : Fields.t :=
  match Fields._cache this with
  | Some _ =>
      Fields.set_cache (Some (Cache.mk (Some (countries_in_use this)))) this
  | None => this
  end.

(** The address a translation returns when [region] is the subdivision
    it matched. *)
Definition translated (contact : ShippingAddress.t) (region : Region.t)
  : Address.t :=
  Address.mk (ShippingAddress.city contact) (Region.code region)
             (ShippingAddress.country_code contact).

(** The state is a name of the fallback table, with an abbreviation. *)
Definition in_fallback_table (state : option string) : Prop :=
  exists entry,
    In entry UNITED_STATES_CODES /\
    Some (UnitedStatesCodes.name entry) = state /\
    UnitedStatesCodes.abbreviation entry <> "".

(** The code a contact's country is looked up by: its country code,
    upper-cased (the empty string when it has none). *)
Definition country_code_sought (contact : ShippingAddress.t) : string :=
  JS.toUpperCase (match ShippingAddress.country_code contact with
                  | Some code => code
                  | None => ""
                  end).

(** The resolved country of a contact: the first country of the table
    that has the code sought. *)
Definition resolved_country (countries : StoreCountries.t)
  (contact : ShippingAddress.t) (country : Country.t) : Prop :=
  exists before after,
    StoreCountries.data countries = (before ++ country :: after)%list /\
    Country.code country = country_code_sought contact /\
    forall earlier,
      In earlier before -> Country.code earlier <> country_code_sought contact.

(** The specification's wording of the match, the state being mapped to
    the code of [region]: that code is the state upper-cased, or it is
    the abbreviation the fallback table gives for the state as a
    name. *)
Definition accepted (contact : ShippingAddress.t) (region : Region.t) : Prop :=
  Some (Region.code region)
    = option_map JS.toUpperCase (ShippingAddress.state contact)
  \/ exists entry,
       In entry UNITED_STATES_CODES /\
       Some (UnitedStatesCodes.name entry) = ShippingAddress.state contact /\
       UnitedStatesCodes.abbreviation entry <> "" /\
       UnitedStatesCodes.abbreviation entry = Region.code region.

(** The state maps to [region], a subdivision of the resolved
    country. *)
Definition maps_to_subdivision (countries : StoreCountries.t)
  (contact : ShippingAddress.t) (region : Region.t) : Prop :=
  exists country,
    resolved_country countries contact country /\
    In region (Country.subdivisions country) /\
    accepted contact region.

(** The state maps to some subdivision of the resolved country. *)
Definition state_mappable (countries : StoreCountries.t)
  (contact : ShippingAddress.t) : Prop :=
  exists region, maps_to_subdivision countries contact region.

(** The matched subdivision: the first subdivision of the resolved
    country that the state maps to. *)
Definition matched_subdivision (countries : StoreCountries.t)
  (contact : ShippingAddress.t) (region : Region.t) : Prop :=
  exists country before after,
    resolved_country countries contact country /\
    Country.subdivisions country = (before ++ region :: after)%list /\
    accepted contact region /\
    forall earlier, In earlier before -> ~ accepted contact earlier.

(** The one request for shipping options a callback can issue. *)
Definition request_for (region : Region.t) : list ConsignmentPayload.t :=
  [ConsignmentPayload.mk
     (Some (translated (ShippingChangeData.shipping_address data) region))
     (Strategy._collectLineItems (Cart.lineItems cart))].

(** The fields when the gateway is asked for the shipping options. *)
Definition address_recorded (this : Fields.t) (region : Region.t) : Fields.t :=
  Fields.set_currentShippingAddress
    (Some (translated (ShippingChangeData.shipping_address data) region))
    (cache_filled this).

(** The two operations of the shipping branch. *)
Definition shipping_patch (shippingAmount : string)
  (shippingOptions : list ShippingOption.t) : list PatchOperation.t :=
  [PatchOperation.mk "replace" Strategy.amount_path
     (PatchOperation.AmountValue
        (Amount.mk "USD"
           (JS.toFixed
              (JS.parseFloat (JS.Number_toString (Cart.baseAmount cart))
               + JS.parseFloat shippingAmount)%float 2)
           (Breakdown.mk (ItemTotal.mk "USD" (Cart.baseAmount cart))
                         (Some (Money.mk shippingAmount "USD")))));
   PatchOperation.mk "add" Strategy.options_path
     (PatchOperation.OptionsValue shippingOptions)].

End Vocabulary.

(** The operation lists handed to [actions.order.patch], in order. *)
Definition patches (issued : list Call) : list (list PatchOperation.t) :=
  flat_map (fun c => match c with
                     | OrderPatch operations => [operations]
                     | _ => []
                     end) issued.

(** The amounts of the operations that carry one. *)
Definition amounts (operations : list PatchOperation.t) : list Amount.t :=
  flat_map (fun o => match PatchOperation.value o with
                     | PatchOperation.AmountValue a => [a]
                     | PatchOperation.OptionsValue _ => []
                     end) operations.

(** Every amount a run handed to [actions.order.patch]. *)
Definition emitted_amounts (issued : list Call) : list Amount.t :=
  flat_map amounts (patches issued).

(** The option lists of the operations that carry one. *)
Definition emitted_options (issued : list Call)
  : list (list ShippingOption.t) :=
  flat_map (fun o => match PatchOperation.value o with
                     | PatchOperation.OptionsValue l => [l]
                     | PatchOperation.AmountValue _ => []
                     end) (List.concat (patches issued)).

(** How many times the store countries were requested. *)
Definition fetches (issued : list Call) : nat :=
  List.length (filter (fun c => match c with
                                | GetStoreCountries => true
                                | _ => false
                                end) issued).

(** The total of a breakdown: the item total, a Number, read through its
    decimal text as the handler reads it; the shipping amount, a string,
    through [parseFloat]; nothing to add when there is no shipping
    entry. *)
Definition breakdown_total (b : Breakdown.t) : JS.number :=
  (JS.parseFloat (JS.Number_toString (ItemTotal.value (Breakdown.item_total b)))
   + match Breakdown.shipping b with
     | Some shipping => JS.parseFloat (Money.value shipping)
     | None => 0
     end)%float.

(** [value == item_total + (shipping ?? 0)], to two decimals. *)
Definition amount_consistent (a : Amount.t) : Prop :=
  Amount.value a = JS.toFixed (breakdown_total (Amount.breakdown a)) 2.

(** A Number printed to two decimals the way the strategy does it,
    [parseFloat(String(x)).toFixed(2)]. *)
Definition two_decimals (x : JS.number) : string :=
  JS.toFixed (JS.parseFloat (JS.Number_toString x)) 2.

(** The cost the shipping amount ends with when nothing is locked in:
    that of the last recommended option. *)
Fixpoint last_recommended_cost (amount : string)
  (options : list AvaliableShippingOption.t) : string :=
  match options with
  | [] => amount
  | option :: rest =>
      last_recommended_cost
        (if AvaliableShippingOption.isRecommended option
         then Strategy.formatted_cost option else amount)
        rest
  end.

(** The comparator the specification describes, selected descending:
    the last test reads the flag of [a]. *)
Definition by_selected_flag (a b : ShippingOption.t) : Z :=
  if Bool.eqb (ShippingOption.selected a) (ShippingOption.selected b)
  then 0%Z
  else if ShippingOption.selected a then (-1)%Z else 1%Z.

(** Selected entries first, each group in its input order. *)
Definition selected_first (options : list ShippingOption.t)
  : list ShippingOption.t :=
  (filter ShippingOption.selected options
   ++ filter (fun o => negb (ShippingOption.selected o)) options)%list.

(** ** Concrete inputs *)

Module Scenario.

Definition states : list UnitedStatesCodes.t :=
  [UnitedStatesCodes.mk "Alabama" "AL"; UnitedStatesCodes.mk "Texas" "TX"].

Definition store_countries : StoreCountries.t :=
  StoreCountries.mk
    [Country.mk "US" [Region.mk "AL"; Region.mk "TX"];
     Country.mk "FR" []].

(** A table that has Canada as well. *)
Definition north_american_countries : StoreCountries.t :=
  StoreCountries.mk
    [Country.mk "US" [Region.mk "AL"; Region.mk "TX"];
     Country.mk "CA" [Region.mk "ON"; Region.mk "QC"]].

Definition austin : ShippingAddress.t :=
  ShippingAddress.mk "Austin" "78701" (Some "us") (Some "tx").

Definition atlantis : ShippingAddress.t :=
  ShippingAddress.mk "Atlantis" "00000" (Some "US") (Some "Atlantis").

(** Austin again, the state given by its name, and a contact in Canada
    with the same state. *)
Definition austin_by_name : ShippingAddress.t :=
  ShippingAddress.mk "Austin" "78701" (Some "US") (Some "Texas").

Definition texas_in_canada : ShippingAddress.t :=
  ShippingAddress.mk "Toronto" "M5H 2N2" (Some "CA") (Some "Texas").

Definition standard : AvaliableShippingOption.t :=
  AvaliableShippingOption.mk "A" "Standard" 5%float true.

Definition express : AvaliableShippingOption.t :=
  AvaliableShippingOption.mk "B" "Express" 12%float false.

Definition overnight : AvaliableShippingOption.t :=
  AvaliableShippingOption.mk "C" "Overnight" 30%float true.

Definition physical_cart : Cart.t :=
  Cart.mk "cart-1" 49.99%float
    (LineItemMap.mk [] [LineItem.mk "item-1" 1%float]).

Definition digital_cart : Cart.t :=
  Cart.mk "cart-2" 49.99%float
    (LineItemMap.mk [LineItem.mk "item-2" 1%float] []).

(** A gateway that answers every request with the same cart and the
    same options. *)
Definition gateway (cart : Cart.t)
  (options : option (list AvaliableShippingOption.t)) : Processor.t :=
  Processor.mk store_countries
    (fun _ _ =>
       CheckoutWithBillingAddress.mk [Consignment.mk "consignment-1" options]
                                     cart).

(** A gateway whose answer has no consignment. *)
Definition gateway_without_consignments (cart : Cart.t) : Processor.t :=
  Processor.mk store_countries
    (fun _ _ => CheckoutWithBillingAddress.mk [] cart).

(** A gateway with the countries of North America. *)
Definition north_american_gateway : Processor.t :=
  Processor.mk north_american_countries
    (fun _ _ =>
       CheckoutWithBillingAddress.mk [Consignment.mk "consignment-1" None]
                                     physical_cart).

Definition no_selection : ShippingChangeData.t :=
  ShippingChangeData.mk austin None.

Definition express_selected : ShippingChangeData.t :=
  ShippingChangeData.mk austin
    (Some (SelectedShippingOption.mk "B" (Money.mk "12.00" "USD"))).

(** The two options as the callback decorates them when nothing is
    locked in. *)
Definition standard_shown : ShippingOption.t :=
  ShippingOption.mk "A" "SHIPPING" "Standard" true (Money.mk "5.00" "USD").

Definition express_shown : ShippingOption.t :=
  ShippingOption.mk "B" "SHIPPING" "Express" false (Money.mk "12.00" "USD").

(** The fields once [initialize] has run on a new instance. *)
Definition initialized : Fields.t :=
  fields (Strategy.initialize (Some "capture") (Some "client-id") Fields.fresh).

End Scenario.

(** What the widget is given as options list after a shipping change
    with the two options of the scenario, in the order [options]. *)
Definition options_shown (engine : JS.SortEngine)
  (options : list AvaliableShippingOption.t) : list (list ShippingOption.t) :=
  emitted_options
    (calls (Strategy._onShippingChangeHandler Scenario.states
              (Scenario.gateway Scenario.physical_cart (Some options))
              engine Scenario.no_selection Scenario.physical_cart
              Scenario.initialized)).

(** The fields after a shipping change on an initialized instance. *)
Definition after_shipping_change : Fields.t :=
  fields (Strategy._onShippingChangeHandler Scenario.states
            (Scenario.gateway Scenario.physical_cart
               (Some [Scenario.standard; Scenario.express]))
            JS.insertion_engine Scenario.no_selection Scenario.physical_cart
            Scenario.initialized).

(* ================================================================== *)
(** * The approval flow, the script parameters and the script loader   *)
(* ================================================================== *)

(** The methods of [PaypalCommerceButtonStrategy] besides the
    shipping-change callback, and [PaypalCommerceScriptLoader], which the
    same source file holds.  They talk to more collaborators than the
    callback does (the order actions of the widget, the form poster, the
    order action creator, the window) and throw more kinds of error, so
    they run in a wider setting: [Flow], over any state and any log. *)

Inductive MissingDataErrorType := MissingPayment.

(** Whatever can be thrown or rejected with: the errors the two classes
    construct, the engine's TypeError, and [Rejection] for the value a
    collaborator rejects with, named by a tag. *)
Inductive Thrown :=
| InvalidArgument (message : option string)
| MissingData (type : option MissingDataErrorType)
| Request (cause : Thrown)
| PaymentMethodClientUnavailable
| EngineTypeError
| Rejection (tag : string).

Fixpoint thrown_of_error (e : Error) : Thrown :=
  match e with
  | InvalidArgumentError message => InvalidArgument message
  | MissingDataError => MissingData None
  | RequestError cause => Request (thrown_of_error cause)
  | TypeError => EngineTypeError
  end.

Module Flow.

Section Monad.

Variables State Event : Type.

Definition M (A : Type) : Type :=
  State -> (Thrown + A) * State * list Event.

Definition ret {A : Type} (a : A) : M A :=
  fun s => (inr a, s, []).

Definition throw {A : Type} (e : Thrown) : M A :=
  fun s => (inl e, s, []).

Definition bind {A B : Type} (m : M A) (k : A -> M B) : M B :=
  fun s =>
    match m s with
    | (inl e, s', events) => (inl e, s', events)
    | (inr a, s', events) =>
        let '(r, s'', events') := k a s' in
        (r, s'', (events ++ events')%list)
    end.

Definition get : M State :=
  fun s => (inr s, s, []).

Definition assign (f : State -> State) : M unit :=
  fun s => (inr tt, f s, []).

Definition emit (e : Event) : M unit :=
  fun s => (inr tt, s, [e]).

(** The outcome of an awaited promise: its value, or what it rejected
    with, thrown at the [await]. *)
Definition await {A : Type} (outcome : Thrown + A) : M A :=
  fun s => (outcome, s, []).

(** [try { body } catch (e) { handler(e) }]: what [body] did before it
    threw stays done. *)
Definition try_catch {A : Type} (body : M A) (handler : Thrown -> M A) : M A :=
  fun s =>
    match body s with
    | (inl e, s', events) =>
        let '(r, s'', events') := handler e s' in
        (r, s'', (events ++ events')%list)
    | done => done
    end.

Definition result {A : Type} (r : (Thrown + A) * State * list Event)
  : Thrown + A := fst (fst r).

Definition state {A : Type} (r : (Thrown + A) * State * list Event)
  : State := snd (fst r).

Definition events {A : Type} (r : (Thrown + A) * State * list Event)
  : list Event := snd r.

End Monad.

Arguments ret {State Event A} a.
Arguments throw {State Event A} e.
Arguments bind {State Event A B} m k.
Arguments get {State Event}.
Arguments assign {State Event} f.
Arguments emit {State Event} e.
Arguments await {State Event A} outcome.
Arguments try_catch {State Event A} body handler.
Arguments result {State Event A} r.
Arguments state {State Event A} r.
Arguments events {State Event A} r.

End Flow.

Declare Scope flow_scope.
Delimit Scope flow_scope with flow.
Notation "x <- m ;; k" := (Flow.bind m (fun x => k))
  (at level 61, m at next level, right associativity) : flow_scope.
Notation "m ;; k" := (Flow.bind m (fun _ => k))
  (at level 61, right associativity) : flow_scope.

(** ** Data of the approval flow *)

(** What [actions.order.capture] and [authorize] resolve with, as far as
    the strategy reads it: [payer.name.given_name], [payer.name.surname],
    [payer.email_address] and, of each purchase unit,
    [shipping.address.address_line_1]. *)
Module PayerName.
Record t := mk { given_name : string; surname : string }.
End PayerName.

Module Payer.
Record t := mk { name : PayerName.t; email_address : string }.
End Payer.

Module PurchaseUnit.
Record t := mk { shipping_address_line_1 : string }.
End PurchaseUnit.

Module PayerDetails.
Record t := mk { payer : Payer.t; purchase_units : list PurchaseUnit.t }.
End PayerDetails.

(** [{ ...address, ...contact }]: the recorded address with the payer's
    name, email and street. *)
Module ContactAddress.
Record t := mk {
  city : string;
  postalCode : string;
  countryCode : option string;
  firstName : string;
  lastName : string;
  email : string;
  address1 : string }.
End ContactAddress.

Module ConsignmentRequest.
Record t := mk {
  shippingAddress : ContactAddress.t;
  lineItems : list CollectedLineItem.t }.
End ConsignmentRequest.

(** The fields [postForm] is given. *)
Module FormData.
Record t := mk {
  payment_type : string;
  action : string;
  provider : string;
  order_id : string }.
End FormData.

Module ApproveDataOptions.
Record t := mk { orderID : option string }.
End ApproveDataOptions.

(** ** Data of the script parameters *)

Module InitializationData.
Record t := mk {
  clientId : option string;
  intent : option string;
  isHosted : bool;
  isPayPalCreditAvailable : bool;
  merchantId : option string;
  attributionId : option string;
  availableAlternativePaymentMethods : option (list string);
  enabledAlternativePaymentMethods : option (list string) }.
End InitializationData.

(** [PaypalCommerceScriptParams], a key left out being [None]. *)
Module ScriptParams.
Record t := mk {
  client_id : option string;
  merchant_id : option string;
  commit : bool;
  currency : string;
  components : list string;
  disable_funding : list string;
  enable_funding : option (list string);
  intent : option string;
  data_partner_attribution_id : option string }.
End ScriptParams.

(** The cart of the loaded checkout, with the two properties of it that
    only [initialize] reads: [cart.currency.code] and [cart.cartAmount]. *)
Module LoadedCart.
Record t := mk {
  cart : Cart.t;
  currency_code : string;
  cartAmount : JS.number }.
End LoadedCart.

(** [PaypalButtonStyleOptions], handed on as it is. *)
Definition PaypalButtonStyleOptions := list (string * string).

(** [options.paypalCommerce], when given. *)
Module PaypalCommerceOptions.
Record t := mk {
  style : option PaypalButtonStyleOptions;
  messagingContainer : option string }.
End PaypalCommerceOptions.

Module InitializeOptions.
Record t := mk {
  methodId : string;
  containerId : string;
  paypalCommerce : option PaypalCommerceOptions.t }.
End InitializeOptions.

(** What the strategy does to the world around it. *)
Inductive Effect :=
| Asked (c : Call)
| PostForm (url : string) (data : FormData.t)
| OrderCapture
| OrderAuthorize
| GetConsignments (cartId : string) (payload : list ConsignmentRequest.t)
| GetBillingAddress (cartId : string) (address : ContactAddress.t)
| PutConsignments (cartId consignmentId shippingOptionId : string)
| SubmitOrder (methodId : string) (gatewayId : option string)
| DeleteCart (cartId : string)
| LocationAssign (url : string)
| LoadDefaultCheckout
| ProcessorInitialize (params : ScriptParams.t)
| RenderButtons (cartId container : string)
                (style : option PaypalButtonStyleOptions)
| RenderMessages (amount : JS.number) (container : string).

(** How the collaborators answer: the store, the document, the payment
    processor, the order actions of the widget, the order action
    creator ([None] when the strategy was constructed without one). *)
Module Host.
Record t := mk {
  getPaymentMethodOrThrow : string -> Thrown + InitializationData.t;
  (* dispatching loadDefaultCheckout, then state.cart.getCartOrThrow() *)
  loadDefaultCheckout : Thrown + LoadedCart.t;
  getElementById : string -> bool;
  processor_initialize : ScriptParams.t -> Thrown + unit;
  capture : Thrown + PayerDetails.t;
  authorize : Thrown + PayerDetails.t;
  getConsignments :
    string -> list ConsignmentRequest.t -> Thrown + unit;
  getBillingAddress :
    string -> ContactAddress.t -> Thrown + CheckoutWithBillingAddress.t;
  putConsignments : string -> string -> string -> Thrown + unit;
  submitOrder : option (Thrown + unit);
  deleteCart : string -> Thrown + unit }.
End Host.

(** What [onApprove] hands back: the order placement of the hosted
    flow, or the value of [postForm]. *)
Inductive Approved :=
| Placed (orderPlacement : PayerDetails.t)
| Posted.

(** ** The other methods of the strategy *)

Module Button.
Local Open Scope flow_scope.

Definition M (A : Type) : Type := Flow.M Fields.t Effect A.

(** A method of [Strategy] run in the wider setting. *)
Definition lift {A : Type} (m : Run.M A) : M A :=
  fun this =>
    let '(r, this', issued) := m this in
    (match r with
     | inl e => inl (thrown_of_error e)
     | inr a => inr a
     end,
     this', map Asked issued).

Section Methods.

Variable host : Host.t.

Definition _handleClickButtonProvider (fundingSource : string) : M unit :=
  lift (Strategy._handleClickButtonProvider fundingSource).

Definition deinitialize : M unit := lift Strategy.deinitialize.

Definition _tokenizePayment (data : ApproveDataOptions.t) : M Approved :=
  match ApproveDataOptions.orderID data with
  | Some orderID =>
      if JS.truthy_string orderID then
        this <- Flow.get ;;
        Flow.emit
          (PostForm "/checkout.php"
             (FormData.mk "paypal" "set_external_checkout"
                (match Fields._isCredit this with
                 | Some true => "paypalcommercecredit"
                 | _ => "paypalcommerce"
                 end)
                orderID)) ;;
        Flow.ret Posted
      else Flow.throw (MissingData (Some MissingPayment))
  | None => Flow.throw (MissingData (Some MissingPayment))
  end.

(** [details.purchase_units[0]] read off an empty array is a
    TypeError. *)
Definition _transformContactToAddress (details : PayerDetails.t)
  (address : Address.t) : M ContactAddress.t :=
  match PayerDetails.purchase_units details with
  | [] => Flow.throw EngineTypeError
  | unit :: _ =>
      Flow.ret
        (ContactAddress.mk
           (Address.city address)
           (Address.postalCode address)
           (Address.countryCode address)
           (PayerName.given_name (Payer.name (PayerDetails.payer details)))
           (PayerName.surname (Payer.name (PayerDetails.payer details)))
           (Payer.email_address (PayerDetails.payer details))
           (PurchaseUnit.shipping_address_line_1 unit))
  end.

(** The body of the [try] block. *)
Definition finalize_order (cart : Cart.t)
  (shippingAddress : ContactAddress.t)
  (consignmentPayload : list ConsignmentRequest.t) : M unit :=
  Flow.emit (GetConsignments (Cart.id cart) consignmentPayload) ;;
  Flow.await (Host.getConsignments host (Cart.id cart) consignmentPayload) ;;
  Flow.emit (GetBillingAddress (Cart.id cart) shippingAddress) ;;
  checkoutWithBillingAddress <-
    Flow.await (Host.getBillingAddress host (Cart.id cart) shippingAddress) ;;
  this <- Flow.get ;;
  match Fields._shippingOptionId this with
  | Some shippingOptionId =>
      if JS.truthy_string shippingOptionId then
        match CheckoutWithBillingAddress.consignments
                checkoutWithBillingAddress with
        | [] => Flow.throw EngineTypeError
        | consignment :: _ =>
            Flow.emit (PutConsignments (Cart.id cart)
                         (Consignment.id consignment) shippingOptionId) ;;
            Flow.await (Host.putConsignments host (Cart.id cart)
                          (Consignment.id consignment) shippingOptionId)
        end
      else Flow.ret tt
  | None => Flow.ret tt
  end ;;
  match Host.submitOrder host with
  | Some outcome =>
      Flow.emit (SubmitOrder "paypalcommerce" None) ;;
      Flow.await outcome
  | None => Flow.ret tt
  end ;;
  Flow.emit (DeleteCart
               (Cart.id (CheckoutWithBillingAddress.cart
                           checkoutWithBillingAddress))) ;;
  Flow.await (Host.deleteCart host
                (Cart.id (CheckoutWithBillingAddress.cart
                            checkoutWithBillingAddress))) ;;
  Flow.emit (LocationAssign "/checkout/order-confirmation").

Definition _onHostedMethodApprove (cart : Cart.t) : M PayerDetails.t :=
  this <- Flow.get ;;
  orderPlacement <-
    match Fields._intent this with
    | Some intent =>
        if String.eqb intent "capture"
        then Flow.emit OrderCapture ;; Flow.await (Host.capture host)
        else Flow.emit OrderAuthorize ;; Flow.await (Host.authorize host)
    | None => Flow.emit OrderAuthorize ;; Flow.await (Host.authorize host)
    end ;;
  this <- Flow.get ;;
  match Fields._currentShippingAddress this with
  | Some currentShippingAddress =>
      shippingAddress <-
        _transformContactToAddress orderPlacement currentShippingAddress ;;
      let lineItems := Strategy._collectLineItems (Cart.lineItems cart) in
      let consignmentPayload :=
        [ConsignmentRequest.mk shippingAddress lineItems] in
      Flow.try_catch
        (finalize_order cart shippingAddress consignmentPayload)
        (fun e => Flow.throw (Request e))
  | None => Flow.ret tt
  end ;;
  Flow.ret orderPlacement.

(** The [onApprove] callback that [initialize] registers. *)
Definition onApprove (isHosted : bool) (data : ApproveDataOptions.t)
  (cart : Cart.t) : M Approved :=
  if isHosted
  then (orderPlacement <- _onHostedMethodApprove cart ;;
        Flow.ret (Placed orderPlacement))
  else _tokenizePayment data.

(** [lodash.includes] on an array of strings. *)
Definition includes (items : list string) (x : string) : bool :=
  existsb (String.eqb x) items.

(** [availableAlternativePaymentMethods.forEach] pushing onto
    [disableFunding]. *)
Definition push_unless_enabled (enabled : list string)
  (disableFunding : list string) (apm : string) : list string :=
  if includes enabled apm then disableFunding
  else (disableFunding ++ [apm])%list.

(** Of the cart only [cart.currency.code] is read: [currencyCode]. *)
Definition _getParamsScript (initializationData : InitializationData.t)
  (currencyCode : string) : ScriptParams.t :=
  let availableAlternativePaymentMethods :=
    match InitializationData.availableAlternativePaymentMethods
            initializationData with
    | Some l => l
    | None => []
    end in
  let enabledAlternativePaymentMethods :=
    match InitializationData.enabledAlternativePaymentMethods
            initializationData with
    | Some l => l
    | None => []
    end in
  let disableFunding := ["card"] in
  let enableFunding := enabledAlternativePaymentMethods in
  let disableFunding :=
    fold_left (push_unless_enabled enabledAlternativePaymentMethods)
              availableAlternativePaymentMethods disableFunding in
  let '(enableFunding, disableFunding) :=
    if InitializationData.isPayPalCreditAvailable initializationData
    then ((enableFunding ++ ["credit"; "paylater"])%list, disableFunding)
    else (enableFunding, (disableFunding ++ ["credit"; "paylater"])%list) in
  ScriptParams.mk
    (InitializationData.clientId initializationData)
    (InitializationData.merchantId initializationData)
    false
    currencyCode
    ["buttons"; "messages"]
    disableFunding
    (match enableFunding with
     | [] => None
     | _ => Some enableFunding
     end)
    (InitializationData.intent initializationData)
    (InitializationData.attributionId initializationData).

Definition truthy_option (s : option string) : bool :=
  match s with
  | Some s => JS.truthy_string s
  | None => false
  end.

Definition initialize (options : InitializeOptions.t) : M unit :=
  initializationData <-
    Flow.await (Host.getPaymentMethodOrThrow host
                  (InitializeOptions.methodId options)) ;;
  Flow.assign (Fields.set_intent
                 (InitializationData.intent initializationData)) ;;
  Flow.assign (Fields.set_cache (Some (Cache.mk None))) ;;
  if negb (truthy_option (InitializationData.clientId initializationData))
  then Flow.throw (InvalidArgument None)
  else
    Flow.emit LoadDefaultCheckout ;;
    loaded <- Flow.await (Host.loadDefaultCheckout host) ;;
    let cart := LoadedCart.cart loaded in
    let style :=
      match InitializeOptions.paypalCommerce options with
      | Some paypalCommerce => PaypalCommerceOptions.style paypalCommerce
      | None => None
      end in
    let messagingContainer :=
      match InitializeOptions.paypalCommerce options with
      | Some paypalCommerce =>
          PaypalCommerceOptions.messagingContainer paypalCommerce
      | None => None
      end in
    let isMessagesAvailable :=
      match messagingContainer with
      | Some container =>
          andb (JS.truthy_string container)
               (Host.getElementById host container)
      | None => false
      end in
    let params :=
      _getParamsScript initializationData (LoadedCart.currency_code loaded) in
    Flow.emit (ProcessorInitialize params) ;;
    Flow.await (Host.processor_initialize host params) ;;
    Flow.emit (RenderButtons (Cart.id cart)
                 ("#" ++ InitializeOptions.containerId options) style) ;;
    match messagingContainer with
    | Some container =>
        if isMessagesAvailable
        then Flow.emit (RenderMessages (LoadedCart.cartAmount loaded)
                          ("#" ++ container))
        else Flow.ret tt
    | None => Flow.ret tt
    end.

End Methods.

(** The [onShippingChange] callback that [initialize] registers. *)
Definition onShippingChange
  (UNITED_STATES_CODES : list UnitedStatesCodes.t) (processor : Processor.t)
  (engine : JS.SortEngine) (data : ShippingChangeData.t) (cart : Cart.t)
  : M Returned :=
  lift (Strategy._onShippingChangeHandler UNITED_STATES_CODES processor
          engine data cart).

End Button.

(** ** The script loader *)

Module ScriptLoader.
Local Open Scope flow_scope.

(** [window.paypalLoadScript], by what a call of it does while
    [window.paypal] is not set: it rejects, or it resolves having left
    [window.paypal] as given. *)
Definition PaypalLoadScript (SDK : Type) : Type :=
  option ScriptParams.t -> Thrown + option SDK.

(** The two properties of [PaypalCommerceHostWindow]. *)
Record HostWindow (SDK : Type) := mkWindow {
  paypal : option SDK;
  paypalLoadScript : option (PaypalLoadScript SDK) }.

Arguments mkWindow {SDK} paypal paypalLoadScript.
Arguments paypal {SDK} h.
Arguments paypalLoadScript {SDK} h.

Inductive Event :=
| LoadScript (src : string)
| CallPaypalLoadScript (params : option ScriptParams.t).

Section Loader.

Variable SDK : Type.

(** [this._scriptLoader.loadScript]: it rejects, or it resolves having
    left [window.paypalLoadScript] as given. *)
Variable loadScript : string -> Thrown + option (PaypalLoadScript SDK).

Definition M (A : Type) : Type := Flow.M (HostWindow SDK) Event A.

Definition double_quote : string := String (ascii_of_nat 34) "".

Definition not_provided (param : string) : string :=
  "Unable to proceed because " ++ double_quote ++ param ++ double_quote
  ++ " argument in PayPal script is not provided.".

Definition _validateParams (options : option ScriptParams.t) : M unit :=
  let param :=
    match options with
    | None => Some "options"
    | Some o =>
        if negb (Button.truthy_option (ScriptParams.client_id o))
        then Some "client-id"
        else if negb (Button.truthy_option (ScriptParams.merchant_id o))
        then Some "merchant-id"
        else None
    end in
  match param with
  | Some p =>
      if JS.truthy_string p
      then Flow.throw (InvalidArgument (Some (not_provided p)))
      else Flow.ret tt
  | None => Flow.ret tt
  end.

Definition PAYPAL_SDK_VERSION : string := "5.0.5".

Definition scriptSrc : string :=
  "https://unpkg.com/@paypal/paypal-js@" ++ PAYPAL_SDK_VERSION
  ++ "/dist/iife/paypal-js.min.js".

Definition loadPaypalCommerce (params : option ScriptParams.t) : M SDK :=
  window <- Flow.get ;;
  match paypal window with
  | Some sdk => Flow.ret sdk
  | None =>
      _validateParams params ;;
      match paypalLoadScript window with
      | Some _ => Flow.ret tt
      | None =>
          Flow.emit (LoadScript scriptSrc) ;;
          found <- Flow.await (loadScript scriptSrc) ;;
          Flow.assign (fun w => mkWindow (paypal w) found) ;;
          match found with
          | Some _ => Flow.ret tt
          | None => Flow.throw PaymentMethodClientUnavailable
          end
      end ;;
      window <- Flow.get ;;
      match paypalLoadScript window with
      | None => Flow.throw EngineTypeError
      | Some paypalLoadScript =>
          Flow.emit (CallPaypalLoadScript params) ;;
          found <- Flow.await (paypalLoadScript params) ;;
          Flow.assign
            (fun w => mkWindow found (ScriptLoader.paypalLoadScript w)) ;;
          match found with
          | Some sdk => Flow.ret sdk
          | None => Flow.throw PaymentMethodClientUnavailable
          end
      end
  end.

End Loader.
End ScriptLoader.

(** ** Concrete collaborators *)

Module Session.

Definition details : PayerDetails.t :=
  PayerDetails.mk
    (Payer.mk (PayerName.mk "Ada" "Lovelace") "ada@example.com")
    [PurchaseUnit.mk "1 Main Street"].

Definition billing_checkout : CheckoutWithBillingAddress.t :=
  CheckoutWithBillingAddress.mk [Consignment.mk "consignment-9" None]
                                Scenario.physical_cart.

Definition initialization : InitializationData.t :=
  InitializationData.mk (Some "client-id") (Some "capture") true true
    (Some "merchant-id") (Some "attribution")
    (Some ["venmo"; "sepa"]) (Some ["venmo"]).

(** Collaborators that all succeed; the document holds one element,
    with the id [messages]. *)
Definition host : Host.t :=
  Host.mk (fun _ => inr initialization)
          (inr (LoadedCart.mk Scenario.physical_cart "USD" 49.99%float))
          (fun id => String.eqb id "messages")
          (fun _ => inr tt)
          (inr details) (inr details)
          (fun _ _ => inr tt)
          (fun _ _ => inr billing_checkout)
          (fun _ _ _ => inr tt)
          (Some (inr tt))
          (fun _ => inr tt).

(** The same collaborators, but the cart cannot be deleted. *)
Definition host_keeping_the_cart : Host.t :=
  Host.mk (fun _ => inr initialization)
          (inr (LoadedCart.mk Scenario.physical_cart "USD" 49.99%float))
          (fun id => String.eqb id "messages")
          (fun _ => inr tt)
          (inr details) (inr details)
          (fun _ _ => inr tt)
          (fun _ _ => inr billing_checkout)
          (fun _ _ _ => inr tt)
          (Some (inr tt))
          (fun _ => inl (Rejection "cart not deleted")).

Definition options : InitializeOptions.t :=
  InitializeOptions.mk "paypalcommerce" "button"
    (Some (PaypalCommerceOptions.mk None (Some "messages"))).

(** The same collaborators, but the placed order lists no purchase
    unit. *)
Definition details_without_units : PayerDetails.t :=
  PayerDetails.mk
    (Payer.mk (PayerName.mk "Ada" "Lovelace") "ada@example.com") [].

Definition host_without_units : Host.t :=
  Host.mk (fun _ => inr initialization)
          (inr (LoadedCart.mk Scenario.physical_cart "USD" 49.99%float))
          (fun id => String.eqb id "messages")
          (fun _ => inr tt)
          (inr details_without_units) (inr details_without_units)
          (fun _ _ => inr tt)
          (fun _ _ => inr billing_checkout)
          (fun _ _ _ => inr tt)
          (Some (inr tt))
          (fun _ => inr tt).

(** A store whose payment method has no client id. *)
Definition host_without_client_id : Host.t :=
  Host.mk (fun _ =>
             inr (InitializationData.mk None (Some "authorize") true false
                    (Some "merchant-id") None None None))
          (inr (LoadedCart.mk Scenario.physical_cart "USD" 49.99%float))
          (fun id => String.eqb id "messages")
          (fun _ => inr tt)
          (inr details) (inr details)
          (fun _ _ => inr tt)
          (fun _ _ => inr billing_checkout)
          (fun _ _ _ => inr tt)
          (Some (inr tt))
          (fun _ => inr tt).

(** A first [initialize] on a new instance, a shipping change for
    Austin after it, and the fields that change leaves. *)
Definition opening : Button.M unit := Button.initialize host options.

Definition change : (Thrown + Returned) * Fields.t * list Effect :=
  Button.onShippingChange Scenario.states
    (Scenario.gateway Scenario.physical_cart
       (Some [Scenario.standard; Scenario.express]))
    JS.insertion_engine Scenario.no_selection Scenario.physical_cart
    (Flow.state (opening Fields.fresh)).

Definition shipped : Fields.t := Flow.state change.

Definition austin_tx : Address.t := Address.mk "Austin" "TX" (Some "us").

(** A window with nothing of PayPal on it, and a script loader whose
    script installs a [paypalLoadScript] that leaves the SDK [7]. *)
Definition empty_window : ScriptLoader.HostWindow nat :=
  ScriptLoader.mkWindow None None.

Definition loadScript (src : string)
  : Thrown + option (ScriptLoader.PaypalLoadScript nat) :=
  inr (Some (fun _ => inr (Some 7%nat))).

Definition params : option ScriptParams.t :=
  Some (Button._getParamsScript initialization "USD").

End Session.

(** ** Vocabulary of the further properties *)

(** The two lists of alternative payment methods, with their default. *)
Definition available_of (data : InitializationData.t) : list string :=
  match InitializationData.availableAlternativePaymentMethods data with
  | Some l => l
  | None => []
  end.

Definition enabled_of (data : InitializationData.t) : list string :=
  match InitializationData.enabledAlternativePaymentMethods data with
  | Some l => l
  | None => []
  end.

(** The funding sources a parameter object enables. *)
Definition enabled_funding (params : ScriptParams.t) : list string :=
  match ScriptParams.enable_funding params with
  | Some l => l
  | None => []
  end.

(** Parameters the loader accepts: an object with a client id and a
    merchant id. *)
Definition params_accepted (params : option ScriptParams.t) : bool :=
  match params with
  | Some o =>
      andb (Button.truthy_option (ScriptParams.client_id o))
           (Button.truthy_option (ScriptParams.merchant_id o))
  | None => false
  end.

(** Whether the stored intent is capture, and with it the order action
    an approval calls and what that action answers. *)
Definition captures (this : Fields.t) : bool :=
  match Fields._intent this with
  | Some intent => String.eqb intent "capture"
  | None => false
  end.

Definition placement_call (this : Fields.t) : Effect :=
  if captures this then OrderCapture else OrderAuthorize.

Definition placement (host : Host.t) (this : Fields.t)
  : Thrown + PayerDetails.t :=
  if captures this then Host.capture host else Host.authorize host.

(** The funding sources that make a click a credit click. *)
Definition credit_funding (fundingSource : string) : bool :=
  orb (String.eqb fundingSource "credit")
      (String.eqb fundingSource "paylater").

(** The fields after the buttons were clicked, one funding source after
    the other. *)
Definition clicked (fundingSources : list string) (this : Fields.t)
  : Fields.t :=
  fold_left
    (fun this fundingSource =>
       Flow.state (Button._handleClickButtonProvider fundingSource this))
    fundingSources this.

(** The form a tokenization posts for an order id. *)
Definition checkout_form (provider orderID : string) : Effect :=
  PostForm "/checkout.php"
    (FormData.mk "paypal" "set_external_checkout" provider orderID).

(** The calls of the shipping-change callback among the effects, and
    the options lists it has patched into the order. *)
Definition asked (events : list Effect) : list Call :=
  flat_map (fun e => match e with Asked c => [c] | _ => [] end) events.

Definition options_patched (events : list Effect)
  : list (list ShippingOption.t) :=
  emitted_options (asked events).

(** The address an approval consigns to: the translated address with
    the payer's name, email and first street line. *)
Definition consigned_to (address : Address.t) (details : PayerDetails.t)
  (unit : PurchaseUnit.t) : ContactAddress.t :=
  ContactAddress.mk (Address.city address) (Address.postalCode address)
    (Address.countryCode address)
    (PayerName.given_name (Payer.name (PayerDetails.payer details)))
    (PayerName.surname (Payer.name (PayerDetails.payer details)))
    (Payer.email_address (PayerDetails.payer details))
    (PurchaseUnit.shipping_address_line_1 unit).

(** The style and the messaging container of the options, when they
    are given. *)
Definition style_of (options : InitializeOptions.t)
  : option PaypalButtonStyleOptions :=
  match InitializeOptions.paypalCommerce options with
  | Some paypalCommerce => PaypalCommerceOptions.style paypalCommerce
  | None => None
  end.

Definition messagingContainer_of (options : InitializeOptions.t)
  : option string :=
  match InitializeOptions.paypalCommerce options with
  | Some paypalCommerce =>
      PaypalCommerceOptions.messagingContainer paypalCommerce
  | None => None
  end.

(** What a collaborator answers to a call the approval makes after the
    order is placed, success or rejection; [None] for an effect that is
    no such call. *)
Definition answered (host : Host.t) (e : Effect) : option (Thrown + unit) :=
  match e with
  | GetConsignments cartId payload =>
      Some (Host.getConsignments host cartId payload)
  | GetBillingAddress cartId address =>
      Some (match Host.getBillingAddress host cartId address with
            | inl rejection => inl rejection
            | inr _ => inr tt
            end)
  | PutConsignments cartId consignmentId shippingOptionId =>
      Some (Host.putConsignments host cartId consignmentId shippingOptionId)
  | SubmitOrder _ _ => Host.submitOrder host
  | DeleteCart cartId => Some (Host.deleteCart host cartId)
  | _ => None
  end.

(** The [paypalLoadScript] a load can call: the one on the window, or
    else the one the loader script leaves there. *)
Definition available_loader {SDK : Type}
  (loadScript : string -> Thrown + option (ScriptLoader.PaypalLoadScript SDK))
  (window : ScriptLoader.HostWindow SDK)
  : option (ScriptLoader.PaypalLoadScript SDK) :=
  match ScriptLoader.paypalLoadScript window with
  | Some f => Some f
  | None =>
      match loadScript ScriptLoader.scriptSrc with
      | inr found => found
      | inl _ => None
      end
  end.

(* ================================================================== *)
(** * Properties                                                       *)
(* ================================================================== *)

(** ** The built-ins on sample values *)

Example toUpperCase_samples :
  map JS.toUpperCase ["tx"; "québec"; "straße"; "ǆ"; "Texas 78701"]
  = ["TX"; "QUÉBEC"; "STRASSE"; "Ǆ"; "TEXAS 78701"].
Proof. vm_compute. reflexivity. Qed.

Example Number_toString_samples :
  map JS.Number_toString [49.99; 5; 0.1 + 0.2; 1e21; 1e-7; -12.5; -0]%float
  = ["49.99"; "5"; "0.30000000000000004"; "1e+21"; "1e-7"; "-12.5"; "0"].
Proof. vm_compute. reflexivity. Qed.

Example parseFloat_samples :
  map JS.parseFloat ["49.99"; "  5.00"; "12.00 USD"; ".5e1"; "-Infinity"]
  = [49.99; 5; 12; 5; neg_infinity]%float
  /\ map (fun s => PrimFloat.is_nan (JS.parseFloat s)) ["abc"; ""; "."; "e5"]
     = [true; true; true; true].
Proof. split; vm_compute; reflexivity. Qed.

Example toFixed_samples :
  map (fun x => JS.toFixed x 2)
      [49.99 + 5; 1.005; 8.345; -0.001; 12; 0; -0; 1e21; nan]%float
  = ["54.99"; "1.00"; "8.35"; "-0.00"; "12.00"; "0.00"; "0.00"; "1e+21"; "NaN"].
Proof. vm_compute. reflexivity. Qed.

Example sort_samples :
  JS.Array_sort JS.insertion_engine Z.sub [3; 1; 2; 5; 4]%Z = [1; 2; 3; 4; 5]%Z
  /\ JS.Array_sort JS.binary_insertion_engine Z.sub [3; 1; 2; 5; 4; 0]%Z
     = [0; 1; 2; 3; 4; 5]%Z.
Proof. split; vm_compute; reflexivity. Qed.

(** A Number read back from its decimal text is the same Number, as
    ECMAScript promises of Number::toString (but for the sign of zero). *)
Example base_amount_reads_back :
  JS.parseFloat (JS.Number_toString 49.99%float) = 49.99%float
  /\ two_decimals 49.99%float = JS.toFixed 49.99%float 2.
Proof. split; vm_compute; reflexivity. Qed.

(** Splits on a scrutinee of the goal that holds no further match. *)
Ltac break_match :=
  match goal with
  | |- context [match ?x with _ => _ end] =>
      lazymatch x with
      | context [match _ with _ => _ end] => fail
      | _ => destruct x eqn:?
      end
  end.


(** ** Address translation *)

Section AddressTranslation.

Variable UNITED_STATES_CODES : list UnitedStatesCodes.t.
Variable processor : Processor.t.

Lemma transformToAddress_run (contact : ShippingAddress.t) (this : Fields.t) :
  Strategy._transformToAddress UNITED_STATES_CODES processor contact this =
  (match Strategy.find_state UNITED_STATES_CODES (countries_in_use processor this) contact with
   | Some region => inr (translated contact region)
   | None => inl (InvalidArgumentError (Some "Invalid Address"))
   end,
   cache_filled processor this,
   [GetStoreCountries]).
Proof.
  unfold Strategy._transformToAddress, Strategy.getStoreCountries,
    countries_in_use, cache_filled, translated, bind, call, ret, get,
    assign, throw.
  destruct this as [credit cache submitted current optionId intent]; simpl.
  destruct cache as [[[cached|]]|]; simpl;
    match goal with
    | |- context [Strategy.find_state ?u ?c ?k] =>
        destruct (Strategy.find_state u c k)
    end; reflexivity.
Qed.

Lemma truthy_string_iff (s : string) :
  JS.truthy_string s = true <-> s <> "".
Proof.
  destruct s; simpl; split; intro H; congruence.
Qed.

Lemma transformUSCodes_iff (state : option string) :
  (exists entry, Strategy._transformUSCodes UNITED_STATES_CODES state = Some entry)
  <-> in_fallback_table UNITED_STATES_CODES state.
Proof.
  unfold Strategy._transformUSCodes, in_fallback_table. split.
  - intros [entry H]. apply find_some in H. destruct H as [Hin Hp].
    exists entry. destruct state as [c|]; [|discriminate].
    apply andb_true_iff in Hp. destruct Hp as [Hn Ha].
    apply String.eqb_eq in Hn. apply truthy_string_iff in Ha.
    repeat split; [assumption | congruence | assumption].
  - intros [entry [Hin [Hn Ha]]].
    match goal with |- exists e, find ?p ?l = Some e =>
      destruct (find p l) eqn:E end.
    + eexists; reflexivity.
    + exfalso. apply (find_none _ _ E) in Hin.
      rewrite <- Hn in Hin. rewrite String.eqb_refl in Hin.
      apply truthy_string_iff in Ha. rewrite Ha in Hin. discriminate.
Qed.

Lemma region_matches_iff (contact : ShippingAddress.t) (region : Region.t) :
  Strategy.region_matches UNITED_STATES_CODES contact region = true <->
  (Some (Region.code region)
     = option_map JS.toUpperCase (ShippingAddress.state contact)
   \/ in_fallback_table UNITED_STATES_CODES (ShippingAddress.state contact)).
Proof.
  unfold Strategy.region_matches. rewrite orb_true_iff.
  rewrite <- transformUSCodes_iff. split.
  - intros [H|H].
    + left. destruct (ShippingAddress.state contact); [|discriminate].
      apply String.eqb_eq in H. simpl. congruence.
    + right.
      destruct (Strategy._transformUSCodes UNITED_STATES_CODES
                  (ShippingAddress.state contact)); [|discriminate].
      eexists; reflexivity.
  - intros [H|[entry H]].
    + left. destruct (ShippingAddress.state contact); [|discriminate].
      simpl in H. injection H as H. rewrite H. apply String.eqb_refl.
    + right. rewrite H. reflexivity.
Qed.

Lemma find_split {A : Type} (p : A -> bool) (l : list A) (x : A) :
  find p l = Some x ->
  exists before after,
    l = (before ++ x :: after)%list /\ p x = true /\
    forall y, In y before -> p y = false.
Proof.
  induction l as [|a l IH]; simpl; intro H; [discriminate|].
  destruct (p a) eqn:Ha.
  - injection H as <-. exists [], l. repeat split; [assumption|].
    intros y [].
  - destruct (IH H) as [before [after [Hl [Hx Hb]]]].
    exists (a :: before), after. subst l. repeat split; [assumption|].
    intros y [<-|Hy]; [assumption|]. apply Hb. assumption.
Qed.

(** The converse: an element the predicate accepts, after elements it
    refuses, is the one found. *)
Lemma find_first {A : Type} (p : A -> bool) (before after : list A) (x : A) :
  p x = true ->
  (forall y, In y before -> p y = false) ->
  find p (before ++ x :: after) = Some x.
Proof.
  intros Hx. induction before as [|a before IH]; intro Hb; simpl.
  - rewrite Hx. reflexivity.
  - rewrite (Hb a (or_introl eq_refl)). apply IH.
    intros y Hy. apply Hb. right. assumption.
Qed.

(** [find_country] finds the resolved country. *)
Lemma find_country_resolved (countries : StoreCountries.t)
  (contact : ShippingAddress.t) (country : Country.t) :
  Strategy.find_country countries contact = Some country
  <-> resolved_country countries contact country.
Proof.
  unfold Strategy.find_country, resolved_country, country_code_sought. split.
  - intro H. apply find_split in H.
    destruct H as [before [after [Hl [Hx Hb]]]].
    exists before, after. repeat split; [assumption| |].
    + apply String.eqb_eq. assumption.
    + intros earlier Hin Heq. apply String.eqb_eq in Heq.
      rewrite (Hb earlier Hin) in Heq. discriminate.
  - intros [before [after [Hl [Hx Hb]]]]. rewrite Hl. apply find_first.
    + apply String.eqb_eq. assumption.
    + intros y Hy. apply String.eqb_neq. apply Hb. assumption.
Qed.

(** The callback accepts whatever the specification's match accepts. *)
Lemma accepted_matches (contact : ShippingAddress.t) (region : Region.t) :
  accepted UNITED_STATES_CODES contact region ->
  Strategy.region_matches UNITED_STATES_CODES contact region = true.
Proof.
  intro H. apply region_matches_iff.
  destruct H as [H|[entry [Hin [Hname [Hsome _]]]]]; [left; assumption|].
  right. exists entry. repeat split; assumption.
Qed.

(** For a state that is no name of the fallback table the two agree. *)
Lemma matches_accepted (contact : ShippingAddress.t) (region : Region.t) :
  ~ in_fallback_table UNITED_STATES_CODES (ShippingAddress.state contact) ->
  Strategy.region_matches UNITED_STATES_CODES contact region = true ->
  accepted UNITED_STATES_CODES contact region.
Proof.
  intros Hnot H. apply region_matches_iff in H.
  destruct H as [H|H]; [left; assumption|contradiction].
Qed.

(** A state that maps to a subdivision is found one. *)
Lemma mappable_state_found (countries : StoreCountries.t)
  (contact : ShippingAddress.t) :
  state_mappable UNITED_STATES_CODES countries contact ->
  exists region,
    Strategy.find_state UNITED_STATES_CODES countries contact = Some region.
Proof.
  intros [region [country [Hcountry [Hin Hacc]]]].
  unfold Strategy.find_state.
  apply find_country_resolved in Hcountry. rewrite Hcountry.
  destruct (find (Strategy.region_matches UNITED_STATES_CODES contact)
              (Country.subdivisions country)) as [found|] eqn:E.
  - exists found. reflexivity.
  - apply (find_none _ _ E) in Hin.
    rewrite (accepted_matches Hacc) in Hin. discriminate.
Qed.

Lemma unfound_state_unmappable (countries : StoreCountries.t)
  (contact : ShippingAddress.t) :
  Strategy.find_state UNITED_STATES_CODES countries contact = None ->
  ~ state_mappable UNITED_STATES_CODES countries contact.
Proof.
  intros H Hmappable. apply mappable_state_found in Hmappable.
  destruct Hmappable as [region Hfound]. congruence.
Qed.

(** A state that is no name of the fallback table is found a
    subdivision only if it maps to it. *)
Lemma found_state_mappable (countries : StoreCountries.t)
  (contact : ShippingAddress.t) (region : Region.t) :
  ~ in_fallback_table UNITED_STATES_CODES (ShippingAddress.state contact) ->
  Strategy.find_state UNITED_STATES_CODES countries contact = Some region ->
  matched_subdivision UNITED_STATES_CODES countries contact region.
Proof.
  unfold Strategy.find_state, matched_subdivision. intros Hnot H.
  destruct (Strategy.find_country countries contact) as [country|] eqn:Hc;
    [|discriminate].
  apply find_country_resolved in Hc.
  apply find_split in H. destruct H as [before [after [Hl [Hx Hb]]]].
  exists country, before, after. repeat split; try assumption.
  - apply matches_accepted; assumption.
  - intros earlier Hin Hacc. apply accepted_matches in Hacc.
    rewrite (Hb earlier Hin) in Hacc. discriminate.
Qed.

Lemma matched_subdivision_maps (countries : StoreCountries.t)
  (contact : ShippingAddress.t) (region : Region.t) :
  matched_subdivision UNITED_STATES_CODES countries contact region ->
  state_mappable UNITED_STATES_CODES countries contact.
Proof.
  intros [country [before [after [Hc [Hl [Hacc _]]]]]].
  exists region, country. repeat split; try assumption.
  rewrite Hl. apply in_elt.
Qed.

(** A state that is a name of the fallback table is found the first
    subdivision of the resolved country, whichever it is. *)
Lemma named_state_found_first (countries : StoreCountries.t)
  (contact : ShippingAddress.t) (country : Country.t)
  (first : Region.t) (others : list Region.t) :
  in_fallback_table UNITED_STATES_CODES (ShippingAddress.state contact) ->
  resolved_country countries contact country ->
  Country.subdivisions country = first :: others ->
  Strategy.find_state UNITED_STATES_CODES countries contact = Some first.
Proof.
  intros Hnamed Hcountry Hsubdivisions. unfold Strategy.find_state.
  apply find_country_resolved in Hcountry.
  rewrite Hcountry, Hsubdivisions. simpl.
  assert (H : Strategy.region_matches UNITED_STATES_CODES contact first
              = true).
  { apply region_matches_iff. right. assumption. }
  rewrite H. reflexivity.
Qed.

End AddressTranslation.

(** Runs the callback up to the translation of the address. *)
Ltac unfold_handler :=
  unfold Strategy._onShippingChangeHandler, Strategy.getShippingOptions,
    Strategy.order_patch, Strategy.actions_reject, Strategy.actions_resolve,
    bind, call, ret, get, assign, throw;
  rewrite transformToAddress_run.

(** ** C6, C10: what address translation returns *)

(** C6, as the specification words it, at a contact whose state is no
    subdivision code and no name of the fallback table: the translation
    does fail, but the error it throws is an InvalidArgumentError (with
    the message Invalid Address), not an InvalidAddressError. *)
Lemma unmappable_state_throws_InvalidArgumentError :
  ~ state_mappable Scenario.states Scenario.store_countries Scenario.atlantis
  /\ result (Strategy._transformToAddress Scenario.states
               (Scenario.gateway Scenario.physical_cart None)
               Scenario.atlantis Scenario.initialized)
     = inl (InvalidArgumentError (Some "Invalid Address"))
  /\ error_name (InvalidArgumentError (Some "Invalid Address"))
     <> "InvalidAddressError".
Proof.
  split; [|split].
  - apply unfound_state_unmappable. vm_compute. reflexivity.
  - vm_compute. reflexivity.
  - discriminate.
Qed.

(** C6 (amended): address translation returns an address, without
    throwing, whenever the contact's state maps to a subdivision of its
    resolved country, by its code after upper-casing or through the
    abbreviation the fallback table gives for it as a name; it throws an
    InvalidArgumentError with the message Invalid Address whenever the
    state maps to no subdivision and is no name of the fallback table;
    and it throws nothing else, and only for a state that maps to no
    subdivision.  (What it does for a name of the fallback table that
    maps to no subdivision of the resolved country is left open
    here.) *)
Theorem mappable_state_translates_unknown_state_fails :
  forall (UNITED_STATES_CODES : list UnitedStatesCodes.t)
         (processor : Processor.t)
         (contact : ShippingAddress.t) (this : Fields.t),
    let outcome :=
      result (Strategy._transformToAddress UNITED_STATES_CODES processor
                contact this) in
    let mappable :=
      state_mappable UNITED_STATES_CODES (countries_in_use processor this)
        contact in
    (mappable -> exists address, outcome = inr address)
    /\ (~ mappable ->
        ~ in_fallback_table UNITED_STATES_CODES
            (ShippingAddress.state contact) ->
        outcome = inl (InvalidArgumentError (Some "Invalid Address")))
    /\ (forall e,
          outcome = inl e ->
          e = InvalidArgumentError (Some "Invalid Address") /\ ~ mappable).
Proof.
  intros us processor contact this outcome mappable.
  unfold outcome, mappable. clear outcome mappable.
  rewrite transformToAddress_run. unfold result; simpl.
  destruct (Strategy.find_state us (countries_in_use processor this) contact)
    as [region|] eqn:E.
  - split; [|split].
    + intros _. eexists. reflexivity.
    + intros Hnot Hname. exfalso. apply Hnot.
      apply (@matched_subdivision_maps us _ _ region).
      apply found_state_mappable; assumption.
    + intros e H. discriminate H.
  - split; [|split].
    + intro H. apply mappable_state_found in H.
      destruct H as [region H]. congruence.
    + reflexivity.
    + intros e H. injection H as <-. split; [reflexivity|].
      apply unfound_state_unmappable. assumption.
Qed.

Lemma austin_translates_atlantis_fails :
  (exists address,
      result (Strategy._transformToAddress Scenario.states
                (Scenario.gateway Scenario.physical_cart None)
                Scenario.austin Scenario.initialized) = inr address)
  /\ result (Strategy._transformToAddress Scenario.states
               (Scenario.gateway Scenario.physical_cart None)
               Scenario.atlantis Scenario.initialized)
     = inl (InvalidArgumentError (Some "Invalid Address")).
Proof.
  split.
  - apply (@mappable_state_translates_unknown_state_fails Scenario.states
             (Scenario.gateway Scenario.physical_cart None)
             Scenario.austin Scenario.initialized).
    exists (Region.mk "TX"), (Country.mk "US" [Region.mk "AL"; Region.mk "TX"]).
    split; [|split].
    + exists [], [Country.mk "FR" []]. split; [reflexivity|].
      split; [vm_compute; reflexivity|]. intros earlier [].
    + simpl. auto.
    + left. vm_compute. reflexivity.
  - apply (@mappable_state_translates_unknown_state_fails Scenario.states
             (Scenario.gateway Scenario.physical_cart None)
             Scenario.atlantis Scenario.initialized).
    + apply unfound_state_unmappable. vm_compute. reflexivity.
    + intros [entry [Hin [Hname _]]]. simpl in Hin.
      destruct Hin as [<-|[<-|[]]]; discriminate Hname.
Defined.

(** C10, where the code departs from it: for a contact whose state is a
    name of the fallback table, the postalCode of the address returned
    is the code of the first subdivision of the resolved country,
    whichever subdivision the state maps to: the callback of
    [subdivisions.find] tests that [_transformUSCodes] finds an entry
    and does not compare its abbreviation with the code of the
    subdivision. *)
Theorem state_name_translates_to_first_subdivision :
  forall (UNITED_STATES_CODES : list UnitedStatesCodes.t)
         (processor : Processor.t)
         (contact : ShippingAddress.t) (this : Fields.t)
         (country : Country.t) (first : Region.t) (others : list Region.t),
    in_fallback_table UNITED_STATES_CODES (ShippingAddress.state contact) ->
    resolved_country (countries_in_use processor this) contact country ->
    Country.subdivisions country = first :: others ->
    result (Strategy._transformToAddress UNITED_STATES_CODES processor
              contact this)
    = inr (Address.mk (ShippingAddress.city contact)
                      (Region.code first)
                      (ShippingAddress.country_code contact)).
Proof.
  intros us processor contact this country first others
    Hnamed Hcountry Hsubdivisions.
  rewrite transformToAddress_run. unfold result; simpl.
  rewrite (named_state_found_first Hnamed Hcountry Hsubdivisions).
  reflexivity.
Qed.

(** Texas, given by name, maps to the subdivision TX of the United
    States, and the address returned carries AL. *)
Lemma texas_translates_to_alabama :
  matched_subdivision Scenario.states Scenario.store_countries
    Scenario.austin_by_name (Region.mk "TX")
  /\ result (Strategy._transformToAddress Scenario.states
               (Scenario.gateway Scenario.physical_cart None)
               Scenario.austin_by_name Scenario.initialized)
     = inr (Address.mk "Austin" (Region.code (Region.mk "AL")) (Some "US")).
Proof.
  assert (Hcountry :
            resolved_country Scenario.store_countries Scenario.austin_by_name
              (Country.mk "US" [Region.mk "AL"; Region.mk "TX"])).
  { exists [], [Country.mk "FR" []]. split; [reflexivity|].
    split; [vm_compute; reflexivity|]. intros earlier []. }
  split.
  - exists (Country.mk "US" [Region.mk "AL"; Region.mk "TX"]),
      [Region.mk "AL"], []. split; [exact Hcountry|].
    split; [reflexivity|]. split.
    + right. exists (UnitedStatesCodes.mk "Texas" "TX"). simpl.
      repeat split; auto. discriminate.
    + intros earlier [<-|[]] [H|[entry [Hin [Hname [_ Hcode]]]]].
      * vm_compute in H. discriminate H.
      * simpl in Hin. destruct Hin as [<-|[<-|[]]];
          simpl in Hname, Hcode; discriminate.
  - apply (@state_name_translates_to_first_subdivision Scenario.states
             (Scenario.gateway Scenario.physical_cart None)
             Scenario.austin_by_name Scenario.initialized
             (Country.mk "US" [Region.mk "AL"; Region.mk "TX"])
             (Region.mk "AL") [Region.mk "TX"]).
    + exists (UnitedStatesCodes.mk "Texas" "TX"). simpl.
      repeat split; auto. discriminate.
    + exact Hcountry.
    + reflexivity.
Defined.

(** The same state in Canada maps to no subdivision, and the address
    returned carries ON. *)
Example texas_in_canada_translates_to_ontario :
  ~ state_mappable Scenario.states Scenario.north_american_countries
      Scenario.texas_in_canada
  /\ result (Strategy._transformToAddress Scenario.states
               Scenario.north_american_gateway
               Scenario.texas_in_canada Scenario.initialized)
     = inr (Address.mk "Toronto" "ON" (Some "CA")).
Proof.
  split; [|vm_compute; reflexivity].
  intros [region [country [Hcountry [Hin Hacc]]]].
  apply find_country_resolved in Hcountry.
  vm_compute in Hcountry. injection Hcountry as <-.
  simpl in Hin.
  destruct Hacc as [H|[entry [Hentry [Hname [_ Hcode]]]]].
  - destruct Hin as [<-|[<-|[]]]; vm_compute in H; discriminate H.
  - simpl in Hentry.
    destruct Hentry as [<-|[<-|[]]]; simpl in Hname, Hcode;
      try discriminate Hname.
    destruct Hin as [<-|[<-|[]]]; discriminate Hcode.
Qed.

(** The state given by code, in lower case and with an accent, and the
    state given by name. *)
Example state_by_code_and_by_name :
  result (Strategy._transformToAddress Scenario.states
            (Scenario.gateway Scenario.physical_cart None)
            Scenario.austin Scenario.initialized)
  = inr (Address.mk "Austin" "TX" (Some "us"))
  /\ JS.toUpperCase "québec" = "QUÉBEC"
  /\ result (Strategy._transformToAddress Scenario.states
               (Scenario.gateway Scenario.physical_cart None)
               Scenario.austin_by_name Scenario.initialized)
     = inr (Address.mk "Austin" "AL" (Some "US")).
Proof. repeat split; vm_compute; reflexivity. Qed.

(** ** Numbers *)

Lemma add_zero_spec (x : float) :
  Prim2SF (x + 0)%float =
  match Prim2SF x with
  | S754_zero _ => S754_zero false
  | v => v
  end.
Proof.
  rewrite add_spec. replace (Prim2SF 0%float) with (S754_zero false)
    by reflexivity.
  destruct (Prim2SF x) as [[|]|[|]| |s m e]; reflexivity.
Qed.

(** Adding zero does not change what [toFixed] prints: the sum is the
    same Number, or the zero of the other sign. *)
Lemma toFixed_add_zero (x : float) (f : nat) :
  JS.toFixed (x + 0)%float f = JS.toFixed x f.
Proof.
  pose proof (add_zero_spec x) as H.
  destruct (Prim2SF x) as [s|s| |s m e] eqn:E.
  - unfold JS.toFixed. rewrite H, E. reflexivity.
  - rewrite <- E in H. apply Prim2SF_inj in H. rewrite H. reflexivity.
  - rewrite <- E in H. apply Prim2SF_inj in H. rewrite H. reflexivity.
  - rewrite <- E in H. apply Prim2SF_inj in H. rewrite H. reflexivity.
Qed.

(** ** The shipping-change callback, branch by branch *)

(** C1: in every amount patch the shipping-change callback emits, on the
    digital-only branch as on the shipping branch, the value is the
    item total plus the shipping amount of its own breakdown (plus zero
    when the breakdown has no shipping entry), printed to two decimals. *)
Theorem emitted_amounts_are_consistent :
  forall (UNITED_STATES_CODES : list UnitedStatesCodes.t)
         (processor : Processor.t) (engine : JS.SortEngine)
         (data : ShippingChangeData.t) (cart : Cart.t) (this : Fields.t),
    Forall amount_consistent
      (emitted_amounts
         (calls (Strategy._onShippingChangeHandler UNITED_STATES_CODES
                   processor engine data cart this))).
Proof.
  intros us processor engine data cart this.
  unfold_handler.
  repeat (break_match; simpl; try solve [constructor]).
  all: unfold calls, emitted_amounts; simpl.
  all: constructor; [|constructor].
  all: unfold amount_consistent, breakdown_total; simpl.
  - (* digital only: no shipping entry *)
    symmetry. apply toFixed_add_zero.
  - (* shipping, the option id is kept *)
    reflexivity.
  - (* shipping, the option id is empty *)
    reflexivity.
Qed.

(** When the item total reads back from its decimal text as itself, the
    total is the plain sum of the two Numbers. *)
Lemma breakdown_total_plain_sum (b : Breakdown.t) :
  JS.parseFloat (JS.Number_toString (ItemTotal.value (Breakdown.item_total b)))
    = ItemTotal.value (Breakdown.item_total b) ->
  breakdown_total b
  = (ItemTotal.value (Breakdown.item_total b)
     + match Breakdown.shipping b with
       | Some shipping => JS.parseFloat (Money.value shipping)
       | None => 0
       end)%float.
Proof.
  intro H. unfold breakdown_total. rewrite H. reflexivity.
Qed.

(** The scenario of the specification: base amount 49.99, a recommended
    option at 5.00 and another at 12.00, nothing selected before. *)
Example emitted_amount_of_the_scenario :
  let run := Strategy._onShippingChangeHandler Scenario.states
               (Scenario.gateway Scenario.physical_cart
                  (Some [Scenario.standard; Scenario.express]))
               JS.insertion_engine Scenario.no_selection
               Scenario.physical_cart Scenario.initialized in
  emitted_amounts (calls run)
  = [Amount.mk "USD" "54.99"
       (Breakdown.mk (ItemTotal.mk "USD" 49.99%float)
                     (Some (Money.mk "5.00" "USD")))]
  /\ Fields._shippingOptionId (fields run) = Some "A".
Proof. split; vm_compute; reflexivity. Qed.

(** ** Sorting *)

Lemma pick_length {A : Type} (items : list A) (order : list nat) :
  forallb (fun i => (i <? List.length items)%nat) order = true ->
  List.length (JS.pick items order) = List.length order.
Proof.
  induction order as [|i order IH]; simpl; intro H.
  - reflexivity.
  - apply andb_true_iff in H. destruct H as [Hi Hrest].
    apply Nat.ltb_lt in Hi. apply nth_error_Some in Hi.
    destruct (nth_error items i); [|contradiction].
    simpl. rewrite (IH Hrest). reflexivity.
Qed.

(** Sorting keeps the number of elements. *)
Lemma Array_sort_length {A : Type} (engine : JS.SortEngine)
  (comparefn : A -> A -> Z) (items : list A) :
  List.length (JS.Array_sort engine comparefn items) = List.length items.
Proof.
  unfold JS.Array_sort.
  destruct (JS.rearranges _ _) eqn:H; [|reflexivity].
  unfold JS.rearranges in H.
  apply andb_true_iff in H. destruct H as [Hlen H].
  apply andb_true_iff in H. destruct H as [Hrange _].
  apply Nat.eqb_eq in Hlen. rewrite (pick_length _ _ Hrange). exact Hlen.
Qed.

Lemma map_assigning_length {A B S : Type} (callback : S -> A -> B * S)
  (variable : S) (items : list A) :
  List.length (fst (Strategy.map_assigning callback variable items))
  = List.length items.
Proof.
  revert variable. induction items as [|item rest IH]; intro variable; simpl.
  - reflexivity.
  - destruct (callback variable item) as [b v].
    specialize (IH v).
    destruct (Strategy.map_assigning callback v rest). simpl in *.
    rewrite IH. reflexivity.
Qed.

Section ShippingChange.

Variable UNITED_STATES_CODES : list UnitedStatesCodes.t.
Variable processor : Processor.t.
Variable engine : JS.SortEngine.
Variable data : ShippingChangeData.t.
Variable cart : Cart.t.

Let handler : M Returned :=
  Strategy._onShippingChangeHandler UNITED_STATES_CODES processor engine
    data cart.

(** The gateway is asked for shipping options only once the address has
    been translated, and for that address. *)
Lemma shipping_options_requested (this : Fields.t) (cartId : string)
  (payload : list ConsignmentPayload.t) :
  In (GetShippingOptions cartId payload) (calls (handler this)) ->
  exists region,
    Strategy.find_state UNITED_STATES_CODES (countries_in_use processor this)
      (ShippingChangeData.shipping_address data) = Some region
    /\ cartId = Cart.id cart
    /\ payload = request_for data cart region.
Proof.
  unfold handler. unfold_handler.
  destruct (Strategy.find_state UNITED_STATES_CODES
              (countries_in_use processor this)
              (ShippingChangeData.shipping_address data))
    as [region|]; simpl.
  - repeat (break_match; simpl).
    all: unfold calls; simpl; intro H.
    all: exists region; split; [reflexivity|].
    all: destruct H as [H|[H|H]]; [discriminate H| |].
    all: try (injection H as <- <-; split; reflexivity).
    all: repeat (destruct H as [H|H]; try discriminate H); contradiction.
  - unfold calls; simpl. intros [H|[]]. discriminate H.
Qed.

(** The digital-only branch. *)
Lemma handler_digital_only (this : Fields.t) (region : Region.t)
  (consignment : Consignment.t) (others : list Consignment.t) :
  Strategy.find_state UNITED_STATES_CODES (countries_in_use processor this)
    (ShippingChangeData.shipping_address data) = Some region ->
  CheckoutWithBillingAddress.consignments
    (Processor.getShippingOptions processor (Cart.id cart)
       (request_for data cart region)) = consignment :: others ->
  LineItemMap.physicalItems
    (Cart.lineItems
       (CheckoutWithBillingAddress.cart
          (Processor.getShippingOptions processor (Cart.id cart)
             (request_for data cart region)))) = [] ->
  handler this =
  (inr PatchResult,
   Fields.set_currentShippingAddress
     (Some (translated (ShippingChangeData.shipping_address data) region))
     (cache_filled processor this),
   [GetStoreCountries;
    GetShippingOptions (Cart.id cart) (request_for data cart region);
    OrderPatch
      [PatchOperation.mk "replace" Strategy.amount_path
         (PatchOperation.AmountValue
            (Amount.mk "USD"
               (JS.toFixed
                  (JS.parseFloat (JS.Number_toString (Cart.baseAmount cart)))
                  2)
               (Breakdown.mk (ItemTotal.mk "USD" (Cart.baseAmount cart))
                             None)))]]).
Proof.
  intros Hstate Hcons Hphys.
  unfold handler. unfold_handler. rewrite Hstate. simpl.
  unfold request_for in Hcons, Hphys. rewrite Hcons, Hphys. reflexivity.
Qed.

(** The branch that refuses the address. *)
Lemma handler_rejects (this : Fields.t) (region : Region.t)
  (consignment : Consignment.t) (others : list Consignment.t) :
  Strategy.find_state UNITED_STATES_CODES (countries_in_use processor this)
    (ShippingChangeData.shipping_address data) = Some region ->
  CheckoutWithBillingAddress.consignments
    (Processor.getShippingOptions processor (Cart.id cart)
       (request_for data cart region)) = consignment :: others ->
  LineItemMap.physicalItems
    (Cart.lineItems
       (CheckoutWithBillingAddress.cart
          (Processor.getShippingOptions processor (Cart.id cart)
             (request_for data cart region)))) <> [] ->
  Consignment.availableShippingOptions consignment = Some [] ->
  handler this =
  (inr RejectResult,
   Fields.set_currentShippingAddress
     (Some (translated (ShippingChangeData.shipping_address data) region))
     (cache_filled processor this),
   [GetStoreCountries;
    GetShippingOptions (Cart.id cart) (request_for data cart region);
    ActionsReject]).
Proof.
  intros Hstate Hcons Hphys Hopts.
  unfold handler. unfold_handler. rewrite Hstate. simpl.
  unfold request_for in Hcons, Hphys. rewrite Hcons.
  destruct (LineItemMap.physicalItems _) as [|item items];
    [contradiction|].
  simpl. rewrite Hopts. reflexivity.
Qed.

(** The shipping branch: the options are decorated, sorted and patched
    in with the amount. *)
Lemma handler_resolves (this : Fields.t) (region : Region.t)
  (consignment : Consignment.t) (others : list Consignment.t)
  (option : AvaliableShippingOption.t)
  (options : list AvaliableShippingOption.t) :
  Strategy.find_state UNITED_STATES_CODES (countries_in_use processor this)
    (ShippingChangeData.shipping_address data) = Some region ->
  CheckoutWithBillingAddress.consignments
    (Processor.getShippingOptions processor (Cart.id cart)
       (request_for data cart region)) = consignment :: others ->
  LineItemMap.physicalItems
    (Cart.lineItems
       (CheckoutWithBillingAddress.cart
          (Processor.getShippingOptions processor (Cart.id cart)
             (request_for data cart region)))) <> [] ->
  Consignment.availableShippingOptions consignment = Some (option :: options) ->
  handler this =
  let decorated :=
    Strategy.map_assigning
      (Strategy.decorate (address_recorded processor data this region) data) "0.00"
      (option :: options) in
  match JS.Array_sort engine Strategy.by_selected (fst decorated) with
  | [] =>
      (inl TypeError, address_recorded processor data this region,
       [GetStoreCountries;
        GetShippingOptions (Cart.id cart) (request_for data cart region)])
  | first :: rest =>
      (inr ResolveResult,
       Fields.set_submittedShippingAddress
         (Some (translated (ShippingChangeData.shipping_address data) region))
         (if JS.truthy_string (ShippingOption.id first)
          then Fields.set_shippingOptionId (Some (ShippingOption.id first))
                 (address_recorded processor data this region)
          else address_recorded processor data this region),
       [GetStoreCountries;
        GetShippingOptions (Cart.id cart) (request_for data cart region);
        OrderPatch (shipping_patch cart (snd decorated) (first :: rest));
        ActionsResolve])
  end.
Proof.
  intros Hstate Hcons Hphys Hopts.
  unfold handler. unfold_handler. rewrite Hstate.
  cbn -[Strategy.map_assigning].
  unfold request_for in Hcons, Hphys. rewrite Hcons.
  destruct (LineItemMap.physicalItems _) as [|item items];
    [contradiction|].
  cbn -[Strategy.map_assigning]. rewrite Hopts.
  cbn -[Strategy.map_assigning].
  fold (address_recorded processor data this region).
  destruct (Strategy.map_assigning
              (Strategy.decorate (address_recorded processor data this region) data)
              "0.00" (option :: options)) as [decorated amount].
  cbn [fst snd].
  destruct (JS.Array_sort engine Strategy.by_selected decorated)
    as [|first rest]; [reflexivity|].
  destruct (JS.truthy_string (ShippingOption.id first)); reflexivity.
Qed.

(** What the shipping branch patches in as options: the sorted list. *)
Lemma handler_emitted_options (this : Fields.t) (region : Region.t)
  (consignment : Consignment.t) (others : list Consignment.t)
  (option : AvaliableShippingOption.t)
  (options : list AvaliableShippingOption.t) :
  Strategy.find_state UNITED_STATES_CODES (countries_in_use processor this)
    (ShippingChangeData.shipping_address data) = Some region ->
  CheckoutWithBillingAddress.consignments
    (Processor.getShippingOptions processor (Cart.id cart)
       (request_for data cart region)) = consignment :: others ->
  LineItemMap.physicalItems
    (Cart.lineItems
       (CheckoutWithBillingAddress.cart
          (Processor.getShippingOptions processor (Cart.id cart)
             (request_for data cart region)))) <> [] ->
  Consignment.availableShippingOptions consignment = Some (option :: options) ->
  emitted_options (calls (handler this)) =
  [JS.Array_sort engine Strategy.by_selected
     (fst (Strategy.map_assigning
             (Strategy.decorate (address_recorded processor data this region)
                data)
             "0.00" (option :: options)))].
Proof.
  intros Hstate Hcons Hphys Hopts.
  rewrite (handler_resolves this Hstate Hcons Hphys Hopts).
  cbv zeta.
  destruct (JS.Array_sort engine Strategy.by_selected _) as [|first rest] eqn:E;
    [|reflexivity].
  apply (f_equal (@List.length _)) in E.
  rewrite Array_sort_length, map_assigning_length in E. discriminate E.
Qed.

End ShippingChange.

Lemma cache_filled_keeps (processor : Processor.t) (this : Fields.t) :
  Fields._isCredit (cache_filled processor this) = Fields._isCredit this
  /\ Fields._submittedShippingAddress (cache_filled processor this)
     = Fields._submittedShippingAddress this
  /\ Fields._currentShippingAddress (cache_filled processor this)
     = Fields._currentShippingAddress this
  /\ Fields._shippingOptionId (cache_filled processor this)
     = Fields._shippingOptionId this
  /\ Fields._intent (cache_filled processor this) = Fields._intent this.
Proof.
  unfold cache_filled. destruct (Fields._cache this); repeat split.
Qed.

(** C4: when the gateway, asked for the shipping options of the
    translated address, answers with a cart that has a physical item
    and with an empty list of options, the callback returns what
    [actions.reject] returns and hands no operation to
    [actions.order.patch]. *)
Theorem empty_options_reject_without_patch :
  forall (UNITED_STATES_CODES : list UnitedStatesCodes.t)
         (processor : Processor.t) (engine : JS.SortEngine)
         (data : ShippingChangeData.t) (cart : Cart.t) (this : Fields.t)
         (cartId : string) (payload : list ConsignmentPayload.t)
         (consignment : Consignment.t) (others : list Consignment.t),
    In (GetShippingOptions cartId payload)
       (calls (Strategy._onShippingChangeHandler UNITED_STATES_CODES
                 processor engine data cart this)) ->
    CheckoutWithBillingAddress.consignments
      (Processor.getShippingOptions processor cartId payload)
      = consignment :: others ->
    Consignment.availableShippingOptions consignment = Some [] ->
    LineItemMap.physicalItems
      (Cart.lineItems
         (CheckoutWithBillingAddress.cart
            (Processor.getShippingOptions processor cartId payload))) <> [] ->
    result (Strategy._onShippingChangeHandler UNITED_STATES_CODES
              processor engine data cart this) = inr RejectResult
    /\ In ActionsReject
         (calls (Strategy._onShippingChangeHandler UNITED_STATES_CODES
                   processor engine data cart this))
    /\ patches
         (calls (Strategy._onShippingChangeHandler UNITED_STATES_CODES
                   processor engine data cart this)) = [].
Proof.
  intros us processor engine data cart this cartId payload consignment
    others Hasked Hcons Hopts Hphys.
  apply shipping_options_requested in Hasked.
  destruct Hasked as [region [Hstate [-> ->]]].
  rewrite (@handler_rejects us processor engine data cart this region
             consignment others Hstate Hcons Hphys Hopts).
  unfold result, calls; simpl. intuition.
Qed.

Lemma empty_options_reject_example :
  result (Strategy._onShippingChangeHandler Scenario.states
            (Scenario.gateway Scenario.physical_cart (Some []))
            JS.insertion_engine Scenario.no_selection Scenario.physical_cart
            Scenario.initialized) = inr RejectResult
  /\ In ActionsReject
       (calls (Strategy._onShippingChangeHandler Scenario.states
                 (Scenario.gateway Scenario.physical_cart (Some []))
                 JS.insertion_engine Scenario.no_selection
                 Scenario.physical_cart Scenario.initialized))
  /\ patches
       (calls (Strategy._onShippingChangeHandler Scenario.states
                 (Scenario.gateway Scenario.physical_cart (Some []))
                 JS.insertion_engine Scenario.no_selection
                 Scenario.physical_cart Scenario.initialized)) = [].
Proof.
  apply (@empty_options_reject_without_patch Scenario.states
           (Scenario.gateway Scenario.physical_cart (Some []))
           JS.insertion_engine Scenario.no_selection Scenario.physical_cart
           Scenario.initialized "cart-1"
           (request_for Scenario.no_selection Scenario.physical_cart
              (Region.mk "TX"))
           (Consignment.mk "consignment-1" (Some [])) []).
  - vm_compute. right. left. reflexivity.
  - reflexivity.
  - reflexivity.
  - simpl. discriminate.
Defined.

(** C5, as the specification words it, at two shipping changes for a
    cart that has digital items only: when the address does not
    translate the callback throws before it asks the gateway, and when
    the gateway's answer has no consignment it throws on reading the
    first one, which it does before it looks at the items; neither
    hands anything to [actions.order.patch]. *)
Lemma digital_only_cart_without_patch :
  LineItemMap.physicalItems (Cart.lineItems Scenario.digital_cart) = []
  /\ (let run :=
        Strategy._onShippingChangeHandler Scenario.states
          (Scenario.gateway Scenario.digital_cart (Some [Scenario.standard]))
          JS.insertion_engine (ShippingChangeData.mk Scenario.atlantis None)
          Scenario.digital_cart Scenario.initialized in
      result run = inl (InvalidArgumentError (Some "Invalid Address"))
      /\ patches (calls run) = [])
  /\ (let run :=
        Strategy._onShippingChangeHandler Scenario.states
          (Scenario.gateway_without_consignments Scenario.digital_cart)
          JS.insertion_engine Scenario.no_selection
          Scenario.digital_cart Scenario.initialized in
      result run = inl TypeError
      /\ patches (calls run) = []).
Proof.
  repeat split; vm_compute; reflexivity.
Qed.

(** C5 (amended): when the callback has asked the gateway for the
    shipping options (the address has translated), and the answer has a
    first consignment and a cart without physical item, the callback
    hands [actions.order.patch] one list holding one replace operation,
    whose value is the base order amount printed to two decimals and
    whose breakdown has the item total and no shipping entry; no options
    are patched in, and option resolution is skipped: neither the chosen
    option id nor the submitted address is touched. *)
Theorem digital_only_cart_patches_base_amount :
  forall (UNITED_STATES_CODES : list UnitedStatesCodes.t)
         (processor : Processor.t) (engine : JS.SortEngine)
         (data : ShippingChangeData.t) (cart : Cart.t) (this : Fields.t)
         (cartId : string) (payload : list ConsignmentPayload.t)
         (consignment : Consignment.t) (others : list Consignment.t),
    In (GetShippingOptions cartId payload)
       (calls (Strategy._onShippingChangeHandler UNITED_STATES_CODES
                 processor engine data cart this)) ->
    CheckoutWithBillingAddress.consignments
      (Processor.getShippingOptions processor cartId payload)
      = consignment :: others ->
    LineItemMap.physicalItems
      (Cart.lineItems
         (CheckoutWithBillingAddress.cart
            (Processor.getShippingOptions processor cartId payload))) = [] ->
    let run := Strategy._onShippingChangeHandler UNITED_STATES_CODES
                 processor engine data cart this in
    result run = inr PatchResult
    /\ patches (calls run)
       = [[PatchOperation.mk "replace" Strategy.amount_path
             (PatchOperation.AmountValue
                (Amount.mk "USD" (two_decimals (Cart.baseAmount cart))
                   (Breakdown.mk (ItemTotal.mk "USD" (Cart.baseAmount cart))
                                 None)))]]
    /\ emitted_options (calls run) = []
    /\ Fields._shippingOptionId (fields run) = Fields._shippingOptionId this
    /\ Fields._submittedShippingAddress (fields run)
       = Fields._submittedShippingAddress this.
Proof.
  intros us processor engine data cart this cartId payload consignment
    others Hasked Hcons Hphys run.
  apply shipping_options_requested in Hasked.
  destruct Hasked as [region [Hstate [-> ->]]].
  unfold run.
  rewrite (@handler_digital_only us processor engine data cart this region
             consignment others Hstate Hcons Hphys).
  unfold result, calls, fields; simpl.
  destruct (cache_filled_keeps processor this) as [_ [Hs [_ [Ho _]]]].
  repeat split; assumption.
Qed.

Lemma digital_only_cart_example :
  let run := Strategy._onShippingChangeHandler Scenario.states
               (Scenario.gateway Scenario.digital_cart (Some [Scenario.standard]))
               JS.insertion_engine Scenario.no_selection Scenario.digital_cart
               Scenario.initialized in
  result run = inr PatchResult
  /\ patches (calls run)
     = [[PatchOperation.mk "replace" Strategy.amount_path
           (PatchOperation.AmountValue
              (Amount.mk "USD" "49.99"
                 (Breakdown.mk (ItemTotal.mk "USD" 49.99%float) None)))]]
  /\ emitted_options (calls run) = []
  /\ Fields._shippingOptionId (fields run) = None
  /\ Fields._submittedShippingAddress (fields run) = None.
Proof.
  apply (@digital_only_cart_patches_base_amount Scenario.states
           (Scenario.gateway Scenario.digital_cart (Some [Scenario.standard]))
           JS.insertion_engine Scenario.no_selection Scenario.digital_cart
           Scenario.initialized "cart-2"
           (request_for Scenario.no_selection Scenario.digital_cart
              (Region.mk "TX"))
           (Consignment.mk "consignment-1" (Some [Scenario.standard])) []).
  - vm_compute. right. left. reflexivity.
  - reflexivity.
  - reflexivity.
Defined.

(** ** C3: which options end selected *)

Lemma decorate_unlocked (this : Fields.t) (data : ShippingChangeData.t)
  (amount : string) (option : AvaliableShippingOption.t) :
  Strategy.selection_locked this data = false ->
  ShippingOption.selected (fst (Strategy.decorate this data amount option))
    = AvaliableShippingOption.isRecommended option
  /\ ShippingOption.id (fst (Strategy.decorate this data amount option))
     = AvaliableShippingOption.id option
  /\ snd (Strategy.decorate this data amount option)
     = if AvaliableShippingOption.isRecommended option
       then Strategy.formatted_cost option else amount.
Proof.
  intro H. unfold Strategy.decorate. rewrite H.
  destruct (AvaliableShippingOption.isRecommended option); simpl; auto.
Qed.

Lemma map_assigning_cons {A B S : Type} (callback : S -> A -> B * S)
  (variable : S) (item : A) (rest : list A) :
  Strategy.map_assigning callback variable (item :: rest) =
  (fst (callback variable item)
     :: fst (Strategy.map_assigning callback
               (snd (callback variable item)) rest),
   snd (Strategy.map_assigning callback (snd (callback variable item)) rest)).
Proof.
  simpl. destruct (callback variable item) as [b v]. simpl.
  destruct (Strategy.map_assigning callback v rest). reflexivity.
Qed.

(** C3, as the specification words it, with two recommended options and
    nothing locked in: both end selected, not the first one alone, and
    the shipping amount is the cost of the last of them. *)
Lemma two_recommended_options_both_selected :
  Strategy.selection_locked Scenario.initialized Scenario.no_selection = false
  /\ map ShippingOption.selected
       (fst (Strategy.map_assigning
               (Strategy.decorate Scenario.initialized Scenario.no_selection)
               "0.00"
               [Scenario.standard; Scenario.express; Scenario.overnight]))
     = [true; false; true]
  /\ snd (Strategy.map_assigning
            (Strategy.decorate Scenario.initialized Scenario.no_selection)
            "0.00"
            [Scenario.standard; Scenario.express; Scenario.overnight])
     = "30.00"
  /\ map (map ShippingOption.selected)
       (emitted_options
          (calls (Strategy._onShippingChangeHandler Scenario.states
                    (Scenario.gateway Scenario.physical_cart
                       (Some [Scenario.standard; Scenario.express;
                              Scenario.overnight]))
                    JS.insertion_engine Scenario.no_selection
                    Scenario.physical_cart Scenario.initialized)))
     = [[true; false; true]].
Proof.
  repeat split; vm_compute; reflexivity.
Qed.

(** C3 (amended): when no shopper selection is locked in for the current
    address, an option ends selected exactly when it is flagged
    recommended, the options keeping their order and ids; so exactly one
    option is selected when exactly one is recommended, and at most one
    when at most one is. *)
Theorem unlocked_selection_follows_recommendation :
  forall (this : Fields.t) (data : ShippingChangeData.t)
         (amount : string) (options : list AvaliableShippingOption.t),
    Strategy.selection_locked this data = false ->
    let decorated :=
      fst (Strategy.map_assigning (Strategy.decorate this data) amount options) in
    map ShippingOption.selected decorated
      = map AvaliableShippingOption.isRecommended options
    /\ map ShippingOption.id decorated
       = map AvaliableShippingOption.id options
    /\ List.length (filter ShippingOption.selected decorated)
       = List.length (filter AvaliableShippingOption.isRecommended options).
Proof.
  intros this data amount options H. simpl. revert amount.
  induction options as [|option rest IH]; intro amount.
  - repeat split.
  - rewrite map_assigning_cons. simpl.
    destruct (decorate_unlocked this data amount option H) as [Hs [Hi _]].
    destruct (IH (snd (Strategy.decorate this data amount option)))
      as [IHs [IHi IHn]].
    rewrite Hs, Hi, IHs, IHi.
    repeat split.
    destruct (AvaliableShippingOption.isRecommended option); simpl;
      rewrite IHn; reflexivity.
Qed.

Lemma unlocked_selection_example :
  Strategy.selection_locked Scenario.initialized Scenario.no_selection = false
  /\ map ShippingOption.selected
       (fst (Strategy.map_assigning
               (Strategy.decorate Scenario.initialized Scenario.no_selection)
               "0.00" [Scenario.standard; Scenario.express]))
     = map AvaliableShippingOption.isRecommended
           [Scenario.standard; Scenario.express]
  /\ map ShippingOption.id
       (fst (Strategy.map_assigning
               (Strategy.decorate Scenario.initialized Scenario.no_selection)
               "0.00" [Scenario.standard; Scenario.express]))
     = map AvaliableShippingOption.id [Scenario.standard; Scenario.express]
  /\ List.length
       (filter ShippingOption.selected
          (fst (Strategy.map_assigning
                  (Strategy.decorate Scenario.initialized Scenario.no_selection)
                  "0.00" [Scenario.standard; Scenario.express])))
     = List.length
         (filter AvaliableShippingOption.isRecommended
            [Scenario.standard; Scenario.express]).
Proof.
  split.
  - reflexivity.
  - apply (@unlocked_selection_follows_recommendation Scenario.initialized
             Scenario.no_selection "0.00"
             [Scenario.standard; Scenario.express]).
    reflexivity.
Defined.

(** Nothing locked in: the shipping amount is the cost of the last
    recommended option, the initial amount when none is recommended. *)
Lemma unlocked_amount (this : Fields.t) (data : ShippingChangeData.t)
  (amount : string) (options : list AvaliableShippingOption.t) :
  Strategy.selection_locked this data = false ->
  snd (Strategy.map_assigning (Strategy.decorate this data) amount options)
    = last_recommended_cost amount options.
Proof.
  intro H. revert amount.
  induction options as [|option rest IH]; intro amount.
  - reflexivity.
  - rewrite map_assigning_cons. simpl. rewrite IH.
    destruct (decorate_unlocked this data amount option H) as [_ [_ Ha]].
    rewrite Ha. reflexivity.
Qed.

(** ** C2: the order of the decorated options *)

(** One order of indices cannot put [a] before [b] in both [[a; b]] and
    [[b; a]]. *)
Lemma pick_cannot_serve_both_orders {A : Type} (a b : A) :
  a <> b ->
  forall order : list nat,
    JS.pick [a; b] order <> [a; b] \/ JS.pick [b; a] order <> [a; b].
Proof.
  intros Hab order. induction order as [|i order IH].
  - left. discriminate.
  - destruct i as [|[|i]]; simpl.
    + right. intro H. injection H as H _. congruence.
    + left. intro H. injection H as H _. congruence.
    + replace (nth_error (@nil A) i) with (@None A)
        by (destruct i; reflexivity).
      exact IH.
Qed.

Lemma options_shown_sorted (engine : JS.SortEngine)
  (first second : AvaliableShippingOption.t) :
  options_shown engine [first; second] =
  [JS.Array_sort engine Strategy.by_selected
     (fst (Strategy.map_assigning
             (Strategy.decorate
                (address_recorded
                   (Scenario.gateway Scenario.physical_cart
                      (Some [first; second]))
                   Scenario.no_selection Scenario.initialized
                   (Region.mk "TX"))
                Scenario.no_selection)
             "0.00" [first; second]))].
Proof.
  unfold options_shown.
  apply (@handler_emitted_options Scenario.states
           (Scenario.gateway Scenario.physical_cart (Some [first; second]))
           engine Scenario.no_selection Scenario.physical_cart
           Scenario.initialized (Region.mk "TX")
           (Consignment.mk "consignment-1" (Some [first; second])) []).
  - reflexivity.
  - reflexivity.
  - simpl. discriminate.
  - reflexivity.
Qed.

(** C2: the comparator answers 0 for equal flags and -1 otherwise,
    whichever of the two entries is the selected one, so the sort
    cannot tell [[selected; unselected]] from [[unselected; selected]].
    Whatever the engine, for one of the two input orders of the
    scenario's options the list patched in is not the decorated list
    with the selected entries first. *)
Theorem sort_by_selected_misorders_one_input :
  forall engine : JS.SortEngine,
    options_shown engine [Scenario.standard; Scenario.express]
      <> [selected_first [Scenario.standard_shown; Scenario.express_shown]]
    \/ options_shown engine [Scenario.express; Scenario.standard]
      <> [selected_first [Scenario.express_shown; Scenario.standard_shown]].
Proof.
  intro engine.
  change (selected_first [Scenario.standard_shown; Scenario.express_shown])
    with [Scenario.standard_shown; Scenario.express_shown].
  change (selected_first [Scenario.express_shown; Scenario.standard_shown])
    with [Scenario.standard_shown; Scenario.express_shown].
  rewrite !options_shown_sorted.
  replace (fst (Strategy.map_assigning _ "0.00"
                  [Scenario.standard; Scenario.express]))
    with [Scenario.standard_shown; Scenario.express_shown]
    by (vm_compute; reflexivity).
  replace (fst (Strategy.map_assigning _ "0.00"
                  [Scenario.express; Scenario.standard]))
    with [Scenario.express_shown; Scenario.standard_shown]
    by (vm_compute; reflexivity).
  unfold JS.Array_sort.
  change (JS.comparison_table Strategy.by_selected
            [Scenario.standard_shown; Scenario.express_shown])
    with [[0; -1]; [-1; 0]]%Z.
  change (JS.comparison_table Strategy.by_selected
            [Scenario.express_shown; Scenario.standard_shown])
    with [[0; -1]; [-1; 0]]%Z.
  cbn [List.length].
  assert (Hdiff : Scenario.standard_shown <> Scenario.express_shown)
    by discriminate.
  destruct (JS.rearranges (engine [[0; -1]; [-1; 0]]%Z) 2).
  - (* one order of indices for both inputs *)
    destruct (pick_cannot_serve_both_orders Hdiff
                (engine [[0; -1]; [-1; 0]]%Z)) as [H|H]; [left|right];
      intro E; apply H; congruence.
  - (* both inputs left as they are *)
    right. intro E. apply Hdiff. congruence.
Qed.

(** The selected-first order both inputs ask for, and what the two
    engines make of them: straight insertion leaves either input as it
    is, run detection with binary insertion reverses either; the
    comparisons are the same for both inputs. *)
Lemma sort_by_selected_on_engines :
  selected_first [Scenario.standard_shown; Scenario.express_shown]
    = [Scenario.standard_shown; Scenario.express_shown]
  /\ selected_first [Scenario.express_shown; Scenario.standard_shown]
     = [Scenario.standard_shown; Scenario.express_shown]
  /\ options_shown JS.insertion_engine [Scenario.standard; Scenario.express]
     = [[Scenario.standard_shown; Scenario.express_shown]]
  /\ options_shown JS.insertion_engine [Scenario.express; Scenario.standard]
     = [[Scenario.express_shown; Scenario.standard_shown]]
  /\ options_shown JS.binary_insertion_engine
       [Scenario.standard; Scenario.express]
     = [[Scenario.express_shown; Scenario.standard_shown]]
  /\ options_shown JS.binary_insertion_engine
       [Scenario.express; Scenario.standard]
     = [[Scenario.standard_shown; Scenario.express_shown]]
  /\ JS.comparison_table Strategy.by_selected
       [Scenario.standard_shown; Scenario.express_shown]
     = JS.comparison_table Strategy.by_selected
         [Scenario.express_shown; Scenario.standard_shown]
  /\ JS.insertion_engine [[0; -1]; [-1; 0]]%Z = [0; 1]%nat
  /\ JS.binary_insertion_engine [[0; -1]; [-1; 0]]%Z = [1; 0]%nat.
Proof.
  repeat split; vm_compute; reflexivity.
Qed.

(** With the flag read, both engines put the selected entry first for
    either input. *)
Example sort_by_selected_flag_on_engines :
  map (fun engine =>
         map (JS.Array_sort engine by_selected_flag)
             [[Scenario.standard_shown; Scenario.express_shown];
              [Scenario.express_shown; Scenario.standard_shown]])
      [JS.insertion_engine; JS.binary_insertion_engine]
  = [[[Scenario.standard_shown; Scenario.express_shown];
      [Scenario.standard_shown; Scenario.express_shown]];
     [[Scenario.standard_shown; Scenario.express_shown];
      [Scenario.standard_shown; Scenario.express_shown]]].
Proof. vm_compute. reflexivity. Qed.

(** ** C8: requests for the store countries *)

Lemma handler_fetches_once (UNITED_STATES_CODES : list UnitedStatesCodes.t)
  (processor : Processor.t) (engine : JS.SortEngine)
  (data : ShippingChangeData.t) (cart : Cart.t) (this : Fields.t) :
  fetches (calls (Strategy._onShippingChangeHandler UNITED_STATES_CODES
                    processor engine data cart this)) = 1%nat.
Proof.
  unfold_handler.
  repeat (break_match; simpl); reflexivity.
Qed.

Lemma fetches_app (first second : list Call) :
  fetches (first ++ second)%list = (fetches first + fetches second)%nat.
Proof.
  unfold fetches. rewrite filter_app, length_app. reflexivity.
Qed.

(** The cache does pin the table: once it holds one, that table is the
    one in use, whatever the gateway answers later. *)
Lemma cached_table_is_reused (UNITED_STATES_CODES : list UnitedStatesCodes.t)
  (processor later : Processor.t) (engine : JS.SortEngine)
  (data : ShippingChangeData.t) (cart : Cart.t) (this : Fields.t)
  (cache : Cache.t) :
  Fields._cache this = Some cache ->
  countries_in_use later
    (fields (Strategy._onShippingChangeHandler UNITED_STATES_CODES
               processor engine data cart this))
  = countries_in_use processor this.
Proof.
  intro H. unfold_handler.
  destruct this as [credit c submitted current optionId intent].
  simpl in H. subst c.
  unfold countries_in_use, cache_filled. simpl.
  destruct cache as [[cached|]];
    repeat (break_match; simpl); reflexivity.
Qed.

(** C8: the callback requests the store countries before it looks at the
    cache, on every invocation: two callbacks in succession, whatever
    their payloads and whatever the cache holds, make two requests. *)
Theorem store_countries_requested_by_every_callback :
  forall (UNITED_STATES_CODES : list UnitedStatesCodes.t)
         (processor : Processor.t) (engine : JS.SortEngine)
         (first second : ShippingChangeData.t) (cart : Cart.t)
         (this : Fields.t),
    let run1 := Strategy._onShippingChangeHandler UNITED_STATES_CODES
                  processor engine first cart this in
    let run2 := Strategy._onShippingChangeHandler UNITED_STATES_CODES
                  processor engine second cart (fields run1) in
    fetches (calls run1 ++ calls run2)%list = 2%nat.
Proof.
  intros. rewrite fetches_app. unfold run1, run2.
  rewrite !handler_fetches_once. reflexivity.
Qed.

(** ** C9: what [deinitialize] leaves *)

(** C9, as the specification words it, after one shipping change: the
    addresses, the option id and the cached table recorded during the
    session are still there once [deinitialize] has run. *)
Lemma deinitialize_leaves_shipping_state :
  let left := fields (Strategy.deinitialize after_shipping_change) in
  Fields._currentShippingAddress left
    = Some (Address.mk "Austin" "TX" (Some "us"))
  /\ Fields._submittedShippingAddress left
     = Some (Address.mk "Austin" "TX" (Some "us"))
  /\ Fields._shippingOptionId left = Some "A"
  /\ Fields._cache left = Some (Cache.mk (Some Scenario.store_countries)).
Proof.
  repeat split; vm_compute; reflexivity.
Qed.

(** C9 (amended): [deinitialize] resolves having cleared the credit flag
    and nothing else; the addresses, the chosen option id, the cache
    and the intent keep the values they had. *)
Theorem deinitialize_clears_only_the_credit_flag :
  forall this : Fields.t,
    result (Strategy.deinitialize this) = inr tt
    /\ calls (Strategy.deinitialize this) = []
    /\ Fields._isCredit (fields (Strategy.deinitialize this)) = None
    /\ Fields._cache (fields (Strategy.deinitialize this))
       = Fields._cache this
    /\ Fields._submittedShippingAddress (fields (Strategy.deinitialize this))
       = Fields._submittedShippingAddress this
    /\ Fields._currentShippingAddress (fields (Strategy.deinitialize this))
       = Fields._currentShippingAddress this
    /\ Fields._shippingOptionId (fields (Strategy.deinitialize this))
       = Fields._shippingOptionId this
    /\ Fields._intent (fields (Strategy.deinitialize this))
       = Fields._intent this.
Proof.
  intro this. repeat split.
Qed.

(** ** C7: the same payload twice *)

Section Repeated.

Variable UNITED_STATES_CODES : list UnitedStatesCodes.t.
Variable processor : Processor.t.
Variable engine : JS.SortEngine.
Variable data : ShippingChangeData.t.
Variable cart : Cart.t.

Let handler : M Returned :=
  Strategy._onShippingChangeHandler UNITED_STATES_CODES processor engine
    data cart.

Lemma isAddressSame_refl (address : Address.t) :
  Strategy._isAddressSame (Some address) (Some address) = true.
Proof.
  unfold Strategy._isAddressSame. simpl. apply String.eqb_refl.
Qed.

Lemma countries_in_use_cache (this this' : Fields.t) :
  Fields._cache this' = Fields._cache (cache_filled processor this) ->
  countries_in_use processor this' = countries_in_use processor this.
Proof.
  intro H. unfold countries_in_use at 1. rewrite H.
  destruct this as [credit [[[cached|]]|] submitted current optionId intent];
    reflexivity.
Qed.

(** A callback leaves the table in use as it found it. *)
Lemma handler_keeps_countries (this : Fields.t) :
  countries_in_use processor (fields (handler this))
  = countries_in_use processor this.
Proof.
  apply countries_in_use_cache.
  unfold handler. unfold_handler.
  repeat (break_match; simpl); reflexivity.
Qed.

(** The submitted address after a callback is the one before it or the
    address just translated. *)
Lemma handler_submitted (this : Fields.t) (region : Region.t) :
  Strategy.find_state UNITED_STATES_CODES (countries_in_use processor this)
    (ShippingChangeData.shipping_address data) = Some region ->
  Fields._submittedShippingAddress (fields (handler this))
    = Fields._submittedShippingAddress this
  \/ Fields._submittedShippingAddress (fields (handler this))
     = Some (translated (ShippingChangeData.shipping_address data) region).
Proof.
  intro Hstate. unfold handler. unfold_handler. rewrite Hstate.
  destruct (cache_filled_keeps processor this) as [_ [Hs _]].
  repeat (break_match; simpl); auto.
Qed.

(** The callback of [map] looks at the fields only to decide whether a
    selection is locked in. *)
Lemma decorate_ext (this this' : Fields.t) :
  Strategy.selection_locked this data = Strategy.selection_locked this' data ->
  forall (amount : string) (option : AvaliableShippingOption.t),
    Strategy.decorate this data amount option
    = Strategy.decorate this' data amount option.
Proof.
  intros H amount option. unfold Strategy.decorate. rewrite H. reflexivity.
Qed.

Lemma map_assigning_ext {A B S : Type} (f g : S -> A -> B * S) :
  (forall v a, f v a = g v a) ->
  forall (v : S) (items : list A),
    Strategy.map_assigning f v items = Strategy.map_assigning g v items.
Proof.
  intros H v items. revert v.
  induction items as [|item rest IH]; intro v; simpl.
  - reflexivity.
  - rewrite H. destruct (g v item) as [b v']. rewrite IH. reflexivity.
Qed.

(** What a callback returns and the calls it issues depend on the
    fields through the table in use and through the lock alone. *)
Lemma handler_determined (this this' : Fields.t) :
  countries_in_use processor this' = countries_in_use processor this ->
  (forall region,
      Strategy.find_state UNITED_STATES_CODES (countries_in_use processor this)
        (ShippingChangeData.shipping_address data) = Some region ->
      Strategy.selection_locked
        (address_recorded processor data this' region) data
      = Strategy.selection_locked
          (address_recorded processor data this region) data) ->
  result (handler this') = result (handler this)
  /\ calls (handler this') = calls (handler this).
Proof.
  intros Hcountries Hlocked.
  unfold handler, Strategy._onShippingChangeHandler,
    Strategy.getShippingOptions, Strategy.order_patch,
    Strategy.actions_reject, Strategy.actions_resolve,
    bind, call, ret, get, assign, throw.
  rewrite !transformToAddress_run. rewrite Hcountries.
  destruct (Strategy.find_state UNITED_STATES_CODES
              (countries_in_use processor this)
              (ShippingChangeData.shipping_address data))
    as [region|] eqn:Hstate; [|split; reflexivity].
  specialize (Hlocked region eq_refl). unfold address_recorded in Hlocked.
  cbn -[Strategy.map_assigning].
  destruct (CheckoutWithBillingAddress.consignments _)
    as [|consignment others]; [split; reflexivity|].
  destruct (negb _); [split; reflexivity|].
  destruct (andb _ _); [split; reflexivity|].
  destruct (Consignment.availableShippingOptions consignment)
    as [options|]; [|split; reflexivity].
  rewrite (map_assigning_ext _ _ (decorate_ext _ _ Hlocked)).
  destruct (Strategy.map_assigning _ "0.00" options) as [decorated amount].
  destruct (JS.Array_sort engine Strategy.by_selected decorated)
    as [|first rest]; [split; reflexivity|].
  destruct (JS.truthy_string (ShippingOption.id first)); split; reflexivity.
Qed.

End Repeated.

(** C7, as the specification words it, on a newly initialized instance
    with a payload that names the express option as the shopper's
    choice: the first callback finds no submitted address, selects the
    recommended standard option and patches 54.99; the second finds the
    address submitted, selects the shopper's express option and patches
    61.99. *)
Lemma same_payload_twice_patches_differ :
  let handler :=
    Strategy._onShippingChangeHandler Scenario.states
      (Scenario.gateway Scenario.physical_cart
         (Some [Scenario.standard; Scenario.express]))
      JS.insertion_engine Scenario.express_selected Scenario.physical_cart in
  let run1 := handler Scenario.initialized in
  let run2 := handler (fields run1) in
  map Amount.value (emitted_amounts (calls run1)) = ["54.99"]
  /\ map Amount.value (emitted_amounts (calls run2)) = ["61.99"]
  /\ map (map ShippingOption.selected) (emitted_options (calls run1))
     = [[true; false]]
  /\ map (map ShippingOption.selected) (emitted_options (calls run2))
     = [[false; true]].
Proof.
  repeat split; vm_compute; reflexivity.
Qed.

(** C7 (amended): two callbacks in succession with the same payload,
    cart and gateway answers return the same value and issue the same
    calls, patches included, provided the payload names no selected
    shipping option or the address it translates to is already the
    submitted one when the first callback starts. *)
Theorem same_payload_twice_same_patches :
  forall (UNITED_STATES_CODES : list UnitedStatesCodes.t)
         (processor : Processor.t) (engine : JS.SortEngine)
         (data : ShippingChangeData.t) (cart : Cart.t) (this : Fields.t),
    (ShippingChangeData.selected_shipping_option data = None
     \/ forall region,
          Strategy.find_state UNITED_STATES_CODES
            (countries_in_use processor this)
            (ShippingChangeData.shipping_address data) = Some region ->
          Fields._submittedShippingAddress this
          = Some (translated (ShippingChangeData.shipping_address data) region)) ->
    let run1 := Strategy._onShippingChangeHandler UNITED_STATES_CODES
                  processor engine data cart this in
    let run2 := Strategy._onShippingChangeHandler UNITED_STATES_CODES
                  processor engine data cart (fields run1) in
    patches (calls run2) = patches (calls run1)
    /\ calls run2 = calls run1
    /\ result run2 = result run1.
Proof.
  intros us processor engine data cart this Hpre run1 run2.
  assert (H : result run2 = result run1 /\ calls run2 = calls run1).
  { unfold run2, run1. apply handler_determined.
    - apply handler_keeps_countries.
    - intros region Hstate.
      unfold Strategy.selection_locked, address_recorded.
      destruct (ShippingChangeData.selected_shipping_option data)
        as [chosen|] eqn:Hchosen; [|reflexivity].
      destruct Hpre as [Hnone|Hsame]; [discriminate|].
      specialize (Hsame region Hstate).
      destruct (cache_filled_keeps processor this) as [_ [Hs _]].
      destruct (cache_filled_keeps processor
                  (fields (Strategy._onShippingChangeHandler us processor
                             engine data cart this))) as [_ [Hs' _]].
      simpl. rewrite Hs, Hs', Hsame.
      destruct (handler_submitted us processor engine data cart this Hstate)
        as [Hkept|Hset].
      + rewrite Hkept, Hsame. reflexivity.
      + rewrite Hset. reflexivity. }
  destruct H as [Hr Hc]. rewrite Hc. repeat split. exact Hr.
Qed.

Lemma same_payload_twice_example :
  let handler :=
    Strategy._onShippingChangeHandler Scenario.states
      (Scenario.gateway Scenario.physical_cart
         (Some [Scenario.standard; Scenario.express]))
      JS.insertion_engine Scenario.no_selection Scenario.physical_cart in
  let run1 := handler Scenario.initialized in
  let run2 := handler (fields run1) in
  patches (calls run2) = patches (calls run1)
  /\ calls run2 = calls run1
  /\ result run2 = result run1.
Proof.
  apply (@same_payload_twice_same_patches Scenario.states
           (Scenario.gateway Scenario.physical_cart
              (Some [Scenario.standard; Scenario.express]))
           JS.insertion_engine Scenario.no_selection Scenario.physical_cart
           Scenario.initialized).
  left. reflexivity.
Defined.

(* ================================================================== *)
(** * Further properties of the strategy and of the script loader      *)
(* ================================================================== *)

(** ** The script parameters *)

Lemma includes_iff (items : list string) (x : string) :
  Button.includes items x = true <-> In x items.
Proof.
  unfold Button.includes. rewrite existsb_exists. split.
  - intros [y [Hin Heq]]. apply String.eqb_eq in Heq. subst y. assumption.
  - intro H. exists x. split; [assumption | apply String.eqb_refl].
Qed.

Lemma push_unless_enabled_in (enabled available acc : list string)
  (x : string) :
  In x (fold_left (Button.push_unless_enabled enabled) available acc) <->
  In x acc \/ (In x available /\ ~ In x enabled).
Proof.
  revert acc. induction available as [|apm rest IH]; intro acc; simpl.
  - tauto.
  - rewrite IH. unfold Button.push_unless_enabled.
    destruct (Button.includes enabled apm) eqn:E.
    + apply includes_iff in E. split.
      * intros [H|[H1 H2]]; auto.
      * intros [H|[[H1|H1] H2]]; auto. subst apm. contradiction.
    + assert (Hn : ~ In apm enabled).
      { intro H. apply includes_iff in H. congruence. }
      rewrite in_app_iff. simpl. split.
      * intros [[H|[H|[]]]|[H1 H2]]; auto. subst apm. auto.
      * intros [H|[[H1|H1] H2]]; auto.
Qed.

(** The two lists of the parameters, as the method builds them. *)
Lemma disable_funding_list (data : InitializationData.t) (currency : string) :
  ScriptParams.disable_funding (Button._getParamsScript data currency)
  = (fold_left (Button.push_unless_enabled (enabled_of data))
               (available_of data) ["card"]
     ++ if InitializationData.isPayPalCreditAvailable data
        then [] else ["credit"; "paylater"])%list.
Proof.
  unfold Button._getParamsScript, available_of, enabled_of.
  destruct (InitializationData.isPayPalCreditAvailable data); simpl.
  - rewrite app_nil_r. reflexivity.
  - reflexivity.
Qed.

Lemma enabled_funding_list (data : InitializationData.t) (currency : string) :
  enabled_funding (Button._getParamsScript data currency)
  = (enabled_of data
     ++ if InitializationData.isPayPalCreditAvailable data
        then ["credit"; "paylater"] else [])%list.
Proof.
  unfold Button._getParamsScript, enabled_funding, enabled_of.
  destruct (InitializationData.isPayPalCreditAvailable data); simpl.
  - destruct (match InitializationData.enabledAlternativePaymentMethods data
              with Some l => l | None => [] end); reflexivity.
  - destruct (match InitializationData.enabledAlternativePaymentMethods data
              with Some l => l | None => [] end); simpl;
      rewrite ?app_nil_r; reflexivity.
Qed.

Lemma disable_funding_in (data : InitializationData.t) (currency x : string) :
  In x (ScriptParams.disable_funding (Button._getParamsScript data currency))
  <-> x = "card"
      \/ (In x (available_of data) /\ ~ In x (enabled_of data))
      \/ (InitializationData.isPayPalCreditAvailable data = false
          /\ (x = "credit" \/ x = "paylater")).
Proof.
  rewrite disable_funding_list, in_app_iff, push_unless_enabled_in.
  destruct (InitializationData.isPayPalCreditAvailable data); simpl; split.
  - intros [[[H|[]]|H]|[]]; auto.
  - intros [H|[H|[H _]]]; auto. discriminate.
  - intros [[[H|[]]|H]|[H|[H|[]]]]; auto.
  - intros [H|[H|[_ [H|H]]]]; auto.
Qed.

(** X1: a funding source is in disable-funding exactly when it is card,
    or an available alternative payment method that is not enabled, or,
    PayPal credit not being available, credit or paylater; card is the
    first of the list. *)
Theorem disable_funding_members :
  forall (data : InitializationData.t) (currency x : string),
    (In x (ScriptParams.disable_funding
             (Button._getParamsScript data currency))
     <-> x = "card"
         \/ (In x (available_of data) /\ ~ In x (enabled_of data))
         \/ (InitializationData.isPayPalCreditAvailable data = false
             /\ (x = "credit" \/ x = "paylater")))
    /\ hd_error (ScriptParams.disable_funding
                   (Button._getParamsScript data currency)) = Some "card".
Proof.
  intros data currency x. split; [apply disable_funding_in|].
  rewrite disable_funding_list.
  assert (H : forall available acc first,
             hd_error acc = Some first ->
             hd_error (fold_left
                         (Button.push_unless_enabled (enabled_of data))
                         available acc) = Some first).
  { induction available as [|apm rest IH]; intros acc first Hacc;
      [exact Hacc|].
    simpl. apply IH. unfold Button.push_unless_enabled.
    destruct (Button.includes (enabled_of data) apm); [exact Hacc|].
    destruct acc; [discriminate|exact Hacc]. }
  specialize (H (available_of data) ["card"] "card" eq_refl).
  destruct (fold_left _ _ _); [discriminate|exact H].
Qed.

(** X2: the enable-funding key is left out exactly when no alternative
    payment method is enabled and PayPal credit is not available; when
    it is there it lists the enabled methods in their order, followed by
    credit and paylater if PayPal credit is available. *)
Theorem enable_funding_key :
  forall (data : InitializationData.t) (currency : string),
    (ScriptParams.enable_funding (Button._getParamsScript data currency) = None
     <-> enabled_of data = []
         /\ InitializationData.isPayPalCreditAvailable data = false)
    /\ enabled_funding (Button._getParamsScript data currency)
       = (enabled_of data
          ++ if InitializationData.isPayPalCreditAvailable data
             then ["credit"; "paylater"] else [])%list.
Proof.
  intros data currency. split; [|apply enabled_funding_list].
  unfold Button._getParamsScript, enabled_of.
  destruct (InitializationData.isPayPalCreditAvailable data); simpl.
  - destruct (match InitializationData.enabledAlternativePaymentMethods data
              with Some l => l | None => [] end) as [|m ms]; simpl.
    + split; [discriminate|]. intros [_ H]; discriminate.
    + split; [discriminate|]. intros [H _]; discriminate.
  - destruct (match InitializationData.enabledAlternativePaymentMethods data
              with Some l => l | None => [] end) as [|m ms]; simpl.
    + split; auto.
    + split; [discriminate|]. intros [H _]; discriminate.
Qed.

(** X3: every available alternative payment method is either enabled or
    disabled, and, provided card, credit and paylater are not themselves
    listed among the alternative payment methods, no funding source is
    both. *)
Theorem funding_sources_decided_once :
  forall (data : InitializationData.t) (currency : string),
    (forall x, In x ["card"; "credit"; "paylater"] ->
               ~ In x (available_of data ++ enabled_of data)%list) ->
    let params := Button._getParamsScript data currency in
    (forall x, In x (available_of data) ->
               In x (ScriptParams.disable_funding params)
               \/ In x (enabled_funding params))
    /\ (forall x, In x (ScriptParams.disable_funding params) ->
                  In x (enabled_funding params) -> False).
Proof.
  intros data currency Hnone params. unfold params.
  assert (Hcard : ~ In "card" (enabled_of data)).
  { intro H. apply (Hnone "card"); simpl; auto. apply in_app_iff. auto. }
  assert (Hcredit : forall x, x = "credit" \/ x = "paylater" ->
                              ~ In x (available_of data)
                              /\ ~ In x (enabled_of data)).
  { intros x Hx. split; intro H; apply (Hnone x);
      try (apply in_app_iff; auto);
      simpl; destruct Hx as [->| ->]; auto. }
  split.
  - intros x Hx.
    destruct (in_dec string_dec x (enabled_of data)) as [He|He].
    + right. rewrite enabled_funding_list. apply in_app_iff. auto.
    + left. apply disable_funding_in. auto.
  - intros x Hd He.
    apply disable_funding_in in Hd.
    rewrite enabled_funding_list in He.
    apply in_app_iff in He.
    destruct He as [He|He].
    + destruct Hd as [->|[[_ Hn]|[_ Hx]]].
      * contradiction.
      * contradiction.
      * destruct (Hcredit x Hx) as [_ Hn]. contradiction.
    + destruct (InitializationData.isPayPalCreditAvailable data) eqn:Hc;
        simpl in He; [|contradiction].
      assert (Hx : x = "credit" \/ x = "paylater").
      { destruct He as [<-|[<-|[]]]; auto. }
      destruct Hd as [->|[[Ha _]|[Hf _]]].
      * destruct Hx; discriminate.
      * destruct (Hcredit x Hx) as [Hn _]. contradiction.
      * discriminate.
Qed.

Lemma funding_sources_decided_once_example :
  let params := Button._getParamsScript Session.initialization "USD" in
  (forall x, In x (available_of Session.initialization) ->
             In x (ScriptParams.disable_funding params)
             \/ In x (enabled_funding params))
  /\ (forall x, In x (ScriptParams.disable_funding params) ->
                In x (enabled_funding params) -> False).
Proof.
  apply (funding_sources_decided_once Session.initialization "USD").
  intros x Hx Hin. simpl in Hx, Hin.
  repeat (destruct Hx as [<-|Hx]; [intuition discriminate|]).
  contradiction.
Defined.

(** ** The script loader *)

Section LoaderProperties.

Variable SDK : Type.
Variable loadScript :
  string -> Thrown + option (ScriptLoader.PaypalLoadScript SDK).

Let load := ScriptLoader.loadPaypalCommerce loadScript.

Ltac unfold_load :=
  unfold load, ScriptLoader.loadPaypalCommerce, ScriptLoader._validateParams,
    Flow.bind, Flow.get, Flow.ret, Flow.throw, Flow.emit, Flow.await,
    Flow.assign, Flow.result, Flow.events, Flow.state.

Lemma load_with_sdk (window : ScriptLoader.HostWindow SDK)
  (params : option ScriptParams.t) (sdk : SDK) :
  ScriptLoader.paypal window = Some sdk ->
  load params window = (inr sdk, window, []).
Proof.
  intro H. unfold_load. rewrite H. reflexivity.
Qed.

(** A load that resolves leaves the SDK it resolves with on the
    window. *)
Lemma load_leaves_sdk (window : ScriptLoader.HostWindow SDK)
  (params : option ScriptParams.t) (sdk : SDK) :
  Flow.result (load params window) = inr sdk ->
  ScriptLoader.paypal (Flow.state (load params window)) = Some sdk.
Proof.
  unfold_load.
  destruct window as [[present|] installed]; simpl.
  - intro H. injection H as ->. reflexivity.
  - repeat (break_match; simpl; try discriminate);
      intro H; injection H as ->; reflexivity.
Qed.

(** X4: while the SDK is not on the window, parameters that lack the
    object itself, the client id or the merchant id are refused with an
    InvalidArgumentError naming the first of these that is missing; no
    script is requested and the window is left as it was. *)
Theorem invalid_params_load_nothing :
  forall (window : ScriptLoader.HostWindow SDK)
         (params : option ScriptParams.t),
    ScriptLoader.paypal window = None ->
    params_accepted params = false ->
    Flow.result (load params window)
    = inl (InvalidArgument
             (Some (ScriptLoader.not_provided
                      (match params with
                       | None => "options"
                       | Some o =>
                           if Button.truthy_option (ScriptParams.client_id o)
                           then "merchant-id" else "client-id"
                       end))))
    /\ Flow.events (load params window) = []
    /\ Flow.state (load params window) = window.
Proof.
  intros window params Hnone Hbad. unfold_load. rewrite Hnone.
  destruct params as [o|]; simpl in *; [|repeat split].
  destruct (Button.truthy_option (ScriptParams.client_id o)); simpl in *;
    [|repeat split].
  rewrite Hbad. simpl. repeat split.
Qed.

(** X5: once a load has resolved, any further load resolves with the
    same SDK, whatever parameters it is given, without requesting a
    script and without touching the window. *)
Theorem loaded_sdk_is_returned_again :
  forall (window : ScriptLoader.HostWindow SDK)
         (params again : option ScriptParams.t) (sdk : SDK),
    Flow.result (load params window) = inr sdk ->
    load again (Flow.state (load params window))
    = (inr sdk, Flow.state (load params window), []).
Proof.
  intros window params again sdk H.
  apply load_with_sdk. apply load_leaves_sdk. assumption.
Qed.

(** X6: the loader script is requested at most once in a load, first
    of all, from the pinned address, and only when neither the SDK nor
    [paypalLoadScript] is on the window; [paypalLoadScript] is called at
    most once, with the parameters given. *)
Theorem loader_script_requested_when_needed :
  forall (window : ScriptLoader.HostWindow SDK)
         (params : option ScriptParams.t),
    (Flow.events (load params window) = []
     \/ (ScriptLoader.paypal window = None
         /\ ScriptLoader.paypalLoadScript window <> None
         /\ Flow.events (load params window)
            = [ScriptLoader.CallPaypalLoadScript params])
     \/ (ScriptLoader.paypal window = None
         /\ ScriptLoader.paypalLoadScript window = None
         /\ (Flow.events (load params window)
             = [ScriptLoader.LoadScript
                  "https://unpkg.com/@paypal/paypal-js@5.0.5/dist/iife/paypal-js.min.js"]
             \/ Flow.events (load params window)
                = [ScriptLoader.LoadScript
                     "https://unpkg.com/@paypal/paypal-js@5.0.5/dist/iife/paypal-js.min.js";
                   ScriptLoader.CallPaypalLoadScript params]))).
Proof.
  intros window params. unfold_load.
  destruct window as [[present|] [installed|]]; simpl; auto.
  - repeat (break_match; simpl); auto;
      right; left; repeat split; discriminate.
  - repeat (break_match; simpl); auto;
      right; right; repeat split; auto.
Qed.

(** X7: with accepted parameters and no SDK on the window, a load
    resolves with an SDK exactly when a [paypalLoadScript] is on the
    window, or is left there by the loader script, and its call leaves
    that SDK on the window. *)
Theorem load_resolves_exactly_when :
  forall (window : ScriptLoader.HostWindow SDK)
         (params : option ScriptParams.t) (sdk : SDK),
    ScriptLoader.paypal window = None ->
    params_accepted params = true ->
    (Flow.result (load params window) = inr sdk
     <-> exists paypalLoadScript,
           available_loader loadScript window = Some paypalLoadScript
           /\ paypalLoadScript params = inr (Some sdk)).
Proof.
  intros window params sdk Hnone Hok.
  destruct params as [o|]; [|discriminate]. simpl in Hok.
  apply andb_true_iff in Hok. destruct Hok as [Hc Hm].
  unfold_load. unfold available_loader. rewrite Hnone. simpl.
  rewrite Hc, Hm. simpl.
  destruct (ScriptLoader.paypalLoadScript window) as [installed|] eqn:Hi;
    simpl.
  - rewrite Hi.
    destruct (installed (Some o)) as [e|[found|]] eqn:Hcall; simpl; split;
      try discriminate.
    + intros [f [Hf Hr]]. injection Hf as <-. congruence.
    + intro H. injection H as ->. exists installed. auto.
    + intros [f [Hf Hr]]. injection Hf as <-.
      rewrite Hcall in Hr. injection Hr as ->. reflexivity.
    + intros [f [Hf Hr]]. injection Hf as <-. congruence.
  - destruct (loadScript ScriptLoader.scriptSrc) as [e|[fetched|]]; simpl.
    + split; [discriminate|]. intros [f [Hf _]]. discriminate.
    + destruct (fetched (Some o)) as [e|[found|]] eqn:Hcall; simpl; split;
        try discriminate.
      * intros [f [Hf Hr]]. injection Hf as <-. congruence.
      * intro H. injection H as ->. exists fetched. auto.
      * intros [f [Hf Hr]]. injection Hf as <-.
        rewrite Hcall in Hr. injection Hr as ->. reflexivity.
      * intros [f [Hf Hr]]. injection Hf as <-. congruence.
    + split; [discriminate|]. intros [f [Hf _]]. discriminate.
Qed.

End LoaderProperties.

Lemma invalid_params_load_nothing_example :
  Flow.result (ScriptLoader.loadPaypalCommerce Session.loadScript None
                 Session.empty_window)
  = inl (InvalidArgument
           (Some (ScriptLoader.not_provided "options")))
  /\ Flow.events (ScriptLoader.loadPaypalCommerce Session.loadScript None
                    Session.empty_window) = []
  /\ Flow.state (ScriptLoader.loadPaypalCommerce Session.loadScript None
                   Session.empty_window) = Session.empty_window.
Proof.
  apply (@invalid_params_load_nothing nat Session.loadScript
           Session.empty_window None); reflexivity.
Defined.

Lemma loaded_sdk_is_returned_again_example :
  ScriptLoader.loadPaypalCommerce Session.loadScript None
    (Flow.state (ScriptLoader.loadPaypalCommerce Session.loadScript
                   Session.params Session.empty_window))
  = (inr 7%nat,
     Flow.state (ScriptLoader.loadPaypalCommerce Session.loadScript
                   Session.params Session.empty_window),
     []).
Proof.
  apply (@loaded_sdk_is_returned_again nat Session.loadScript
           Session.empty_window Session.params None 7%nat).
  reflexivity.
Defined.

Lemma load_resolves_exactly_when_example :
  Flow.result (ScriptLoader.loadPaypalCommerce Session.loadScript
                 Session.params Session.empty_window) = inr 7%nat
  <-> exists paypalLoadScript,
        available_loader Session.loadScript Session.empty_window
        = Some paypalLoadScript
        /\ paypalLoadScript Session.params = inr (Some 7%nat).
Proof.
  apply (@load_resolves_exactly_when nat Session.loadScript
           Session.empty_window Session.params 7%nat); reflexivity.
Defined.

(** ** Clicks and tokenization *)

Lemma clicked_last (earlier : list string) (fundingSource : string)
  (this : Fields.t) :
  Fields._isCredit (clicked (earlier ++ [fundingSource]) this)
  = Some (credit_funding fundingSource).
Proof.
  unfold clicked. rewrite fold_left_app. reflexivity.
Qed.

(** X8: a non-hosted approval with an order id posts one form to
    /checkout.php, and the provider it names follows the last click
    alone: paypalcommercecredit when that click was on credit or
    paylater, paypalcommerce otherwise. *)
Theorem last_click_decides_provider :
  forall (host : Host.t) (cart : Cart.t) (this : Fields.t)
         (earlier : list string) (fundingSource orderID : string),
    orderID <> "" ->
    Button.onApprove host false (ApproveDataOptions.mk (Some orderID)) cart
      (clicked (earlier ++ [fundingSource]) this)
    = (inr Posted,
       clicked (earlier ++ [fundingSource]) this,
       [checkout_form
          (if credit_funding fundingSource
           then "paypalcommercecredit" else "paypalcommerce")
          orderID]).
Proof.
  intros host cart this earlier fundingSource orderID Hid.
  unfold Button.onApprove, Button._tokenizePayment. simpl.
  destruct (JS.truthy_string orderID) eqn:Ht.
  - unfold Flow.bind, Flow.get, Flow.emit, Flow.ret. simpl.
    rewrite clicked_last.
    destruct (credit_funding fundingSource); reflexivity.
  - exfalso. apply Hid. destruct orderID; [reflexivity|discriminate Ht].
Qed.

Lemma last_click_decides_provider_example :
  Button.onApprove Session.host false
    (ApproveDataOptions.mk (Some "order-1")) Scenario.physical_cart
    (clicked (["paylater"; "credit"] ++ ["paypal"]) Fields.fresh)
  = (inr Posted,
     clicked (["paylater"; "credit"] ++ ["paypal"]) Fields.fresh,
     [checkout_form
        (if credit_funding "paypal"
         then "paypalcommercecredit" else "paypalcommerce")
        "order-1"]).
Proof.
  apply (last_click_decides_provider Session.host Scenario.physical_cart
           Fields.fresh ["paylater"; "credit"] "paypal").
  discriminate.
Defined.

(** X9: deinitialize makes the strategy forget the click: a non-hosted
    approval after it names the provider paypalcommerce, whatever was
    clicked before. *)
Theorem deinitialize_forgets_the_click :
  forall (host : Host.t) (cart : Cart.t) (this : Fields.t)
         (orderID : string),
    orderID <> "" ->
    Flow.events
      (Button.onApprove host false (ApproveDataOptions.mk (Some orderID))
         cart (Flow.state (Button.deinitialize this)))
    = [checkout_form "paypalcommerce" orderID].
Proof.
  intros host cart this orderID Hid.
  unfold Button.onApprove, Button._tokenizePayment. simpl.
  destruct (JS.truthy_string orderID) eqn:Ht.
  - reflexivity.
  - exfalso. apply Hid. destruct orderID; [reflexivity|discriminate Ht].
Qed.

Lemma deinitialize_forgets_the_click_example :
  Flow.events
    (Button.onApprove Session.host false
       (ApproveDataOptions.mk (Some "order-1")) Scenario.physical_cart
       (Flow.state (Button.deinitialize (clicked ["credit"] Fields.fresh))))
  = [checkout_form "paypalcommerce" "order-1"].
Proof.
  apply (deinitialize_forgets_the_click Session.host Scenario.physical_cart
           (clicked ["credit"] Fields.fresh)).
  discriminate.
Defined.

(** X10: a non-hosted approval posts nothing exactly when the order id
    is missing or empty, and that is exactly when it throws a
    MissingDataError of type MissingPayment. *)
Theorem approval_without_order_id_posts_nothing :
  forall (host : Host.t) (data : ApproveDataOptions.t) (cart : Cart.t)
         (this : Fields.t),
    (Flow.events (Button.onApprove host false data cart this) = []
     <-> Button.truthy_option (ApproveDataOptions.orderID data) = false)
    /\ (Flow.result (Button.onApprove host false data cart this)
        = inl (MissingData (Some MissingPayment))
        <-> Button.truthy_option (ApproveDataOptions.orderID data) = false).
Proof.
  intros host [[orderID|]] cart this;
    unfold Button.onApprove, Button._tokenizePayment; simpl.
  - destruct (JS.truthy_string orderID); simpl;
      split; split; try reflexivity; discriminate.
  - split; split; reflexivity.
Qed.

(** ** The hosted approval *)

Ltac unfold_approve :=
  unfold Button.onApprove, Button._onHostedMethodApprove,
    Button.finalize_order, Button._tokenizePayment,
    Button._transformContactToAddress, Flow.try_catch,
    Flow.bind, Flow.get, Flow.ret, Flow.throw, Flow.emit, Flow.await,
    Flow.assign, Flow.result, Flow.events, Flow.state.

(** Splits on the stored intent and on what the order action answers. *)
Ltac split_placement host this :=
  unfold placement_call, placement, captures;
  destruct (Fields._intent this) as [intent|];
  [destruct (String.eqb intent "capture");
   [destruct (Host.capture host) as [failure|details]
   |destruct (Host.authorize host) as [failure|details]]
  |destruct (Host.authorize host) as [failure|details]].

(** X11: a hosted approval begins by capturing the order when the
    stored intent is capture and by authorizing it otherwise, and calls
    neither action again; when that action rejects, the approval rejects
    with the same value and does nothing else. *)
Theorem approval_places_the_order_first :
  forall (host : Host.t) (cart : Cart.t) (this : Fields.t),
  exists rest,
    Flow.events (Button._onHostedMethodApprove host cart this)
    = placement_call this :: rest
    /\ ~ In OrderCapture rest
    /\ ~ In OrderAuthorize rest
    /\ (forall failure,
          placement host this = inl failure ->
          Flow.result (Button._onHostedMethodApprove host cart this)
          = inl failure
          /\ rest = []).
Proof.
  intros host cart this. unfold_approve.
  split_placement host this; simpl.
  all: repeat (break_match; simpl).
  all: eexists; split; [reflexivity|].
  all: simpl; repeat split; try congruence.
  all: intuition discriminate.
Qed.

(** X12: while no shipping change has recorded an address, a hosted
    approval only places the order: it resolves with what the order
    action answered, having asked nothing of the payment processor,
    submitted no order, deleted no cart and not left the page. *)
Theorem approval_without_address_only_places_the_order :
  forall (host : Host.t) (cart : Cart.t) (this : Fields.t),
    Fields._currentShippingAddress this = None ->
    Button._onHostedMethodApprove host cart this
    = (placement host this, this, [placement_call this]).
Proof.
  intros host cart this Hnone. unfold_approve.
  split_placement host this; simpl; rewrite ?Hnone; reflexivity.
Qed.

Lemma approval_without_address_example :
  Button._onHostedMethodApprove Session.host Scenario.physical_cart
    Scenario.initialized
  = (placement Session.host Scenario.initialized, Scenario.initialized,
     [placement_call Scenario.initialized]).
Proof.
  apply (approval_without_address_only_places_the_order Session.host
           Scenario.physical_cart Scenario.initialized).
  reflexivity.
Defined.

(** X13: an approval, hosted or not, resolved or rejected, leaves every
    field of the strategy as it was. *)
Theorem approval_changes_no_field :
  forall (host : Host.t) (isHosted : bool) (data : ApproveDataOptions.t)
         (cart : Cart.t) (this : Fields.t),
    Flow.state (Button.onApprove host isHosted data cart this) = this.
Proof.
  intros host isHosted data cart this.
  destruct isHosted; unfold_approve.
  - destruct (Fields._intent this) as [intent|];
      [destruct (String.eqb intent "capture")|];
      repeat (break_match; simpl); reflexivity.
  - repeat (break_match; simpl); reflexivity.
Qed.

(** X14: once the order is placed and an address is recorded, a hosted
    approval resolves only if every call it made was answered with
    success, and then it ends with the redirect; otherwise it rejects
    with a RequestError that holds what its last call rejected with (or
    the TypeError of reading the first consignment of a billing answer
    that has none): no failure inside the try block is swallowed, and
    none reaches the caller unwrapped. *)
Theorem approval_failures_are_request_errors :
  forall (host : Host.t) (cart : Cart.t) (this : Fields.t)
         (details : PayerDetails.t),
    placement host this = inr details ->
    Fields._currentShippingAddress this <> None ->
    PayerDetails.purchase_units details <> [] ->
    let run := Button._onHostedMethodApprove host cart this in
    let last_effect := last (Flow.events run) (placement_call this) in
    (Flow.result run = inr details
     /\ last_effect = LocationAssign "/checkout/order-confirmation"
     /\ Forall (fun e => forall rejection,
                          answered host e <> Some (inl rejection))
               (Flow.events run))
    \/ exists cause,
         Flow.result run = inl (Request cause)
         /\ (answered host last_effect = Some (inl cause)
             \/ (cause = EngineTypeError
                 /\ exists cartId address checkout,
                      last_effect = GetBillingAddress cartId address
                      /\ Host.getBillingAddress host cartId address
                         = inr checkout
                      /\ CheckoutWithBillingAddress.consignments checkout
                         = [])).
Proof.
  intros host cart this details Hplaced Haddress Hunits run last_effect.
  unfold last_effect, run. clear last_effect run.
  destruct (Fields._currentShippingAddress this) as [address|] eqn:Ha;
    [clear Haddress|contradiction].
  destruct (PayerDetails.purchase_units details) as [|unit units] eqn:Hu;
    [contradiction|clear Hunits].
  revert Hplaced. unfold_approve.
  unfold placement, placement_call, captures.
  destruct (Fields._intent this) as [intent|];
    [destruct (String.eqb intent "capture")|].
  all: intros ->; simpl; rewrite Ha; simpl; rewrite Hu; simpl.
  all: repeat (break_match; simpl).
  all: repeat match goal with u : Datatypes.unit |- _ => destruct u end.
  all: repeat match goal with
              | H : inl _ = inl _ |- _ => injection H as <-
              | H : inr _ = inr _ |- _ => injection H as <-
              end.
  all: first
    [ left; split; [reflexivity|]; split; [reflexivity|];
      repeat constructor; intros rejection Hanswer; simpl in Hanswer;
      repeat match goal with
             | Heq : ?x = inr _, H : context [?x] |- _ => rewrite Heq in H
             end;
      congruence
    | right; eexists; split; [reflexivity|];
      first
        [ left; simpl; congruence
        | left; simpl;
          match goal with
          | Heq : ?x = inl _ |- context [?x] => rewrite Heq
          | Heq : ?x = Some (inl _) |- ?x = _ => rewrite Heq
          end; reflexivity
        | right; split; [reflexivity|]; do 3 eexists;
          split; [reflexivity|]; split; eassumption ] ].
Qed.

Lemma approval_failures_are_request_errors_example :
  let run :=
    Button._onHostedMethodApprove Session.host_keeping_the_cart
      Scenario.physical_cart Session.shipped in
  let last_effect := last (Flow.events run) (placement_call Session.shipped) in
  (Flow.result run = inr Session.details
   /\ last_effect = LocationAssign "/checkout/order-confirmation"
   /\ Forall (fun e => forall rejection,
                        answered Session.host_keeping_the_cart e
                        <> Some (inl rejection))
             (Flow.events run))
  \/ exists cause,
       Flow.result run = inl (Request cause)
       /\ (answered Session.host_keeping_the_cart last_effect
           = Some (inl cause)
           \/ (cause = EngineTypeError
               /\ exists cartId address checkout,
                    last_effect = GetBillingAddress cartId address
                    /\ Host.getBillingAddress Session.host_keeping_the_cart
                         cartId address = inr checkout
                    /\ CheckoutWithBillingAddress.consignments checkout
                       = [])).
Proof.
  apply (@approval_failures_are_request_errors Session.host_keeping_the_cart
           Scenario.physical_cart Session.shipped Session.details).
  - reflexivity.
  - vm_compute. discriminate.
  - discriminate.
Defined.

(** The approval of the scenario: every step succeeds, or the deletion
    of the cart is refused. *)
Example approval_of_the_scenario :
  Button._onHostedMethodApprove Session.host Scenario.physical_cart
    Session.shipped
  = (inr Session.details, Session.shipped,
     let address :=
       ContactAddress.mk "Austin" "TX" (Some "us") "Ada" "Lovelace"
         "ada@example.com" "1 Main Street" in
     [OrderCapture;
      GetConsignments "cart-1"
        [ConsignmentRequest.mk address
           [CollectedLineItem.mk "item-1" 1%float]];
      GetBillingAddress "cart-1" address;
      PutConsignments "cart-1" "consignment-9" "A";
      SubmitOrder "paypalcommerce" None;
      DeleteCart "cart-1";
      LocationAssign "/checkout/order-confirmation"])
  /\ Flow.result
       (Button._onHostedMethodApprove Session.host_keeping_the_cart
          Scenario.physical_cart Session.shipped)
     = inl (Request (Rejection "cart not deleted")).
Proof. split; vm_compute; reflexivity. Qed.

(** X15: when the placed order lists no purchase unit, an approval
    with a recorded address fails on reading the first one: the engine's
    TypeError reaches the caller as it is, not inside a RequestError,
    with the order already captured or authorized and nothing asked of
    the payment processor. *)
Theorem placement_without_purchase_units :
  forall (host : Host.t) (cart : Cart.t) (this : Fields.t)
         (details : PayerDetails.t),
    placement host this = inr details ->
    Fields._currentShippingAddress this <> None ->
    PayerDetails.purchase_units details = [] ->
    Button._onHostedMethodApprove host cart this
    = (inl EngineTypeError, this, [placement_call this]).
Proof.
  intros host cart this details Hplaced Haddress Hunits.
  destruct (Fields._currentShippingAddress this) as [address|] eqn:Ha;
    [clear Haddress|contradiction].
  revert Hplaced. unfold_approve.
  unfold placement, placement_call, captures.
  destruct (Fields._intent this) as [intent|];
    [destruct (String.eqb intent "capture")|].
  all: intros ->; simpl; rewrite Ha; simpl; rewrite Hunits; reflexivity.
Qed.

Lemma placement_without_purchase_units_example :
  Button._onHostedMethodApprove Session.host_without_units
    Scenario.physical_cart Session.shipped
  = (inl EngineTypeError, Session.shipped, [placement_call Session.shipped]).
Proof.
  apply (@placement_without_purchase_units Session.host_without_units
           Scenario.physical_cart Session.shipped
           Session.details_without_units).
  - reflexivity.
  - vm_compute. discriminate.
  - reflexivity.
Defined.

(** Names the events before the last two of an event list. *)
Ltac exists_before address checkout :=
  match goal with
  | |- exists before _ _, ?events = _ /\ _ =>
      let n := eval cbv in (List.length events - 2) in
      exists (firstn n events), address, checkout;
      split; [reflexivity|split; assumption]
  end.

(** X16: a hosted approval sends the shopper to the order confirmation
    page exactly when an address is recorded and the approval resolves;
    it does so last of all, straight after the payment processor has
    deleted the cart that the billing-address answer names. *)
Theorem redirect_exactly_when_approval_resolves :
  forall (host : Host.t) (cart : Cart.t) (this : Fields.t),
    let run := Button._onHostedMethodApprove host cart this in
    ((exists url, In (LocationAssign url) (Flow.events run))
     <-> Fields._currentShippingAddress this <> None
         /\ exists details, Flow.result run = inr details)
    /\ forall url,
         In (LocationAssign url) (Flow.events run) ->
         url = "/checkout/order-confirmation"
         /\ exists before address checkout,
              Flow.events run
              = (before
                 ++ [DeleteCart
                       (Cart.id (CheckoutWithBillingAddress.cart checkout));
                     LocationAssign url])%list
              /\ Host.getBillingAddress host (Cart.id cart) address
                 = inr checkout
              /\ Host.deleteCart host
                   (Cart.id (CheckoutWithBillingAddress.cart checkout))
                 = inr tt.
Proof.
  intros host cart this run. unfold run. clear run. unfold_approve.
  split_placement host this; simpl.
  all: destruct (Fields._currentShippingAddress this) as [address|]; simpl.
  all: try (split;
            [split;
             [intros [url [H|[]]]; discriminate H
             |intros [_ [found H]]; discriminate H]
            |intros url [H|[]]; discriminate H]).
  all: try (split;
            [split;
             [intros [url [H|[]]]; discriminate H
             |intros [H _]; contradiction]
            |intros url [H|[]]; discriminate H]).
  all: destruct (PayerDetails.purchase_units details) as [|unit units];
    simpl.
  all: repeat (break_match; simpl).
  all: split;
    [split;
     [intros [url H]
     |intros [_ [found H]]; try discriminate H;
      eexists; repeat (first [left; reflexivity | right])]
    |intros url H].
  all: repeat (destruct H as [H|H]; try discriminate H); try contradiction.
  all: try (split; [discriminate|eexists; reflexivity]).
  all: injection H as <-; split; [reflexivity|].
  all: repeat match goal with u : Datatypes.unit |- _ => destruct u end.
  all: match goal with
       | Hb : Host.getBillingAddress _ _ ?a = inr ?c |- _ =>
           exists_before a c
       end.
Qed.

(** Every case of a hosted approval, by what the collaborators
    answer. *)
Ltac approval_cases host this :=
  unfold_approve; split_placement host this; simpl;
  (destruct (Fields._currentShippingAddress this) as [address|]; simpl);
  try match goal with
      | placed : PayerDetails.t |- _ =>
          destruct (PayerDetails.purchase_units placed) as [|unit units];
          simpl
      end;
  repeat (break_match; simpl);
  repeat match goal with u : Datatypes.unit |- _ => destruct u end.

(** Finds which event of the list the given one is. *)
Ltac which_event H :=
  repeat (destruct H as [H|H]; try discriminate H); try contradiction.

(** X17: a hosted approval puts a shipping option on a consignment only
    when a shipping change has stored an option id: it is that id, put
    on the first consignment of the billing-address answer, for the cart
    of the buttons. *)
Theorem shipping_option_put_only_when_stored :
  forall (host : Host.t) (cart : Cart.t) (this : Fields.t)
         (cartId consignmentId shippingOptionId : string),
    In (PutConsignments cartId consignmentId shippingOptionId)
       (Flow.events (Button._onHostedMethodApprove host cart this)) ->
    Fields._shippingOptionId this = Some shippingOptionId
    /\ shippingOptionId <> ""
    /\ cartId = Cart.id cart
    /\ exists address checkout consignment others,
         Host.getBillingAddress host (Cart.id cart) address = inr checkout
         /\ CheckoutWithBillingAddress.consignments checkout
            = consignment :: others
         /\ consignmentId = Consignment.id consignment.
Proof.
  intros host cart this cartId consignmentId shippingOptionId.
  approval_cases host this.
  all: intro H; which_event H.
  all: injection H as <- <- <-.
  all: repeat split; try assumption.
  all: try (intro Hempty; subst; discriminate).
  all: eauto 10.
Qed.

Lemma shipping_option_put_only_when_stored_example :
  In (PutConsignments "cart-1" "consignment-9" "A")
     (Flow.events
        (Button._onHostedMethodApprove Session.host Scenario.physical_cart
           Session.shipped))
  /\ Fields._shippingOptionId Session.shipped = Some "A"
  /\ "A" <> ""
  /\ "cart-1" = Cart.id Scenario.physical_cart
  /\ exists address checkout consignment others,
       Host.getBillingAddress Session.host (Cart.id Scenario.physical_cart)
         address = inr checkout
       /\ CheckoutWithBillingAddress.consignments checkout
          = consignment :: others
       /\ "consignment-9" = Consignment.id consignment.
Proof.
  assert (H : In (PutConsignments "cart-1" "consignment-9" "A")
                 (Flow.events
                    (Button._onHostedMethodApprove Session.host
                       Scenario.physical_cart Session.shipped))).
  { vm_compute. auto. }
  split; [exact H|].
  exact (@shipping_option_put_only_when_stored Session.host
           Scenario.physical_cart Session.shipped
           "cart-1" "consignment-9" "A" H).
Defined.

(** X18: the cart is deleted only once the consignment and the billing
    address requests have succeeded and, when the strategy has an order
    action creator, the order has been submitted with success; the cart
    deleted is the one the billing-address answer names. *)
Theorem cart_deleted_only_after_order_submitted :
  forall (host : Host.t) (cart : Cart.t) (this : Fields.t)
         (cartId : string),
    In (DeleteCart cartId)
       (Flow.events (Button._onHostedMethodApprove host cart this)) ->
    exists address checkout,
      Host.getConsignments host (Cart.id cart)
        [ConsignmentRequest.mk address
           (Strategy._collectLineItems (Cart.lineItems cart))] = inr tt
      /\ Host.getBillingAddress host (Cart.id cart) address = inr checkout
      /\ cartId = Cart.id (CheckoutWithBillingAddress.cart checkout)
      /\ (Host.submitOrder host = None
          \/ (Host.submitOrder host = Some (inr tt)
              /\ In (SubmitOrder "paypalcommerce" None)
                    (Flow.events
                       (Button._onHostedMethodApprove host cart this)))).
Proof.
  intros host cart this cartId.
  pose proof (eq_refl (Flow.events
                         (Button._onHostedMethodApprove host cart this)))
    as Hevents.
  revert Hevents.
  generalize (Flow.events (Button._onHostedMethodApprove host cart this))
    at 1 3 4 as events.
  intro events. approval_cases host this.
  all: intros -> H; which_event H.
  all: injection H as <-.
  all: do 2 eexists; repeat split; try eassumption.
  all: first [left; reflexivity
             |right; split; [reflexivity|simpl; tauto]].
Qed.

Lemma cart_deleted_only_after_order_submitted_example :
  In (DeleteCart "cart-1")
     (Flow.events
        (Button._onHostedMethodApprove Session.host Scenario.physical_cart
           Session.shipped))
  /\ exists address checkout,
       Host.getConsignments Session.host (Cart.id Scenario.physical_cart)
         [ConsignmentRequest.mk address
            (Strategy._collectLineItems
               (Cart.lineItems Scenario.physical_cart))] = inr tt
       /\ Host.getBillingAddress Session.host
            (Cart.id Scenario.physical_cart) address = inr checkout
       /\ "cart-1" = Cart.id (CheckoutWithBillingAddress.cart checkout)
       /\ (Host.submitOrder Session.host = None
           \/ (Host.submitOrder Session.host = Some (inr tt)
               /\ In (SubmitOrder "paypalcommerce" None)
                     (Flow.events
                        (Button._onHostedMethodApprove Session.host
                           Scenario.physical_cart Session.shipped)))).
Proof.
  assert (H : In (DeleteCart "cart-1")
                 (Flow.events
                    (Button._onHostedMethodApprove Session.host
                       Scenario.physical_cart Session.shipped))).
  { vm_compute. auto 10. }
  split; [exact H|].
  exact (@cart_deleted_only_after_order_submitted Session.host
           Scenario.physical_cart Session.shipped "cart-1" H).
Defined.

(** ** From the shipping change to the approval *)

Lemma asked_lift (issued : list Call) : asked (map Asked issued) = issued.
Proof.
  induction issued as [|c rest IH]; [reflexivity|].
  unfold asked in *. simpl. rewrite IH. reflexivity.
Qed.

Lemma lift_state {A : Type} (m : Run.M A) (this : Fields.t) :
  Flow.state (Button.lift m this) = fields (m this).
Proof.
  unfold Button.lift, Flow.state, fields.
  destruct (m this) as [[r this'] issued]. reflexivity.
Qed.

Lemma lift_events {A : Type} (m : Run.M A) (this : Fields.t) :
  Flow.events (Button.lift m this) = map Asked (calls (m this)).
Proof.
  unfold Button.lift, Flow.events, calls.
  destruct (m this) as [[r this'] issued]. reflexivity.
Qed.

Section ChangeThenApprove.

Variable UNITED_STATES_CODES : list UnitedStatesCodes.t.
Variable processor : Processor.t.
Variable engine : JS.SortEngine.
Variable data : ShippingChangeData.t.
Variable cart : Cart.t.
Variable host : Host.t.

Let handler : Run.M Returned :=
  Strategy._onShippingChangeHandler UNITED_STATES_CODES processor engine
    data cart.

(** A shipping change that translates the address leaves it recorded,
    however it ends. *)
Lemma change_records_address (this : Fields.t) (region : Region.t) :
  Strategy.find_state UNITED_STATES_CODES (countries_in_use processor this)
    (ShippingChangeData.shipping_address data) = Some region ->
  Fields._currentShippingAddress (fields (handler this))
  = Some (translated (ShippingChangeData.shipping_address data) region).
Proof.
  intro Hstate. unfold handler. unfold_handler. rewrite Hstate.
  cbn -[Strategy.map_assigning].
  repeat (break_match; cbn -[Strategy.map_assigning]); reflexivity.
Qed.

(** A shipping change that patches an options list in stores the id of
    the first option of that list. *)
Lemma change_stores_first_option (this : Fields.t)
  (first : ShippingOption.t) (rest : list ShippingOption.t) :
  emitted_options (calls (handler this)) = [first :: rest] ->
  ShippingOption.id first <> "" ->
  Fields._shippingOptionId (fields (handler this))
  = Some (ShippingOption.id first).
Proof.
  unfold handler. unfold_handler.
  destruct (Strategy.find_state UNITED_STATES_CODES
              (countries_in_use processor this)
              (ShippingChangeData.shipping_address data)) as [region|];
    cbn -[Strategy.map_assigning].
  - repeat (break_match; cbn -[Strategy.map_assigning]).
    all: unfold emitted_options, patches, calls; simpl.
    all: intros H Hid; try discriminate H.
    + injection H as -> ->. reflexivity.
    + injection H as -> ->. exfalso. apply Hid.
      destruct (ShippingOption.id first); [reflexivity|discriminate].
  - unfold emitted_options, patches, calls; simpl. discriminate.
Qed.

(** What the consignment request of an approval is made of. *)
Lemma consignment_requested (this : Fields.t) (cartId : string)
  (payload : list ConsignmentRequest.t) :
  In (GetConsignments cartId payload)
     (Flow.events (Button._onHostedMethodApprove host cart this)) ->
  exists address details unit units,
    Fields._currentShippingAddress this = Some address
    /\ placement host this = inr details
    /\ PayerDetails.purchase_units details = unit :: units
    /\ cartId = Cart.id cart
    /\ payload = [ConsignmentRequest.mk (consigned_to address details unit)
                    (Strategy._collectLineItems (Cart.lineItems cart))].
Proof.
  unfold_approve. unfold placement, captures.
  destruct (Fields._intent this) as [intent|];
    [destruct (String.eqb intent "capture")|].
  all: match goal with
       | |- context [match ?answer with inl _ => _ | inr _ => _ end] =>
           destruct answer as [failure|details]
       end; simpl.
  all: destruct (Fields._currentShippingAddress this) as [address|]; simpl.
  all: try destruct (PayerDetails.purchase_units details)
         as [|unit units] eqn:Hunits; simpl.
  all: repeat (break_match; simpl).
  all: intro H; which_event H.
  all: injection H as <- <-.
  all: exists address, details, unit, units; repeat split; assumption.
Qed.

End ChangeThenApprove.

(** X19: after a shipping change that asked for shipping options, a
    hosted approval creates its consignment for the address that change
    translated (its city, the code of the subdivision found as postal
    code, its country code), completed with the given name, surname and
    email of the payer and the first street line of the first purchase
    unit of the order that capture or authorize has just answered, and
    with the same line items of the same cart as the shipping options
    were asked for. *)
Theorem approval_consigns_to_the_translated_address :
  forall (UNITED_STATES_CODES : list UnitedStatesCodes.t)
         (processor : Processor.t) (engine : JS.SortEngine)
         (data : ShippingChangeData.t) (cart : Cart.t) (host : Host.t)
         (this : Fields.t)
         (cartId cartId' : string) (asked_for : list ConsignmentPayload.t)
         (consigned : list ConsignmentRequest.t),
    let change :=
      Button.onShippingChange UNITED_STATES_CODES processor engine data cart
        this in
    In (Asked (GetShippingOptions cartId asked_for)) (Flow.events change) ->
    In (GetConsignments cartId' consigned)
       (Flow.events
          (Button._onHostedMethodApprove host cart (Flow.state change))) ->
    exists region details unit units,
      placement host (Flow.state change) = inr details
      /\ PayerDetails.purchase_units details = unit :: units
      /\ asked_for
         = [ConsignmentPayload.mk
              (Some (translated (ShippingChangeData.shipping_address data)
                       region))
              (Strategy._collectLineItems (Cart.lineItems cart))]
      /\ consigned
         = [ConsignmentRequest.mk
              (consigned_to
                 (translated (ShippingChangeData.shipping_address data)
                    region)
                 details unit)
              (Strategy._collectLineItems (Cart.lineItems cart))]
      /\ cartId = Cart.id cart
      /\ cartId' = Cart.id cart.
Proof.
  intros UNITED_STATES_CODES processor engine data cart host this
    cartId cartId' asked_for consigned change.
  unfold change, Button.onShippingChange.
  rewrite lift_events, lift_state.
  intros Hasked Hconsigned.
  apply in_map_iff in Hasked.
  destruct Hasked as [c [Hc Hin]]. injection Hc as ->.
  apply shipping_options_requested in Hin.
  destruct Hin as [region [Hstate [-> ->]]].
  apply consignment_requested in Hconsigned.
  destruct Hconsigned as [address [details [unit [units H]]]].
  destruct H as [Haddress [Hplaced [Hunits [-> ->]]]].
  rewrite (@change_records_address UNITED_STATES_CODES processor engine
             data cart this region Hstate) in Haddress.
  injection Haddress as <-.
  exists region, details, unit, units. repeat split; assumption.
Qed.

Lemma approval_consigns_to_the_translated_address_example :
  let items := [CollectedLineItem.mk "item-1" 1%float] in
  let asked_for := [ConsignmentPayload.mk (Some Session.austin_tx) items] in
  let consigned :=
    [ConsignmentRequest.mk
       (ContactAddress.mk "Austin" "TX" (Some "us") "Ada" "Lovelace"
          "ada@example.com" "1 Main Street")
       items] in
  In (Asked (GetShippingOptions "cart-1" asked_for))
     (Flow.events Session.change)
  /\ In (GetConsignments "cart-1" consigned)
        (Flow.events
           (Button._onHostedMethodApprove Session.host Scenario.physical_cart
              (Flow.state Session.change)))
  /\ exists region details unit units,
       placement Session.host (Flow.state Session.change) = inr details
       /\ PayerDetails.purchase_units details = unit :: units
       /\ asked_for
          = [ConsignmentPayload.mk
               (Some (translated
                        (ShippingChangeData.shipping_address
                           Scenario.no_selection) region))
               (Strategy._collectLineItems
                  (Cart.lineItems Scenario.physical_cart))]
       /\ consigned
          = [ConsignmentRequest.mk
               (consigned_to
                  (translated
                     (ShippingChangeData.shipping_address
                        Scenario.no_selection) region)
                  details unit)
               (Strategy._collectLineItems
                  (Cart.lineItems Scenario.physical_cart))]
       /\ "cart-1" = Cart.id Scenario.physical_cart
       /\ "cart-1" = Cart.id Scenario.physical_cart.
Proof.
  intros items asked_for consigned.
  assert (Hasked : In (Asked (GetShippingOptions "cart-1" asked_for))
                      (Flow.events Session.change)).
  { vm_compute. auto. }
  assert (Hconsigned :
            In (GetConsignments "cart-1" consigned)
               (Flow.events
                  (Button._onHostedMethodApprove Session.host
                     Scenario.physical_cart (Flow.state Session.change)))).
  { vm_compute. auto. }
  split; [exact Hasked|]. split; [exact Hconsigned|].
  exact (@approval_consigns_to_the_translated_address
           Scenario.states
           (Scenario.gateway Scenario.physical_cart
              (Some [Scenario.standard; Scenario.express]))
           JS.insertion_engine Scenario.no_selection Scenario.physical_cart
           Session.host (Flow.state (Session.opening Fields.fresh))
           "cart-1" "cart-1" asked_for consigned Hasked Hconsigned).
Defined.

(** The option an approval puts on the consignment is the stored one. *)
Lemma option_put_is_the_stored_one (host : Host.t) (cart : Cart.t)
  (this : Fields.t) (cartId consignmentId shippingOptionId : string) :
  In (PutConsignments cartId consignmentId shippingOptionId)
     (Flow.events (Button._onHostedMethodApprove host cart this)) ->
  Fields._shippingOptionId this = Some shippingOptionId.
Proof.
  approval_cases host this.
  all: intro H; which_event H.
  all: injection H as <- <- <-; first [assumption | reflexivity].
Qed.

(** X20: after a shipping change that patched an options list into the
    order, the shipping option a hosted approval puts on the consignment
    is the first entry of that list as the sort left it (provided its id
    is not empty), whichever entry is flagged selected. *)
Theorem approval_applies_the_first_option_shown :
  forall (UNITED_STATES_CODES : list UnitedStatesCodes.t)
         (processor : Processor.t) (engine : JS.SortEngine)
         (data : ShippingChangeData.t) (cart : Cart.t) (host : Host.t)
         (this : Fields.t)
         (first : ShippingOption.t) (rest : list ShippingOption.t)
         (cartId consignmentId shippingOptionId : string),
    let change :=
      Button.onShippingChange UNITED_STATES_CODES processor engine data cart
        this in
    options_patched (Flow.events change) = [first :: rest] ->
    ShippingOption.id first <> "" ->
    In (PutConsignments cartId consignmentId shippingOptionId)
       (Flow.events
          (Button._onHostedMethodApprove host cart (Flow.state change))) ->
    shippingOptionId = ShippingOption.id first.
Proof.
  intros UNITED_STATES_CODES processor engine data cart host this
    first rest cartId consignmentId shippingOptionId change.
  unfold change, Button.onShippingChange, options_patched.
  rewrite lift_events, lift_state, asked_lift.
  intros Hpatched Hid Hput.
  apply option_put_is_the_stored_one in Hput.
  rewrite (@change_stores_first_option UNITED_STATES_CODES processor engine
             data cart this first rest Hpatched Hid) in Hput.
  injection Hput as <-. reflexivity.
Qed.

Lemma approval_applies_the_first_option_shown_example :
  options_patched (Flow.events Session.change)
  = [[Scenario.standard_shown; Scenario.express_shown]]
  /\ In (PutConsignments "cart-1" "consignment-9" "A")
        (Flow.events
           (Button._onHostedMethodApprove Session.host Scenario.physical_cart
              (Flow.state Session.change)))
  /\ "A" = ShippingOption.id Scenario.standard_shown.
Proof.
  assert (Hpatched : options_patched (Flow.events Session.change)
                     = [[Scenario.standard_shown; Scenario.express_shown]]).
  { vm_compute. reflexivity. }
  assert (Hput : In (PutConsignments "cart-1" "consignment-9" "A")
                    (Flow.events
                       (Button._onHostedMethodApprove Session.host
                          Scenario.physical_cart
                          (Flow.state Session.change)))).
  { vm_compute. auto. }
  split; [exact Hpatched|]. split; [exact Hput|].
  refine (@approval_applies_the_first_option_shown
            Scenario.states
            (Scenario.gateway Scenario.physical_cart
               (Some [Scenario.standard; Scenario.express]))
            JS.insertion_engine Scenario.no_selection Scenario.physical_cart
            Session.host (Flow.state (Session.opening Fields.fresh))
            Scenario.standard_shown [Scenario.express_shown]
            "cart-1" "consignment-9" "A" Hpatched _ Hput).
  discriminate.
Defined.

(** With an engine that inserts by binary search the first entry shown
    is the unselected option B: the order was patched with the amount of
    A, and the approval puts B on the consignment. *)
Example approval_applies_an_unselected_option :
  let change :=
    Button.onShippingChange Scenario.states
      (Scenario.gateway Scenario.physical_cart
         (Some [Scenario.standard; Scenario.express]))
      JS.binary_insertion_engine Scenario.no_selection Scenario.physical_cart
      (Flow.state (Session.opening Fields.fresh)) in
  options_patched (Flow.events change)
  = [[Scenario.express_shown; Scenario.standard_shown]]
  /\ map Amount.value (emitted_amounts (asked (Flow.events change)))
     = ["54.99"]
  /\ In (PutConsignments "cart-1" "consignment-9" "B")
        (Flow.events
           (Button._onHostedMethodApprove Session.host Scenario.physical_cart
              (Flow.state change))).
Proof.
  vm_compute. repeat split; auto 10.
Qed.

(** ** Initialization *)

Ltac unfold_initialize :=
  unfold Button.initialize, Flow.bind, Flow.get, Flow.ret, Flow.throw,
    Flow.emit, Flow.await, Flow.assign, Flow.result, Flow.events, Flow.state.

(** Every case of an initialization, by what the collaborators answer
    and what the options hold. *)
Ltac initialize_cases host options :=
  unfold_initialize; unfold style_of, messagingContainer_of;
  (destruct (Host.getPaymentMethodOrThrow host
               (InitializeOptions.methodId options))
     as [failure|data] eqn:Hmethod; simpl);
  [|(destruct (Button.truthy_option (InitializationData.clientId data))
       eqn:HclientId; simpl);
    [(destruct (Host.loadDefaultCheckout host) as [failure|loaded]
        eqn:Hloaded; simpl);
     [|(destruct (Host.processor_initialize host
                    (Button._getParamsScript data
                       (LoadedCart.currency_code loaded)))
          as [failure|[]] eqn:Hprocessor; simpl);
       [|(destruct (InitializeOptions.paypalCommerce options)
            as [[style [container|]]|] eqn:Hoptions; simpl);
         [(destruct (JS.truthy_string container) eqn:Hcontainer; simpl);
          [(destruct (Host.getElementById host container) eqn:Helement;
            simpl)|]| |]]]|]].

(** Initialization keeps whatever the clicks and the shipping changes
    have stored. *)
Lemma initialize_keeps (host : Host.t) (options : InitializeOptions.t)
  (this : Fields.t) :
  let this' := Flow.state (Button.initialize host options this) in
  Fields._isCredit this' = Fields._isCredit this
  /\ Fields._submittedShippingAddress this'
     = Fields._submittedShippingAddress this
  /\ Fields._currentShippingAddress this'
     = Fields._currentShippingAddress this
  /\ Fields._shippingOptionId this' = Fields._shippingOptionId this.
Proof.
  initialize_cases host options; repeat split.
Qed.

(** X21: initialization never clears what the clicks and the shipping
    changes have stored (the credit flag, the two addresses, the option
    id); when the payment method is found it overwrites the intent and
    empties the country cache, whether or not it then resolves, and
    otherwise it changes no field. *)
Theorem initialize_resets_intent_and_cache_only :
  forall (host : Host.t) (options : InitializeOptions.t) (this : Fields.t),
    let this' := Flow.state (Button.initialize host options this) in
    (Fields._isCredit this' = Fields._isCredit this
     /\ Fields._submittedShippingAddress this'
        = Fields._submittedShippingAddress this
     /\ Fields._currentShippingAddress this'
        = Fields._currentShippingAddress this
     /\ Fields._shippingOptionId this' = Fields._shippingOptionId this)
    /\ match Host.getPaymentMethodOrThrow host
               (InitializeOptions.methodId options) with
       | inr data =>
           Fields._intent this' = InitializationData.intent data
           /\ Fields._cache this' = Some (Cache.mk None)
       | inl _ => this' = this
       end.
Proof.
  intros host options this this'. split; [apply initialize_keeps|].
  unfold this'. clear this'.
  initialize_cases host options; repeat split.
Qed.

(** X22: a payment method without a client id makes initialization
    reject with an InvalidArgumentError that carries no message, before
    the checkout is loaded or anything is rendered; the intent is
    already overwritten and the country cache already emptied by
    then. *)
Theorem initialize_without_client_id :
  forall (host : Host.t) (options : InitializeOptions.t) (this : Fields.t)
         (data : InitializationData.t),
    Host.getPaymentMethodOrThrow host (InitializeOptions.methodId options)
    = inr data ->
    Button.truthy_option (InitializationData.clientId data) = false ->
    Button.initialize host options this
    = (inl (InvalidArgument None),
       Fields.set_cache (Some (Cache.mk None))
         (Fields.set_intent (InitializationData.intent data) this),
       []).
Proof.
  intros host options this data Hfound Hmissing.
  unfold_initialize. rewrite Hfound. simpl. rewrite Hmissing. reflexivity.
Qed.

Lemma initialize_without_client_id_example :
  Button.initialize Session.host_without_client_id Session.options
    Session.shipped
  = (inl (InvalidArgument None),
     Fields.set_cache (Some (Cache.mk None))
       (Fields.set_intent (Some "authorize") Session.shipped),
     []).
Proof.
  apply (@initialize_without_client_id Session.host_without_client_id
           Session.options Session.shipped
           (InitializationData.mk None (Some "authorize") true false
              (Some "merchant-id") None None None));
    reflexivity.
Defined.

(** X23: initialization resolves exactly when it has rendered the
    buttons; by then it has loaded the default checkout and initialized
    the payment processor, in that order, with the script parameters of
    the payment method and the currency of the loaded cart, and the
    buttons are rendered for that cart into the container of the
    options, with their style. *)
Theorem buttons_rendered_exactly_when_initialize_resolves :
  forall (host : Host.t) (options : InitializeOptions.t) (this : Fields.t),
    let run := Button.initialize host options this in
    (Flow.result run = inr tt
     <-> exists cartId container style,
           In (RenderButtons cartId container style) (Flow.events run))
    /\ forall cartId container style,
         In (RenderButtons cartId container style) (Flow.events run) ->
         exists data loaded messages,
           Host.getPaymentMethodOrThrow host
             (InitializeOptions.methodId options) = inr data
           /\ Host.loadDefaultCheckout host = inr loaded
           /\ Host.processor_initialize host
                (Button._getParamsScript data
                   (LoadedCart.currency_code loaded)) = inr tt
           /\ Flow.events run
              = ([LoadDefaultCheckout;
                  ProcessorInitialize
                    (Button._getParamsScript data
                       (LoadedCart.currency_code loaded));
                  RenderButtons (Cart.id (LoadedCart.cart loaded))
                    ("#" ++ InitializeOptions.containerId options)
                    (style_of options)]
                 ++ messages)%list
           /\ cartId = Cart.id (LoadedCart.cart loaded)
           /\ container = "#" ++ InitializeOptions.containerId options
           /\ style = style_of options.
Proof.
  intros host options this run. unfold run. clear run.
  initialize_cases host options.
  all: split;
    [split;
     [intro H; try discriminate H; do 3 eexists; simpl; eauto
     |intros [cartId [container' [style' H]]]; which_event H; reflexivity]
    |intros cartId container' style' H; which_event H].
  all: injection H as <- <- <-.
  all: exists data, loaded; eexists;
    repeat split; first [assumption | reflexivity].
Qed.

(** X24: initialization renders the messages exactly when it resolves
    and the options name a messaging container that is an element of
    the document; it renders them last, with the amount of the loaded
    cart, into that container. *)
Theorem messages_rendered_exactly_when_container_in_document :
  forall (host : Host.t) (options : InitializeOptions.t) (this : Fields.t),
    let run := Button.initialize host options this in
    ((exists amount selector,
        In (RenderMessages amount selector) (Flow.events run))
     <-> Flow.result run = inr tt
         /\ exists container,
              messagingContainer_of options = Some container
              /\ container <> ""
              /\ Host.getElementById host container = true)
    /\ forall amount selector,
         In (RenderMessages amount selector) (Flow.events run) ->
         exists loaded container,
           Host.loadDefaultCheckout host = inr loaded
           /\ messagingContainer_of options = Some container
           /\ amount = LoadedCart.cartAmount loaded
           /\ selector = "#" ++ container
           /\ last (Flow.events run) LoadDefaultCheckout
              = RenderMessages amount selector.
Proof.
  intros host options this run. unfold run. clear run.
  initialize_cases host options.
  all: split;
    [split;
     [intros [amount [selector H]]; which_event H
     |intros [Hresolved [container' [Hnamed [Hfilled Helement']]]];
      try discriminate Hresolved; try discriminate Hnamed;
      try (injection Hnamed as <-)]
    |intros amount selector H; which_event H].
  - split; [reflexivity|]. exists container. repeat split; try assumption.
    intros ->. discriminate Hcontainer.
  - do 2 eexists. do 3 right. left. reflexivity.
  - injection H as <- <-. exists loaded, container. repeat split.
  - congruence.
  - destruct container; [contradiction|discriminate Hcontainer].
Qed.

(** X25: the script parameters that initialization hands to the payment
    processor always carry a client id, so that the validation of the
    script loader can refuse them for a missing merchant id only. *)
Theorem initialize_hands_over_a_client_id :
  forall (host : Host.t) (options : InitializeOptions.t) (this : Fields.t)
         (params : ScriptParams.t),
    In (ProcessorInitialize params)
       (Flow.events (Button.initialize host options this)) ->
    Button.truthy_option (ScriptParams.client_id params) = true
    /\ params_accepted (Some params)
       = Button.truthy_option (ScriptParams.merchant_id params)
    /\ forall (SDK : Type) (window : ScriptLoader.HostWindow SDK),
         Flow.result (@ScriptLoader._validateParams SDK (Some params) window)
         = if Button.truthy_option (ScriptParams.merchant_id params)
           then inr tt
           else inl (InvalidArgument
                       (Some (ScriptLoader.not_provided "merchant-id"))).
Proof.
  intros host options this params.
  initialize_cases host options.
  all: intro H; which_event H.
  all: injection H as <-.
  all: assert (Hid : Button.truthy_option
                       (ScriptParams.client_id
                          (Button._getParamsScript data
                             (LoadedCart.currency_code loaded))) = true)
    by (unfold Button._getParamsScript;
        destruct (InitializationData.isPayPalCreditAvailable data);
        exact HclientId).
  all: split; [exact Hid|].
  all: split; [simpl; rewrite Hid; reflexivity|].
  all: intros SDK window; unfold ScriptLoader._validateParams.
  all: rewrite Hid; simpl.
  all: destruct (Button.truthy_option
                   (ScriptParams.merchant_id
                      (Button._getParamsScript data
                         (LoadedCart.currency_code loaded)))); reflexivity.
Qed.

Lemma initialize_hands_over_a_client_id_example :
  let params := Button._getParamsScript Session.initialization "USD" in
  In (ProcessorInitialize params)
     (Flow.events (Session.opening Fields.fresh))
  /\ Button.truthy_option (ScriptParams.client_id params) = true
  /\ params_accepted (Some params)
     = Button.truthy_option (ScriptParams.merchant_id params)
  /\ forall (SDK : Type) (window : ScriptLoader.HostWindow SDK),
       Flow.result (@ScriptLoader._validateParams SDK (Some params) window)
       = if Button.truthy_option (ScriptParams.merchant_id params)
         then inr tt
         else inl (InvalidArgument
                     (Some (ScriptLoader.not_provided "merchant-id"))).
Proof.
  intro params.
  assert (H : In (ProcessorInitialize params)
                 (Flow.events (Session.opening Fields.fresh))).
  { vm_compute. auto. }
  split; [exact H|].
  exact (@initialize_hands_over_a_client_id Session.host Session.options
           Fields.fresh params H).
Defined.

(** X26: neither deinitialize nor a new initialization forgets the
    address an earlier shipping change recorded: a hosted approval after
    them, with no shipping change in between, still creates its
    consignment for that address. *)
Theorem reinitialized_approval_consigns_to_the_earlier_address :
  forall (host host' : Host.t) (options : InitializeOptions.t)
         (cart : Cart.t) (this : Fields.t) (cartId : string)
         (consigned : list ConsignmentRequest.t),
    let this' :=
      Flow.state (Button.initialize host options
                    (Flow.state (Button.deinitialize this))) in
    In (GetConsignments cartId consigned)
       (Flow.events (Button._onHostedMethodApprove host' cart this')) ->
    exists address details unit,
      Fields._currentShippingAddress this = Some address
      /\ consigned
         = [ConsignmentRequest.mk (consigned_to address details unit)
              (Strategy._collectLineItems (Cart.lineItems cart))].
Proof.
  intros host host' options cart this cartId consigned this' H.
  apply consignment_requested in H.
  destruct H as [address [details [unit [units H]]]].
  destruct H as [Haddress [_ [_ [_ ->]]]].
  unfold this' in Haddress.
  destruct (initialize_keeps host options
              (Flow.state (Button.deinitialize this)))
    as [_ [_ [Hkept _]]].
  rewrite Hkept in Haddress.
  exists address, details, unit. split; [exact Haddress|reflexivity].
Qed.

Lemma reinitialized_approval_example :
  let consigned :=
    [ConsignmentRequest.mk
       (ContactAddress.mk "Austin" "TX" (Some "us") "Ada" "Lovelace"
          "ada@example.com" "1 Main Street")
       [CollectedLineItem.mk "item-1" 1%float]] in
  let this' :=
    Flow.state (Button.initialize Session.host Session.options
                  (Flow.state (Button.deinitialize Session.shipped))) in
  In (GetConsignments "cart-1" consigned)
     (Flow.events
        (Button._onHostedMethodApprove Session.host Scenario.physical_cart
           this'))
  /\ exists address details unit,
       Fields._currentShippingAddress Session.shipped = Some address
       /\ consigned
          = [ConsignmentRequest.mk (consigned_to address details unit)
               (Strategy._collectLineItems
                  (Cart.lineItems Scenario.physical_cart))].
Proof.
  intros consigned this'.
  assert (H : In (GetConsignments "cart-1" consigned)
                 (Flow.events
                    (Button._onHostedMethodApprove Session.host
                       Scenario.physical_cart this'))).
  { vm_compute. auto. }
  split; [exact H|].
  exact (@reinitialized_approval_consigns_to_the_earlier_address
           Session.host Session.host Session.options Scenario.physical_cart
           Session.shipped "cart-1" consigned H).
Defined.
